(** * go-mutesting: the mutation pipeline, embedded and verified

    The development follows the Go sources:
    - [mutator/loop/range_break.go]  (package [loop]): the operator
      [MutatorLoopRangeBreak];
    - the command's package [main]: [mainCmd]'s blacklist and
      mutator-selection loops, [mutate], [mutateExec], [saveAST]; further
      down the rest of it, [checkArguments], [mainCmd] as a whole and
      [main];
    - package [console], whose calls the harness makes, and the next-line
      filter of package [annotation].

    Go's syntax tree is a graph of heap nodes reached through pointers, and
    the operator's thunks assign to a pointer field; the tree is therefore
    modelled as a store from locations to nodes.  The harness talks to the
    file system and to child processes; that code is written in a state
    monad over an explicit [State] (files, blacklist, report, output). *)

From Stdlib Require Import ZArith Ascii String.
From stdpp Require Import gmap strings list fin_maps pretty.

Open Scope string_scope.
Open Scope list_scope.
Open Scope Z_scope.

(** ** Outcomes of Go code: return, panic, or process exit *)

Inductive outcome (A : Type) : Type :=
| Ret (a : A)              (* the function returned [a] *)
| Panic (msg : string)     (* [panic(...)], or a run-time panic *)
| Exit (code : Z).         (* [os.Exit] / [log.Fatal]: no deferred call runs *)
Arguments Ret {A} a.
Arguments Panic {A} msg.
Arguments Exit {A} code.

(** State-passing computations.  The state survives a panic, so that a
    deferred call can still act on it. *)
Definition M (S A : Type) : Type := S -> outcome A * S.

Definition ret {S A} (a : A) : M S A := fun s => (Ret a, s).

Definition bind {S A B} (m : M S A) (k : A -> M S B) : M S B :=
  fun s =>
    match m s with
    | (Ret a, s') => k a s'
    | (Panic msg, s') => (Panic msg, s')
    | (Exit c, s') => (Exit c, s')
    end.

Definition panic {S A} (msg : string) : M S A := fun s => (Panic msg, s).
Definition get {S} : M S S := fun s => (Ret s, s).
Definition gets {S A} (f : S -> A) : M S A := fun s => (Ret (f s), s).
Definition modify {S} (f : S -> S) : M S unit := fun s => (Ret tt, f s).

(** [defer d; body]: [d] runs when [body] returns and when it panics, not
    when the process exits.  A deferred call that returns leaves the result
    of [body] as it is; one that panics or exits replaces it. *)
Definition with_defer {S A} (d : M S unit) (body : M S A) : M S A :=
  fun s =>
    match body s with
    | (Exit c, s') => (Exit c, s')
    | (r, s') =>
        match d s' with
        | (Ret _, s'') => (r, s'')
        | (Panic msg, s'') => (Panic msg, s'')
        | (Exit c, s'') => (Exit c, s'')
        end
    end.

Declare Scope go_scope.
Delimit Scope go_scope with go.
Notation "x <- m ;; k" := (bind m (fun x => k))
  (at level 100, m at next level, right associativity) : go_scope.
Notation "m ;;; k" := (bind m (fun _ => k))
  (at level 100, right associativity) : go_scope.

(** ** Package go/ast and go/token: the nodes the operator touches *)

Module ast.

(** A pointer to a node. *)
Definition loc := positive.

(** [token.Token], the branch and range keywords. *)
Inductive Token := ILLEGAL | BREAK | CONTINUE | GOTO | FALLTHROUGH | ASSIGN | DEFINE.

(** [token.Pos]; [NoPos] is the zero value. *)
Definition Pos := Z.
Definition NoPos : Pos := 0.

Record BlockStmt := mkBlockStmt {
  Lbrace : Pos;
  List : list loc;          (* []Stmt: a slice of pointers to statements *)
  Rbrace : Pos }.

Record RangeStmt := mkRangeStmt {
  For : Pos;
  Key : option loc;
  Value : option loc;
  TokPos : Pos;
  Tok : Token;
  X : option loc;
  Body : option loc }.      (* *BlockStmt; [None] is nil *)

Record BranchStmt := mkBranchStmt {
  BrTokPos : Pos;
  BrTok : Token;
  Label : option loc }.     (* *Ident; [None]: no label *)

Inductive Node :=
| NRangeStmt (r : RangeStmt)
| NBlockStmt (b : BlockStmt)
| NBranchStmt (b : BranchStmt)
| NOther (kind : string) (children : list loc).   (* every other node type *)

(** The heap of syntax nodes. *)
Abbreviation Heap := (gmap loc Node).

(** [&T{...}]: a new node at a location not yet in use. *)
Definition new (v : Node) : M Heap loc :=
  fun h => let l := fresh (dom h) in (Ret l, <[l := v]> h).

Definition with_Body (r : RangeStmt) (b : option loc) : RangeStmt :=
  mkRangeStmt (For r) (Key r) (Value r) (TokPos r) (Tok r) (X r) b.

Definition with_List (b : BlockStmt) (l : list loc) : BlockStmt :=
  mkBlockStmt (Lbrace b) l (Rbrace b).

(** [n.Body = b] for [n : *RangeStmt]. *)
Definition set_Body (n : loc) (b : option loc) (h : Heap) : Heap :=
  match h !! n with
  | Some (NRangeStmt r) => <[n := NRangeStmt (with_Body r b)]> h
  | _ => h
  end.

(** [n.Body], for [n : *RangeStmt]. *)
Definition get_Body (n : loc) : M Heap (option loc) :=
  fun h =>
    match h !! n with
    | Some (NRangeStmt r) => (Ret (Body r), h)
    | _ => (Panic "invalid memory address or nil pointer dereference", h)
    end.

(** [p.List], for [p : *BlockStmt]; dereferencing nil panics. *)
Definition get_List (p : option loc) : M Heap (list loc) :=
  fun h =>
    match p with
    | None => (Panic "invalid memory address or nil pointer dereference", h)
    | Some l =>
        match h !! l with
        | Some (NBlockStmt b) => (Ret (List b), h)
        | _ => (Panic "invalid memory address or nil pointer dereference", h)
        end
    end.

(** [p.List = l], for a non-nil [p : *BlockStmt]. *)
Definition set_List (p : loc) (l : list loc) : M Heap unit :=
  fun h =>
    match h !! p with
    | Some (NBlockStmt b) => (Ret tt, <[p := NBlockStmt (with_List b l)]> h)
    | _ => (Panic "invalid memory address or nil pointer dereference", h)
    end.

End ast.

(** ** Package mutator: a Mutation is a pair of thunks over the tree *)

Module mutator.

Record Mutation := mkMutation {
  Change : ast.Heap -> ast.Heap;     (* Change func() *)
  Reset : ast.Heap -> ast.Heap }.    (* Reset func() *)

(** [type Mutator func(pkg, info, node) []Mutation]; an operator may
    allocate nodes, and panics on a nil dereference. *)
Definition Mutator := ast.loc -> M ast.Heap (list Mutation).

End mutator.

(** ** Package loop: mutator/loop/range_break.go *)

Module loop.
Import ast mutator.
Local Open Scope go_scope.

(** [MutatorLoopRangeBreak] implements a mutator to add a break to a
    range-loop body.  The package and type-info arguments are unused. *)
Definition MutatorLoopRangeBreak (node : loc) : M Heap (list Mutation) :=
  h <- get ;;
  match h !! node with
  | Some (NRangeStmt _) =>                  (* node is a *RangeStmt: ok *)
      let n := node in
      newBody <- new (NBlockStmt (mkBlockStmt NoPos [] NoPos)) ;;
      oldBody <- get_Body n ;;
      newBreakStmt <- new (NBranchStmt (mkBranchStmt NoPos BREAK None)) ;;
      l <- get_List (Some newBody) ;;
      set_List newBody (l ++ [newBreakStmt]) ;;;
      l <- get_List (Some newBody) ;;
      body <- get_Body n ;;
      l' <- get_List body ;;
      set_List newBody (l ++ l') ;;;
      ret [ mkMutation (set_Body n (Some newBody)) (set_Body n oldBody) ]
  | _ => ret []                             (* !ok: return nil *)
  end.

End loop.

(** ** Packages mutesting and annotation: the walker and its filters *)

Module mutesting.
Import ast mutator.

(** The children of a node, in the order [ast.Walk] visits them. *)
Definition opt_list (o : option loc) : list loc :=
  match o with Some l => [l] | None => [] end.

Definition children (v : Node) : list loc :=
  match v with
  | NRangeStmt r => opt_list (Key r) ++ opt_list (Value r) ++ opt_list (X r) ++ opt_list (Body r)
  | NBlockStmt b => List b
  | NBranchStmt b => opt_list (Label b)
  | NOther _ cs => cs
  end.

(** Depth-first pre-order listing of the nodes below [l]. *)
Fixpoint preorder (fuel : nat) (h : Heap) (l : loc) : list loc :=
  match fuel with
  | O => []
  | S f =>
      l :: match h !! l with
           | Some v => flat_map (preorder f h) (children v)
           | None => []
           end
  end.

Definition Walk_order (h : Heap) (root : loc) : list loc :=
  preorder (S (size h)) h root.

(** apply, yield, revert, for each proposed mutation in order: the trees
    handed over, and the tree afterwards. *)
Fixpoint yield_each (ms : list Mutation) (h : Heap) : list Heap * Heap :=
  match ms with
  | [] => ([], h)
  | m :: ms' =>
      let h1 := Change m h in
      let '(ys, h') := yield_each ms' (Reset m h1) in
      (h1 :: ys, h')
  end.

(** Modelled from the spec: the walker [MutateWalk] of package mutesting
    is missing from the sources.  The spec (4.E) has it visit the tree
    depth first in pre-order; at each node it calls the operator and, for
    each Mutation in order, invokes apply, yields the mutated tree to the
    consumer, and invokes revert before it goes on.  [nodes] is the
    visiting order.  The result: the trees yielded, in order, how the
    walk ended, and the tree it left. *)
Fixpoint MutateWalk (m : Mutator) (nodes : list loc) (h : Heap)
  : list Heap * (outcome unit * Heap) :=
  match nodes with
  | [] => ([], (Ret tt, h))
  | n :: rest =>
      match m n h with
      | (Ret ms, h1) =>
          let '(ys, h2) := yield_each ms h1 in
          let '(zs, r) := MutateWalk m rest h2 in
          (ys ++ zs, r)
      | (Panic msg, h1) => ([], (Panic msg, h1))
      | (Exit c, h1) => ([], (Exit c, h1))
      end
  end.

End mutesting.

Module annotation.
Import ast mutator.

(** [filter.NodeFilter]: should this node be skipped for this mutator? *)
Definition NodeFilter := loc -> string -> bool.

(** Modelled from the spec: [DecoratorFilter] of package annotation is
    missing from the sources.  The spec (4.E): if any filter rejects
    (node, operator name), the operator is treated as returning an empty
    mutation list at that node. *)
Definition DecoratorFilter (m : Mutator) (name : string) (filters : list NodeFilter)
  : Mutator :=
  fun node => if existsb (fun f => f node name) filters then ret [] else m node.

End annotation.

(** ** Machine integers and text helpers *)

(** Go's [int] on a 64-bit platform: two's complement, wrapping. *)
Definition int_wrap (z : Z) : Z := (z + 2 ^ 63) mod 2 ^ 64 - 2 ^ 63.

(** [x++] on an [int]. *)
Definition incr (x : Z) : Z := int_wrap (x + 1).

(** The line feed, written "\n" in Go. *)
Definition LF : string := String "010"%char EmptyString.

(** [fmt.Sprintf("%d", z)]. *)
Definition Sprintf_d (z : Z) : string := pretty z.

(** One hexadecimal digit, lower case, as [%x] prints it. *)
Definition hex_digit (n : N) : ascii :=
  match n with
  | 0%N => "0" | 1%N => "1" | 2%N => "2" | 3%N => "3"
  | 4%N => "4" | 5%N => "5" | 6%N => "6" | 7%N => "7"
  | 8%N => "8" | 9%N => "9" | 10%N => "a" | 11%N => "b"
  | 12%N => "c" | 13%N => "d" | 14%N => "e" | _ => "f"
  end%char.

(** [fmt.Sprintf("%x", b)] for a byte slice [b]: two digits per byte. *)
Fixpoint Sprintf_x (b : string) : string :=
  match b with
  | EmptyString => EmptyString
  | String c rest =>
      let n := N_of_ascii c in
      String (hex_digit (n / 16)) (String (hex_digit (n mod 16)) (Sprintf_x rest))
  end.

Definition is_hex_digit (c : ascii) : bool :=
  let n := N_of_ascii c in
  ((48 <=? n) && (n <=? 57) || (97 <=? n) && (n <=? 102))%N.

Fixpoint all_hex (s : string) : bool :=
  match s with
  | EmptyString => true
  | String c rest => is_hex_digit c && all_hex rest
  end.

(** [strings.HasPrefix(s, p)] and [strings.HasSuffix(s, p)]. *)
Fixpoint HasPrefix (s p : string) : bool :=
  match p, s with
  | EmptyString, _ => true
  | String a p', String b s' => if Ascii.eqb a b then HasPrefix s' p' else false
  | String _ _, EmptyString => false
  end.

Definition string_rev (s : string) : string :=
  string_of_list_ascii (rev (list_ascii_of_string s)).

Definition HasSuffix (s p : string) : bool :=
  HasPrefix (string_rev s) (string_rev p).

(** [strings.Split(s, sep)] for a one-byte separator: the pieces between
    separators, [n + 1] of them for [n] separators. *)
Fixpoint Split_aux (sep : ascii) (s : string) (cur : string) : list string :=
  match s with
  | EmptyString => [string_rev cur]
  | String c rest =>
      if Ascii.eqb c sep then string_rev cur :: Split_aux sep rest EmptyString
      else Split_aux sep rest (String c cur)
  end.

Definition Split (s : string) (sep : ascii) : list string :=
  Split_aux sep s EmptyString.

(** [s[:n]]: a slice expression panics when [n] is out of range. *)
Definition slice_to {S} (s : string) (n : Z) : M S string :=
  if (n <? 0) || (Z.of_nat (String.length s) <? n)
  then panic "slice bounds out of range"
  else ret (substring 0 (Z.to_nat n) s).

(** ** Package main: the go-mutesting command *)

Module main.
Local Open Scope go_scope.

(** A Go [error] value; [None] is [nil]. *)
Definition error := string.

Definition returnOk : Z := 0.
Definition returnHelp : Z := 1.
Definition returnBashCompletion : Z := 2.
Definition returnError : Z := 3.

(** The fields of [models.Options] that this file reads. *)
Record Options := mkOptions {
  General_Debug : bool;
  General_Verbose : bool;
  Files_Blacklist : list string;
  Mutator_DisableMutators : list string;
  Exec_Exec : string;
  Exec_NoExec : bool;
  Exec_Timeout : Z;
  Test_Recursive : bool;
  Config_SilentMode : bool }.

(** [models.Mutant], the per-mutant record of the report. *)
Record Mutant := mkMutant {
  MutatorName : string;
  OriginalFilePath : string;
  OriginalSourceCode : string;
  MutatedSourceCode : string;
  OriginalStartLine : Z;
  Diff : string;
  ProcessOutput : string }.

(** [models.Report] with its [Stats]. *)
Record Report := mkReport {
  Killed : list Mutant;
  Escaped : list Mutant;
  Errored : list Mutant;
  KilledCount : Z;
  EscapedCount : Z;
  SkippedCount : Z;
  DuplicatedCount : Z;
  ErrorCount : Z }.

Definition emptyReport : Report := mkReport [] [] [] 0 0 0 0 0.

(** What the process does to the outside, in order. *)
Inductive event :=
| Stdout (s : string)                        (* fmt.Printf, fmt.Println *)
| Stderr (s : string)                        (* fmt.Fprintf(os.Stderr, ...) *)
| Console (fn : string) (msg : string)       (* a call of package console *)
| Exec (argv : list string) (env : list string)
       (fs : gmap string string).            (* a child process, with the
                                                files it started on *)

(** The mutable state the harness works on: the files on disk, the map
    [mutationBlackList] and the report (both shared by reference in the
    Go code), and the trace of events. *)
Record State := mkState {
  files : gmap string string;
  mutationBlackList : gset string;
  report : Report;
  events : list event }.

Definition set_files (f : gmap string string) (s : State) : State :=
  mkState f (mutationBlackList s) (report s) (events s).
Definition set_mutationBlackList (b : gset string) (s : State) : State :=
  mkState (files s) b (report s) (events s).
Definition set_report (r : Report) (s : State) : State :=
  mkState (files s) (mutationBlackList s) r (events s).
Definition add_event (e : event) (s : State) : State :=
  mkState (files s) (mutationBlackList s) (report s) (events s ++ [e]).
Definition emit (e : event) : M State unit := modify (add_event e).

(** File-system calls, and how a child process ended: [err == nil], an
    [*exec.ExitError] with its exit status, or any other error. *)
Inductive syscall :=
| ReadFile (name : string)
| WriteFile (name : string)
| Rename (oldpath newpath : string)
| CopyFile (src dst : string).

Inductive cmd_err :=
| CmdNil
| ExitError (status : Z)
| OtherError (e : error).

(** What lies outside the repository: Go's printer, formatter and MD5,
    the quoting of [%q], the diff parser of package parser, the operating
    system's refusals (permissions, I/O errors), and child processes. *)
Class GoEnv := {
  FileSet : Type;
  printer_Fprint : FileSet -> ast.Heap -> ast.loc -> string * option error;
  format_Source : string -> string * option error;
  md5_Sum : string -> string;
  strconv_Quote : string -> string;
  parser_FindOriginalStartLine : string -> Z;
  os_refuses : syscall -> bool;
  exec_Run : list string -> list string -> gmap string string ->
             gmap string string * string * cmd_err }.

Section Harness.
Context `{GoEnv}.

Definition os_ReadFile (name : string) : M State (string * option error) :=
  s <- get ;;
  if os_refuses (ReadFile name) then ret ("", Some "permission denied")
  else match files s !! name with
       | Some c => ret (c, None)
       | None => ret ("", Some "no such file or directory")
       end.

Definition os_WriteFile (name data : string) : M State (option error) :=
  if os_refuses (WriteFile name) then ret (Some "permission denied")
  else modify (fun s => set_files (<[name := data]> (files s)) s) ;;; ret None.

Definition os_Rename (oldpath newpath : string) : M State (option error) :=
  s <- get ;;
  if os_refuses (Rename oldpath newpath) then ret (Some "permission denied")
  else match files s !! oldpath with
       | Some c =>
           modify (set_files (<[newpath := c]> (delete oldpath (files s)))) ;;;
           ret None
       | None => ret (Some "no such file or directory")
       end.

Definition osutil_CopyFile (src dst : string) : M State (option error) :=
  s <- get ;;
  if os_refuses (CopyFile src dst) then ret (Some "permission denied")
  else match files s !! src with
       | Some c => modify (set_files (<[dst := c]> (files s))) ;;; ret None
       | None => ret (Some "no such file or directory")
       end.

(** [exec.Command(argv...)] with [env] added to the environment, run to
    its end: the combined output and the error. *)
Definition exec_CombinedOutput (argv env : list string) : M State (string * cmd_err) :=
  s <- get ;;
  emit (Exec argv env (files s)) ;;;
  let '(fs', out, err) := exec_Run argv env (files s) in
  modify (set_files fs') ;;;
  ret (out, err).

Definition log_Fatal {A} (e : error) : M State A :=
  emit (Stderr e) ;;; (fun s => (Exit 1, s)).

Definition exitError (msg : string) : M State Z :=
  emit (Stderr (msg +:+ LF)) ;;; ret returnError.

Definition when (b : bool) (m : M State unit) : M State unit :=
  if b then m else ret tt.

(** [err == nil -> 0; *exec.ExitError -> its status; otherwise panic]. *)
Definition exitCodeOf (err : cmd_err) : M State Z :=
  match err with
  | CmdNil => ret 0
  | ExitError status => ret status
  | OtherError e => panic e
  end.

Definition saveAST (file : string) (fset : FileSet) (tree : ast.Heap) (node : ast.loc)
  : M State (string * bool * option error) :=
  let '(buf, err) := printer_Fprint fset tree node in
  match err with
  | Some e => ret ("", false, Some e)
  | None =>
      let checksum := Sprintf_x (md5_Sum buf) in
      bl <- gets mutationBlackList ;;
      if decide (checksum ∈ bl) then ret (checksum, true, None)
      else
        modify (set_mutationBlackList ({[checksum]} ∪ bl)) ;;;
        let '(src, err) := format_Source buf in
        match err with
        | Some e => ret ("", false, Some e)
        | None =>
            err <- os_WriteFile file src ;;
            match err with
            | Some e => ret ("", false, Some e)
            | None => ret (checksum, false, None)
            end
        end
  end.

Definition with_OriginalStartLine (m : Mutant) (l : Z) : Mutant :=
  mkMutant (MutatorName m) (OriginalFilePath m) (OriginalSourceCode m)
           (MutatedSourceCode m) l (Diff m) (ProcessOutput m).
Definition with_Diff (m : Mutant) (d : string) : Mutant :=
  mkMutant (MutatorName m) (OriginalFilePath m) (OriginalSourceCode m)
           (MutatedSourceCode m) (OriginalStartLine m) d (ProcessOutput m).
Definition with_MutatedSourceCode (m : Mutant) (c : string) : Mutant :=
  mkMutant (MutatorName m) (OriginalFilePath m) (OriginalSourceCode m)
           c (OriginalStartLine m) (Diff m) (ProcessOutput m).
Definition with_ProcessOutput (m : Mutant) (o : string) : Mutant :=
  mkMutant (MutatorName m) (OriginalFilePath m) (OriginalSourceCode m)
           (MutatedSourceCode m) (OriginalStartLine m) (Diff m) o.

(** The [switch execExitCode] that ends the built-in branch of
    [mutateExec]: the go-test status becomes the harness code. *)
Definition translate (opts : Options) (diff : string) (execExitCode : Z) : M State Z :=
  if execExitCode =? 0 then        (* Tests passed -> FAIL *)
    when (negb (Config_SilentMode opts)) (emit (Console "PrintDiff" diff)) ;;;
    ret 1
  else if execExitCode =? 1 then   (* Tests failed -> PASS *)
    when (General_Debug opts) (emit (Console "PrintDiff" diff)) ;;;
    ret 0
  else if execExitCode =? 2 then   (* Did not compile -> SKIP *)
    when (General_Verbose opts) (emit (Stdout ("Mutation did not compile" +:+ LF))) ;;;
    when (General_Debug opts) (emit (Console "PrintDiff" diff)) ;;;
    ret execExitCode
  else                             (* Unknown exit code *)
    when (negb (Config_SilentMode opts))
         (emit (Stdout ("Unknown exit code" +:+ LF)) ;;;
          emit (Console "PrintDiff" diff)) ;;;
    ret execExitCode.

(** [mutateExec]; [mutant] is passed by pointer in Go, so the updated
    record is returned next to the exit code. *)
Definition mutateExec (opts : Options) (pkgPath file mutationFile : string)
    (execs : list string) (mutant : Mutant) : M State (Z * Mutant) :=
  match execs with
  | [] =>
      emit (Console "Debug" "Execute built-in exec command for mutation") ;;;
      r <- exec_CombinedOutput
          ["diff"; "--label=Original"; "--label=New"; "-u"; file; mutationFile] [] ;;
      let '(diff, err) := r in
      let startLine := parser_FindOriginalStartLine diff in
      let mutant := with_OriginalStartLine mutant startLine in
      execExitCode <- exitCodeOf err ;;
      (if negb (execExitCode =? 0) && negb (execExitCode =? 1)
       then emit (Stdout (diff +:+ LF)) ;;;
            panic "Could not execute diff on mutation file"
       else ret tt) ;;;
      with_defer
        (_ <- os_Rename (file +:+ ".tmp") file ;; ret tt)
        (err <- os_Rename file (file +:+ ".tmp") ;;
         match err with
         | Some e => panic e
         | None =>
             err <- osutil_CopyFile mutationFile file ;;
             match err with
             | Some e => panic e
             | None =>
                 let pkgName :=
                   if Test_Recursive opts then pkgPath +:+ "/..." else pkgPath in
                 r <- exec_CombinedOutput
                     ["go"; "test"; "-timeout"; Sprintf_d (Exec_Timeout opts) +:+ "s"; pkgName] [] ;;
                 let '(test, err) := r in
                 execExitCode <- exitCodeOf err ;;
                 when (General_Debug opts) (emit (Stdout (test +:+ LF))) ;;;
                 let mutant := with_Diff mutant diff in
                 execExitCode <- translate opts diff execExitCode ;;
                 ret (execExitCode, mutant)
             end
         end)
  | name :: args =>
      emit (Console "Debug"
              ("Execute " +:+ strconv_Quote (Exec_Exec opts) +:+ " for mutation")) ;;;
      let env :=
        ([ "MUTATE_CHANGED=" +:+ mutationFile;
           "MUTATE_DEBUG=" +:+ (if General_Debug opts then "true" else "false");
           "MUTATE_ORIGINAL=" +:+ file;
           "MUTATE_PACKAGE=" +:+ pkgPath;
           "MUTATE_TIMEOUT=" +:+ Sprintf_d (Exec_Timeout opts);
           "MUTATE_VERBOSE=" +:+ (if General_Verbose opts then "true" else "false") ]
         ++ (if Test_Recursive opts then ["TEST_RECURSIVE=true"] else [])) in
      r <- exec_CombinedOutput (name :: args) env ;;
      let '(out, err) := r in
      emit (Stdout out) ;;;
      execExitCode <- exitCodeOf err ;;
      ret (execExitCode, mutant)
  end.

(** [type mutatorItem struct { Name string; Mutator mutator.Mutator }] *)
Record mutatorItem := mkMutatorItem {
  Name : string;
  Mutator : mutator.Mutator }.

Definition update_report (f : Report -> Report) : M State unit :=
  modify (fun s => set_report (f (report s)) s).

Definition add_Killed (mutant : Mutant) (r : Report) : Report :=
  mkReport (Killed r ++ [mutant]) (Escaped r) (Errored r)
           (incr (KilledCount r)) (EscapedCount r) (SkippedCount r)
           (DuplicatedCount r) (ErrorCount r).
Definition add_Escaped (mutant : Mutant) (r : Report) : Report :=
  mkReport (Killed r) (Escaped r ++ [mutant]) (Errored r)
           (KilledCount r) (incr (EscapedCount r)) (SkippedCount r)
           (DuplicatedCount r) (ErrorCount r).
Definition add_Skipped (r : Report) : Report :=
  mkReport (Killed r) (Escaped r) (Errored r)
           (KilledCount r) (EscapedCount r) (incr (SkippedCount r))
           (DuplicatedCount r) (ErrorCount r).
Definition add_Errored (mutant : Mutant) (r : Report) : Report :=
  mkReport (Killed r) (Escaped r) (Errored r ++ [mutant])
           (KilledCount r) (EscapedCount r) (SkippedCount r)
           (DuplicatedCount r) (incr (ErrorCount r)).
Definition add_Duplicated (r : Report) : Report :=
  mkReport (Killed r) (Escaped r) (Errored r)
           (KilledCount r) (EscapedCount r) (SkippedCount r)
           (incr (DuplicatedCount r)) (ErrorCount r).

(** The [switch execExitCode] of [mutate]. *)
Definition classify (opts : Options) (msg : string) (execExitCode : Z) (mutant : Mutant)
  : M State unit :=
  if execExitCode =? 0 then        (* Tests failed - all ok *)
    let out := "PASS " +:+ msg +:+ LF in
    when (negb (Config_SilentMode opts)) (emit (Console "PrintPass" out)) ;;;
    update_report (add_Killed (with_ProcessOutput mutant out))
  else if execExitCode =? 1 then   (* Tests passed *)
    let out := "FAIL " +:+ msg +:+ LF in
    when (negb (Config_SilentMode opts)) (emit (Console "PrintFail" out)) ;;;
    update_report (add_Escaped (with_ProcessOutput mutant out))
  else if execExitCode =? 2 then   (* Did not compile *)
    let out := "SKIP " +:+ msg +:+ LF in
    when (negb (Config_SilentMode opts)) (emit (Console "PrintSkip" out)) ;;;
    update_report add_Skipped
  else
    let out := "UNKOWN exit code for " +:+ msg +:+ LF in
    when (negb (Config_SilentMode opts)) (emit (Console "PrintUnknown" out)) ;;;
    update_report (add_Errored (with_ProcessOutput mutant out)).

(** The body of [mutate]'s receive loop: what is done with one tree
    handed over by the walker ([tree] is the syntax tree as mutated in
    place at that moment, [src] its root). *)
Definition mutate_mutant (opts : Options) (m : mutatorItem) (mutationID : Z)
    (pkgPath originalFile : string) (fset : FileSet) (tree : ast.Heap) (src : ast.loc)
    (mutatedFile : string) (execs : list string) : M State unit :=
  r <- os_ReadFile originalFile ;;
  let '(originalSourceCode, err) := r in
  match err with
  | Some e => log_Fatal e
  | None =>
      let mutant := mkMutant (Name m) originalFile originalSourceCode "" 0 "" "" in
      let mutationFile := mutatedFile +:+ "." +:+ Sprintf_d mutationID in
      r <- saveAST mutationFile fset tree src ;;
      let '(checksum, duplicate, err) := r in
      match err with
      | Some e => emit (Stdout ("INTERNAL ERROR " +:+ e +:+ LF))
      | None =>
          if (duplicate : bool) then
            emit (Console "Debug"
                    (strconv_Quote mutationFile +:+ " is a duplicate, we ignore it")) ;;;
            update_report add_Duplicated
          else
            emit (Console "Debug"
                    ("Save mutation into " +:+ strconv_Quote mutationFile
                     +:+ " with checksum " +:+ checksum)) ;;;
            if negb (Exec_NoExec opts) then
              r <- mutateExec opts pkgPath originalFile mutationFile execs mutant ;;
              let '(execExitCode, mutant) := r in
              emit (Console "Debug" ("Exited with " +:+ Sprintf_d execExitCode)) ;;;
              r <- os_ReadFile mutationFile ;;
              let '(mutatedSourceCode, err) := r in
              match err with
              | Some e => log_Fatal e
              | None =>
                  let mutant := with_MutatedSourceCode mutant mutatedSourceCode in
                  let msg := strconv_Quote mutationFile +:+ " with checksum " +:+ checksum in
                  classify opts msg execExitCode mutant
              end
            else ret tt
      end
  end.

(** The receive loop over the trees [changed] delivers. *)
Fixpoint mutate_changed (opts : Options) (m : mutatorItem) (mutationID : Z)
    (pkgPath originalFile : string) (fset : FileSet) (src : ast.loc)
    (mutatedFile : string) (execs : list string) (changed : list ast.Heap) : M State Z :=
  match changed with
  | [] => ret mutationID
  | tree :: rest =>
      mutate_mutant opts m mutationID pkgPath originalFile fset tree src mutatedFile execs ;;;
      mutate_changed opts m (incr mutationID) pkgPath originalFile fset src
                     mutatedFile execs rest
  end.

(** [mutate]: one walk per mutator.  The walker runs as a goroutine and
    hands the tree over a channel; here its run is the list of trees it
    delivers, and a panic of the operator ends the process after the
    trees delivered before it were handled. *)
Fixpoint mutate (opts : Options) (mutators : list mutatorItem) (mutationID : Z)
    (pkgPath originalFile : string) (fset : FileSet) (tree : ast.Heap)
    (src node : ast.loc) (mutatedFile : string) (execs : list string)
    (filters : list annotation.NodeFilter) : M State Z :=
  match mutators with
  | [] => ret mutationID
  | m :: rest =>
      emit (Console "Debug" ("Mutator " +:+ Name m)) ;;;
      let mutatorAnnotated := annotation.DecoratorFilter (Mutator m) (Name m) filters in
      let '(changed, (ended, tree')) :=
        mutesting.MutateWalk mutatorAnnotated (mutesting.Walk_order tree node) tree in
      mutationID <- mutate_changed opts m mutationID pkgPath originalFile fset src
                                   mutatedFile execs changed ;;
      match ended with
      | Ret _ => mutate opts rest mutationID pkgPath originalFile fset tree'
                        src node mutatedFile execs filters
      | Panic msg => panic msg
      | Exit c => fun s => (Exit c, s)
      end
  end.

(** [mainCmd]: the loop over the blacklist files.  [Some code] is an
    early [return code]. *)
Fixpoint mainCmd_blacklist_lines (lines : list string) : M State (option Z) :=
  match lines with
  | [] => ret None
  | line :: rest =>
      if String.eqb line "" then mainCmd_blacklist_lines rest
      else if negb (Z.of_nat (String.length line) =? 32) then
        code <- exitError (strconv_Quote line +:+ " is not a MD5 checksum") ;;
        ret (Some code)
      else
        modify (fun s => set_mutationBlackList ({[line]} ∪ mutationBlackList s) s) ;;;
        mainCmd_blacklist_lines rest
  end.

Fixpoint mainCmd_blacklist (blacklist : list string) : M State (option Z) :=
  match blacklist with
  | [] => ret None
  | f :: rest =>
      r <- os_ReadFile f ;;
      let '(c, err) := r in
      match err with
      | Some e =>
          code <- exitError ("Cannot read blacklist file " +:+ strconv_Quote f
                             +:+ ": " +:+ e) ;;
          ret (Some code)
      | None =>
          r <- mainCmd_blacklist_lines (Split c "010") ;;
          match r with
          | Some code => ret (Some code)
          | None => mainCmd_blacklist rest
          end
      end
  end.

(** [mainCmd], loop [MUTATOR]: the mutators that stay enabled.  The
    condition of the inner loop, for one name and one disable argument. *)
Definition disables (d name : string) : M State bool :=
  let pattern := HasSuffix d "*" in
  if pattern then
    prefix <- slice_to d (Z.of_nat (String.length d) - 2) ;;
    ret (HasPrefix name prefix)
  else ret (String.eqb name d).

Fixpoint disabled (disableMutators : list string) (name : string) : M State bool :=
  match disableMutators with
  | [] => ret false
  | d :: rest =>
      b <- disables d name ;;
      if (b : bool) then ret true else disabled rest name
  end.

(** [registry] stands for package mutator's table: [mutator.List()] are
    its names and [mutator.New] looks one up. *)
Fixpoint mainCmd_mutators (opts : Options) (registry : list (string * mutator.Mutator))
  : M State (list mutatorItem) :=
  match registry with
  | [] => ret []
  | (name, m) :: rest =>
      skip <- disabled (Mutator_DisableMutators opts) name ;;
      if (skip : bool) then mainCmd_mutators opts rest
      else
        emit (Console "Verbose" ("Enable mutator " +:+ strconv_Quote name)) ;;;
        mutators <- mainCmd_mutators opts rest ;;
        ret (mkMutatorItem name m :: mutators)
  end.

(** [mainCmd] from the blacklist on; [rest] is everything after the
    mutator selection (the walk over the files and the report). *)
Definition mainCmd_from_blacklist (opts : Options)
    (registry : list (string * mutator.Mutator))
    (rest : list mutatorItem -> M State Z) : M State Z :=
  r <- mainCmd_blacklist (Files_Blacklist opts) ;;
  match r with
  | Some code => ret code
  | None =>
      mutators <- mainCmd_mutators opts registry ;;
      rest mutators
  end.

End Harness.
End main.

(** ** Vocabulary of the statements *)

Section Vocabulary.
Import ast main.
Context `{GoEnv}.

Definition is_RangeStmt (h : Heap) (l : loc) : bool :=
  match h !! l with Some (NRangeStmt _) => true | _ => false end.

(** Every range statement among [nodes] has a block for its body, as the
    Go parser builds them. *)
Definition block_bodies (h : Heap) (nodes : list loc) : Prop :=
  forall l r, In l nodes -> h !! l = Some (NRangeStmt r) ->
    exists ob b, Body r = Some ob /\ h !! ob = Some (NBlockStmt b).

(** [h'] has every node of [h], unchanged, and no range statement besides. *)
Definition extends (h h' : Heap) : Prop :=
  (forall l v, h !! l = Some v -> h' !! l = Some v) /\
  (forall l r, h' !! l = Some (NRangeStmt r) -> h !! l = Some (NRangeStmt r)).

(** The range statement [r'] is [r] with [b] for its body: the field
    [Body] reads [b], every other field reads as in [r]. *)
Definition body_replaced (r r' : RangeStmt) (b : option loc) : Prop :=
  Body r' = b /\ For r' = For r /\ Key r' = Key r /\ Value r' = Value r /\
  TokPos r' = TokPos r /\ Tok r' = Tok r /\ X r' = X r.

(** The tree [y] is the tree [h] with a [break] put first in the range
    loop [l]: the loop's body is a block that was not in [h], which holds
    an unlabelled [break] that was not in [h] and then the statements of
    the loop's body in [h], in order; the loop's other fields, and every
    other node of [h], are as in [h]. *)
Definition break_prepended (h : Heap) (l : loc) (y : Heap) : Prop :=
  exists r ob b r' nb blk br s,
    h !! l = Some (NRangeStmt r) /\ Body r = Some ob /\ h !! ob = Some (NBlockStmt b) /\
    y !! l = Some (NRangeStmt r') /\ body_replaced r r' (Some nb) /\
    y !! nb = Some (NBlockStmt blk) /\ List blk = br :: List b /\
    y !! br = Some (NBranchStmt s) /\ BrTok s = BREAK /\ Label s = None /\
    h !! nb = None /\ h !! br = None /\
    (forall l' v, l' <> l -> h !! l' = Some v -> y !! l' = Some v).

(** The exit status of a finished child process, if it has one. *)
Definition raw_status (err : cmd_err) : option Z :=
  match err with
  | CmdNil => Some 0
  | ExitError status => Some status
  | OtherError _ => None
  end.

(** The inversion of the go-test status, as the spec words it. *)
Definition invert (code : Z) : Z :=
  if code =? 0 then 1 else if code =? 1 then 0 else code.

(** The four classes of an executed mutant, by harness code. *)
Inductive bucket := BKilled | BEscaped | BSkipped | BErrored.

Definition bucket_of (code : Z) : bucket :=
  if code =? 0 then BKilled
  else if code =? 1 then BEscaped
  else if code =? 2 then BSkipped
  else BErrored.

(** A counter that went up by one, from [old] to [new]: one more, as long
    as that is an [int] of 64 bits; from the greatest [int] it goes to the
    least, as Go's arithmetic does. *)
Definition plus_one (old new : Z) : Prop :=
  new = int_wrap (old + 1) /\
  (- 2 ^ 63 <= old < 2 ^ 63 - 1 -> new = old + 1) /\
  (old = 2 ^ 63 - 1 -> new = - 2 ^ 63) /\
  - 2 ^ 63 <= new < 2 ^ 63.

(** The record [m] of a mutant that was run: the record [mutant] that
    [mutateExec] gave back, with the text of the mutant's file for its
    mutated source code and some process output. *)
Definition completed (mutant : Mutant) (mutated : string) (m : Mutant) : Prop :=
  MutatorName m = MutatorName mutant /\ OriginalFilePath m = OriginalFilePath mutant /\
  OriginalSourceCode m = OriginalSourceCode mutant /\
  OriginalStartLine m = OriginalStartLine mutant /\ Diff m = Diff mutant /\
  MutatedSourceCode m = mutated.

(** What the spec says a class does to the report: the mutant's record
    [m] is appended to the class's list, if it has one, and the class's
    counter goes up by one; nothing else moves. *)
Definition recorded (b : bucket) (m : Mutant) (r r' : Report) : Prop :=
  Killed r' = Killed r ++ (if b is BKilled then [m] else []) /\
  Escaped r' = Escaped r ++ (if b is BEscaped then [m] else []) /\
  Errored r' = Errored r ++ (if b is BErrored then [m] else []) /\
  (if b is BKilled then plus_one (KilledCount r) (KilledCount r')
   else KilledCount r' = KilledCount r) /\
  (if b is BEscaped then plus_one (EscapedCount r) (EscapedCount r')
   else EscapedCount r' = EscapedCount r) /\
  (if b is BSkipped then plus_one (SkippedCount r) (SkippedCount r')
   else SkippedCount r' = SkippedCount r) /\
  (if b is BErrored then plus_one (ErrorCount r) (ErrorCount r')
   else ErrorCount r' = ErrorCount r) /\
  DuplicatedCount r' = DuplicatedCount r.

Definition is_Exec (e : event) : bool :=
  match e with Exec _ _ _ => true | _ => false end.

Definition is_go_test (e : event) : bool :=
  match e with Exec ("go" :: _) _ _ => true | _ => false end.

(** [s'] is [s] with output added: no child process, and the files, the
    blacklist and the report as they were. *)
Definition only_output (s s' : State) : Prop :=
  files s' = files s /\ mutationBlackList s' = mutationBlackList s /\
  report s' = report s /\
  exists evs, events s' = events s ++ evs /\
              forallb (fun e => negb (is_Exec e)) evs = true.

(** Child processes leave the source file and the copy set aside alone. *)
Definition frame_cmds (file : string) : Prop :=
  forall argv env fs,
    (exec_Run argv env fs).1.1 !! file = fs !! file /\
    (exec_Run argv env fs).1.1 !! (file +:+ ".tmp") = fs !! (file +:+ ".tmp").

(** Every run of the tests among [evs] started on a tree where the
    original ([c]) was set aside and the mutant stood in its place. *)
Definition test_on_swap (file mutationFile c : string) (evs : list event) : Prop :=
  forall argv env fs,
    In (Exec ("go" :: argv) env fs) evs ->
    fs !! (file +:+ ".tmp") = Some c /\ fs !! file = fs !! mutationFile /\
    is_Some (fs !! file).

(** The state of the files after [mutateExec], whatever its outcome [r]. *)
Definition restored (file mutationFile c : string) (s : State)
    (r : outcome (Z * Mutant)) (s' : State) : Prop :=
  files s' !! file = Some c /\
  files s' !! (file +:+ ".tmp") = None /\
  (forall code, r <> Exit code) /\
  exists evs, events s' = events s ++ evs /\ test_on_swap file mutationFile c evs.

(** The non-empty lines of a blacklist file. *)
Definition entries (lines : list string) : list string :=
  List.filter (fun l => negb (String.eqb l "")) lines.

Definition well_sized (line : string) : bool :=
  String.eqb line "" || (Z.of_nat (String.length line) =? 32).

(** The report after a duplicate: DuplicatedCount up by one, all else as
    it was. *)
Definition only_duplicated (r r' : Report) : Prop :=
  Killed r' = Killed r /\ Escaped r' = Escaped r /\ Errored r' = Errored r /\
  KilledCount r' = KilledCount r /\ EscapedCount r' = EscapedCount r /\
  SkippedCount r' = SkippedCount r /\ ErrorCount r' = ErrorCount r /\
  plus_one (DuplicatedCount r) (DuplicatedCount r').

(** Neither the report nor the blacklist differ. *)
Definition same_books (s s' : State) : Prop :=
  report s' = report s /\ mutationBlackList s' = mutationBlackList s.

(** All the lines of the blacklist files, in order, if every file can be
    read. *)
Fixpoint blacklist_lines (s : State) (blacklist : list string) : option (list string) :=
  match blacklist with
  | [] => Some []
  | f :: rest =>
      if os_refuses (ReadFile f) then None
      else match files s !! f, blacklist_lines s rest with
           | Some c, Some ls => Some (Split c "010" ++ ls)
           | _, _ => None
           end
  end.

(** The names of the mutators a selection ends with. *)
Definition names_of (r : outcome (list mutatorItem)) : outcome (list string) :=
  match r with
  | Ret ms => Ret (map Name ms)
  | Panic e => Panic e
  | Exit c => Exit c
  end.

(** Two runs agree in what they return and in what they put out. *)
Definition eq_out {A} (x y : outcome A * State) : Prop :=
  x.1 = y.1 /\ events x.2 = events y.2.

End Vocabulary.

(** An environment that differs from [E] in one thing: the operating system
    also refuses the call [sc]. *)
#[local] Instance syscall_eq_dec : EqDecision main.syscall.
Proof. solve_decision. Defined.

Definition refusing (E : main.GoEnv) (sc : main.syscall) : main.GoEnv :=
  {| main.FileSet := @main.FileSet E;
     main.printer_Fprint := @main.printer_Fprint E;
     main.format_Source := @main.format_Source E;
     main.md5_Sum := @main.md5_Sum E;
     main.strconv_Quote := @main.strconv_Quote E;
     main.parser_FindOriginalStartLine := @main.parser_FindOriginalStartLine E;
     main.os_refuses := fun c => if decide (c = sc) then true else @main.os_refuses E c;
     main.exec_Run := @main.exec_Run E |}.

(** ** A concrete environment, for the examples

    [crypto/md5] is the real MD5; the printer, the formatter and the child
    processes are small stand-ins with the properties of the real ones that
    matter here: the printer is a function of the tree, the formatter
    normalises white space and rejects what is not a source file. *)

Module md5.

(** The MD5 message digest (RFC 1321), as Go's [crypto/md5] computes it. *)
Definition mask32 (x : Z) : Z := x mod 2 ^ 32.

Definition rotl (x c : Z) : Z :=
  mask32 (Z.lor (Z.shiftl x c) (Z.shiftr x (32 - c))).

Definition not32 (x : Z) : Z := 4294967295 - x.

Definition shifts : list Z :=
  [ 7; 12; 17; 22; 7; 12; 17; 22; 7; 12; 17; 22; 7; 12; 17; 22;
    5; 9; 14; 20; 5; 9; 14; 20; 5; 9; 14; 20; 5; 9; 14; 20;
    4; 11; 16; 23; 4; 11; 16; 23; 4; 11; 16; 23; 4; 11; 16; 23;
    6; 10; 15; 21; 6; 10; 15; 21; 6; 10; 15; 21; 6; 10; 15; 21 ].

Definition sines : list Z :=
  [ 3614090360; 3905402710; 606105819; 3250441966;
    4118548399; 1200080426; 2821735955; 4249261313;
    1770035416; 2336552879; 4294925233; 2304563134;
    1804603682; 4254626195; 2792965006; 1236535329;
    4129170786; 3225465664; 643717713; 3921069994;
    3593408605; 38016083; 3634488961; 3889429448;
    568446438; 3275163606; 4107603335; 1163531501;
    2850285829; 4243563512; 1735328473; 2368359562;
    4294588738; 2272392833; 1839030562; 4259657740;
    2763975236; 1272893353; 4139469664; 3200236656;
    681279174; 3936430074; 3572445317; 76029189;
    3654602809; 3873151461; 530742520; 3299628645;
    4096336452; 1126891415; 2878612391; 4237533241;
    1700485571; 2399980690; 4293915773; 2240044497;
    1873313359; 4264355552; 2734768916; 1309151649;
    4149444226; 3174756917; 718787259; 3951481745 ].

Definition step (M : list Z) (st : Z * Z * Z * Z) (i : nat) : Z * Z * Z * Z :=
  let '(a, b, c, d) := st in
  let j := Z.of_nat i in
  let '(f, g) :=
    if j <? 16 then (Z.lor (Z.land b c) (Z.land (not32 b) d), j)
    else if j <? 32 then (Z.lor (Z.land d b) (Z.land (not32 d) c), (5 * j + 1) mod 16)
    else if j <? 48 then (Z.lxor (Z.lxor b c) d, (3 * j + 5) mod 16)
    else (Z.lxor c (Z.lor b (not32 d)), (7 * j) mod 16) in
  let f := mask32 (f + a + nth i sines 0 + nth (Z.to_nat g) M 0) in
  (d, mask32 (b + rotl f (nth i shifts 0)), b, c).

Definition block (st : Z * Z * Z * Z) (M : list Z) : Z * Z * Z * Z :=
  let '(a0, b0, c0, d0) := st in
  let '(a, b, c, d) := fold_left (step M) (seq 0 64) st in
  (mask32 (a0 + a), mask32 (b0 + b), mask32 (c0 + c), mask32 (d0 + d)).

(** Little-endian bytes of a word, and back. *)
Definition le_bytes (n : nat) (x : Z) : list Z :=
  map (fun k => Z.shiftr x (8 * Z.of_nat k) mod 256) (seq 0 n).

Fixpoint words (fuel : nat) (bs : list Z) : list Z :=
  match fuel, bs with
  | S f, b0 :: b1 :: b2 :: b3 :: rest =>
      (b0 + 256 * b1 + 65536 * b2 + 16777216 * b3) :: words f rest
  | _, _ => []
  end.

Fixpoint blocks (fuel : nat) (ws : list Z) (st : Z * Z * Z * Z) : Z * Z * Z * Z :=
  match fuel, ws with
  | S f, _ :: _ => blocks f (skipn 16 ws) (block st (firstn 16 ws))
  | _, _ => st
  end.

Definition pad (msg : list Z) : list Z :=
  let len := Z.of_nat (length msg) in
  let zeros := Z.to_nat ((55 - len) mod 64) in
  msg ++ [128] ++ repeat 0 zeros ++ le_bytes 8 (8 * len).

Definition bytes_of (s : string) : list Z :=
  map (fun c => Z.of_N (N_of_ascii c)) (list_ascii_of_string s).

Definition string_of (bs : list Z) : string :=
  string_of_list_ascii (map (fun b => ascii_of_N (Z.to_N b)) bs).

Definition Sum (s : string) : string :=
  let p := pad (bytes_of s) in
  let ws := words (length p) p in
  let '(a, b, c, d) :=
    blocks (length ws) ws (1732584193, 4023233417, 2562383102, 271733878) in
  string_of (le_bytes 4 a ++ le_bytes 4 b ++ le_bytes 4 c ++ le_bytes 4 d).

End md5.

Module demo.
Import ast mutator main.

Definition quote (s : string) : string :=
  String "034" (s +:+ String "034" EmptyString).

Definition label (v : Node) : string :=
  match v with
  | NRangeStmt _ => "for range"
  | NBlockStmt _ => "{"
  | NBranchStmt b =>
      match BrTok b with BREAK => "break" | CONTINUE => "continue" | _ => "goto" end
  | NOther kind _ => kind
  end.

(** The printer: the labels of the nodes, in the order of the walk. *)
Definition Fprint (_ : unit) (h : Heap) (node : loc) : string * option error :=
  match h !! node with
  | None => ("", Some "nil node")
  | Some _ =>
      (String.concat " "
         (omap (fun l => label <$> h !! l) (mutesting.Walk_order h node)), None)
  end.

(** The formatter: tabs become spaces; a text that does not start with
    the package clause is rejected. *)
Fixpoint untab (s : string) : string :=
  match s with
  | EmptyString => EmptyString
  | String c rest => String (if Ascii.eqb c "009" then " "%char else c) (untab rest)
  end.

Definition Source (s : string) : string * option error :=
  if HasPrefix s "package " then (untab s, None)
  else ("", Some "expected 'package'").

(** Child processes: [diff] finds a difference; anything else (the tests)
    ends as [test] says. *)
Definition Run (test : cmd_err) (argv env : list string) (fs : gmap string string)
  : gmap string string * string * cmd_err :=
  match argv with
  | "diff" :: _ => (fs, "@@ -1 +1 @@", ExitError 1)
  | _ => (fs, "ok", test)
  end.

Definition env (test : cmd_err) : GoEnv :=
  {| FileSet := unit;
     printer_Fprint := Fprint;
     format_Source := Source;
     md5_Sum := md5.Sum;
     strconv_Quote := quote;
     parser_FindOriginalStartLine := fun _ => 1;
     os_refuses := fun _ => false;
     exec_Run := Run test |}.

Definition opts : Options :=
  mkOptions false false [] [] "" false 10 false false.

(** A file with two range loops, one statement in each. *)
Definition range_over (body : loc) : Node :=
  NRangeStmt (mkRangeStmt 10 None None 0 DEFINE None (Some body)).

Definition two_loops : Heap :=
  list_to_map
    [ (1%positive, NOther "package p" [2; 5]%positive);
      (2%positive, range_over 3%positive);
      (3%positive, NBlockStmt (mkBlockStmt 20 [4%positive] 30));
      (4%positive, NOther "f()" []);
      (5%positive, range_over 6%positive);
      (6%positive, NBlockStmt (mkBlockStmt 40 [7%positive] 50));
      (7%positive, NOther "g()" []) ].

(** Two one-node trees whose printed texts differ in white space only. *)
Definition tabbed : Heap := {[ 1%positive := NOther ("package p; var x" +:+ String "009" "= 1") [] ]}.
Definition spaced : Heap := {[ 1%positive := NOther "package p; var x = 1" [] ]}.

(** A tree the formatter rejects. *)
Definition broken : Heap := {[ 1%positive := NOther "func (" [] ]}.

Definition state0 : State :=
  mkState {[ "a.go" := "package p // original" ]} ∅ emptyReport [].

Definition item : mutatorItem := mkMutatorItem "loop/range_break" loop.MutatorLoopRangeBreak.

(** The printed text of [tabbed], and its fingerprint. *)
Definition tabbed_text : string := fst (Fprint tt tabbed 1%positive).
Definition tabbed_sum : string := Sprintf_x (md5.Sum tabbed_text).

(** The printed text of [broken]. *)
Definition broken_text : string := fst (Fprint tt broken 1%positive).

(** A run under way: the mutant [tmp/a.go.0] is on disk. *)
Definition state1 : State :=
  mkState {[ "a.go" := "package p // original"; "tmp/a.go.0" := "package p // mutant" ]}
          ∅ emptyReport [].


Definition mutant0 : Mutant :=
  mkMutant "loop/range_break" "a.go" "package p // original" "" 0 "" "".

(** What the operator proposes at the first loop of [two_loops]. *)
Definition proposed : Mutation :=
  mkMutation (set_Body 2%positive (Some 8%positive)) (set_Body 2%positive (Some 3%positive)).
Definition after_proposal : Heap :=
  snd (loop.MutatorLoopRangeBreak 2%positive two_loops).

(** A blacklist file with one line of 32 bytes that are no hexadecimal
    digits, and one with a line of 31. *)
Definition state_z : State :=
  mkState {[ "blacklist" := "zzzzzzzzzzzzzzzzzzzzzzzzzzzzzzzz";
             "short" := "d41d8cd98f00b204e9800998ecf8427" ]} ∅ emptyReport [].

Definition disabling (ds : list string) : Options :=
  mkOptions false false [] ds "" false 10 false false.

Definition with_blacklist (fs : list string) : Options :=
  mkOptions false false fs [] "" false 10 false false.

(** A registry with four names; the operators of the other packages are
    not among the sources, an operator that proposes nothing stands in. *)
Definition other : mutator.Mutator := fun _ => ret [].

Definition registry : list (string * mutator.Mutator) :=
  [ ("arithmetic/assignment", other);
    ("arithmetic/base", other);
    ("arithmetic/bitwise", other);
    ("loop/range_break", loop.MutatorLoopRangeBreak) ].

End demo.

(** ** More vocabulary *)

Section MoreVocabulary.
Import ast main.
Context `{GoEnv}.

(** No child process among [evs]. *)
Definition no_child (evs : list event) : bool :=
  forallb (fun e => negb (is_Exec e)) evs.

(** The part of the report that only an executed mutant changes: all of
    it but the count of duplicates. *)
Definition executed_part (r : Report)
  : list Mutant * list Mutant * list Mutant * Z * Z * Z * Z :=
  (Killed r, Escaped r, Errored r, KilledCount r, EscapedCount r, SkippedCount r,
   ErrorCount r).

(** [s'] is [s] after a stretch in which no child process ran and no
    mutant was classified. *)
Definition idle (s s' : State) : Prop :=
  (exists evs, events s' = events s ++ evs /\ no_child evs = true) /\
  executed_part (report s') = executed_part (report s).

(** The arguments of the built-in diff. *)
Definition diff_argv (file mutationFile : string) : list string :=
  ["diff"; "--label=Original"; "--label=New"; "-u"; file; mutationFile].

(** A text file of the lines [ls], each ended by a line feed. *)
Fixpoint unlines (ls : list string) : string :=
  match ls with
  | [] => ""
  | l :: rest => l +:+ LF +:+ unlines rest
  end.

Fixpoint no_LF (l : string) : bool :=
  match l with
  | EmptyString => true
  | String c rest => negb (Ascii.eqb c "010") && no_LF rest
  end.

(** A line that holds a fingerprint of the size [saveAST] returns: 32
    bytes, none of them a line feed. *)
Definition checksum_line (l : string) : bool :=
  (Z.of_nat (String.length l) =? 32) && no_LF l.

End MoreVocabulary.

(** What a disable argument [d] comes to for the mutator [name], when [d]
    is not the bare star: with a star at its end, [name] is to start with
    [d] less its last two bytes; without, [name] is to be [d]. *)
Definition drops (d name : string) : bool :=
  if HasSuffix d "*"
  then HasPrefix name (substring 0 (String.length d - 2) d)
  else String.eqb name d.

(** The string [cur] with the bytes of [l] put in front, last byte first. *)
Fixpoint revapp (l cur : string) : string :=
  match l with
  | EmptyString => cur
  | String c r => revapp r (String c cur)
  end.

(** ** Package strings: what package console uses of it *)

Fixpoint drop_bytes (n : nat) (s : string) : string :=
  match n, s with
  | S n', String _ rest => drop_bytes n' rest
  | _, _ => s
  end.

(** [strings.Replace(s, old, new, 1)]: the first instance of [old] in [s]
    replaced by [new]; an empty [old] matches at the beginning. *)
Fixpoint strings_Replace1 (s old new : string) : string :=
  if HasPrefix s old then new +:+ drop_bytes (String.length old) s
  else match s with
       | EmptyString => EmptyString
       | String c rest => String c (strings_Replace1 rest old new)
       end.

(** [strings.Repeat(s, count)] for a [count] that is not negative. *)
Definition strings_Repeat (s : string) (count : Z) : string :=
  Nat.iter (Z.to_nat count) (String.append s) "".

(** ** Package console *)

Module console.
Import main.
Local Open Scope go_scope.

(** The attributes of [github.com/fatih/color] that the package uses. *)
Inductive Attribute := FgHiWhite | FgBlue | BgGreen | BgRed | BgYellow | BgMagenta.

(** The colour library lies outside the repository.  [color_Sprint as t]
    is the string that [color.New(as...).SprintfFunc()] makes of the text
    [t]; [color_Println as line] is what [color.New(as...).Println(line)]
    writes to standard output, with the error it returns; [color_Blue t]
    is what [color.Blue(t)] writes. *)
Class Color := {
  color_Sprint : list Attribute -> string -> string;
  color_Println : list Attribute -> string -> string * option error;
  color_Blue : string -> string }.

Section Console.
Context `{Color}.

(* for colouring *)
Definition PASS : string := "PASS".
Definition FAIL : string := "FAIL".
Definition SKIP : string := "SKIP".
Definition UNKNOWN : string := "UNKNOWN".

Definition length : Z := 150.
Definition frameLine : string := strings_Repeat "-" length.

(** [log.Printf]; the time stamp that package log puts in front is left
    out, as in [log_Fatal]. *)
Definition log_Printf (msg : string) : M State unit := emit (Stderr msg).

(** PrintPass prints in green *)
Definition PrintPass (out : string) : M State unit :=
  let pass := color_Sprint [FgHiWhite; BgGreen] in
  let out := strings_Replace1 out PASS (pass PASS) in
  emit (Stdout out) ;;;
  emit (Stdout (color_Blue frameLine)).

(** PrintFail prints in red *)
Definition PrintFail (out : string) : M State unit :=
  let fail := color_Sprint [FgHiWhite; BgRed] in
  let out := strings_Replace1 out FAIL (fail FAIL) in
  emit (Stdout out) ;;;
  emit (Stdout (color_Blue frameLine)).

(** PrintSkip prints in yellow *)
Definition PrintSkip (out : string) : M State unit :=
  let skip := color_Sprint [FgHiWhite; BgYellow] in
  let out := strings_Replace1 out SKIP (skip SKIP) in
  emit (Stdout out) ;;;
  emit (Stdout (color_Blue frameLine)).

(** PrintUnknown prints in magenta *)
Definition PrintUnknown (out : string) : M State unit :=
  let unknown := color_Sprint [FgHiWhite; BgMagenta] in
  let out := strings_Replace1 out UNKNOWN (unknown UNKNOWN) in
  emit (Stdout out) ;;;
  emit (Stdout (color_Blue frameLine)).

(** [_, err := c.Println(line); if err != nil { log.Printf(...) }] *)
Definition Println_or_log (c : list Attribute) (line : string) : M State unit :=
  let '(written, err) := color_Println c line in
  emit (Stdout written) ;;;
  match err with
  | Some e => log_Printf ("Error printing output: " +:+ e)
  | None => ret tt
  end.

(** The body of the loop of [PrintDiff], for one line. *)
Definition PrintDiff_line (line : string) : M State unit :=
  let green := [FgHiWhite; BgGreen] in
  let red := [FgHiWhite; BgRed] in
  if HasPrefix line "+++" then Println_or_log green line
  else if HasPrefix line "---" then Println_or_log red line
  else if HasPrefix line "+" then Println_or_log green line
  else if HasPrefix line "-" then Println_or_log red line
  else emit (Stdout (line +:+ LF)).

Fixpoint PrintDiff_lines (lines : list string) : M State unit :=
  match lines with
  | [] => ret tt
  | line :: rest => PrintDiff_line line ;;; PrintDiff_lines rest
  end.

(** PrintDiff prints colorful diff *)
Definition PrintDiff (diff : string) : M State unit :=
  PrintDiff_lines (Split diff "010").

(** Debug prints formatted debug messages when debug mode is enabled in
    options; [msg] is the message as formatted. *)
Definition Debug (opts : Options) (msg : string) : M State unit :=
  when (General_Debug opts) (emit (Stdout (msg +:+ LF))).

(** Verbose prints formatted messages when either verbose or debug mode is
    enabled. *)
Definition Verbose (opts : Options) (msg : string) : M State unit :=
  when (General_Verbose opts || General_Debug opts) (emit (Stdout (msg +:+ LF))).

(** The harness records a call of this package as an event
    [Console fn msg]; [call] is the call the event stands for. *)
Definition call (opts : Options) (fn msg : string) : M State unit :=
  if String.eqb fn "Debug" then Debug opts msg
  else if String.eqb fn "Verbose" then Verbose opts msg
  else if String.eqb fn "PrintPass" then PrintPass msg
  else if String.eqb fn "PrintFail" then PrintFail msg
  else if String.eqb fn "PrintSkip" then PrintSkip msg
  else if String.eqb fn "PrintUnknown" then PrintUnknown msg
  else if String.eqb fn "PrintDiff" then PrintDiff msg
  else ret tt.

(** A trace of the harness with its console calls carried out. *)
Fixpoint replay (opts : Options) (evs : list event) : M State unit :=
  match evs with
  | [] => ret tt
  | Console fn msg :: rest => call opts fn msg ;;; replay opts rest
  | e :: rest => emit e ;;; replay opts rest
  end.

(** What reaches the terminal and the child processes, in order. *)
Definition output (opts : Options) (evs : list event) : list event :=
  events (snd (replay opts evs (mkState ∅ ∅ emptyReport []))).

End Console.
End console.

Section ConsoleVocabulary.
Import main.

(** The events that a computation adds to the trace. *)
Definition trace_of {A} (m : M State A) (s : State) : list event :=
  drop (List.length (events s)) (events (snd (m s))).

(** All that was written to standard output, in one piece. *)
Fixpoint stdout_text (evs : list event) : string :=
  match evs with
  | [] => ""
  | Stdout t :: rest => t +:+ stdout_text rest
  | _ :: rest => stdout_text rest
  end.

End ConsoleVocabulary.

Section QuietVocabulary.
Import main.

(** An event that puts nothing on standard output when neither debug nor
    verbose is set, or else a line INTERNAL ERROR. *)
Definition quiet (e : event) : Prop :=
  is_Exec e = true \/ (exists t, e = Stderr t) \/ (exists msg, e = Console "Debug" msg) \/
  (exists err, e = Stdout ("INTERNAL ERROR " +:+ err +:+ LF)).

Definition hush (s s' : State) : Prop :=
  exists evs, events s' = events s ++ evs /\ Forall quiet evs.

(** Is [c] the first byte of [line]? *)
Definition starts_with (c : ascii) (line : string) : bool :=
  match line with
  | String x _ => Ascii.eqb c x
  | EmptyString => false
  end.

(** What [PrintDiff] writes for one line: the line through green when it
    starts with a plus, through red when it starts with a minus, else the
    line as it is. *)
Definition diff_chunk `{console.Color} (line : string) : list event :=
  let through c :=
    let '(written, err) := console.color_Println c line in
    Stdout written ::
      match err with
      | Some e => [Stderr ("Error printing output: " +:+ e)]
      | None => []
      end in
  if starts_with "+" line then through [console.FgHiWhite; console.BgGreen]
  else if starts_with "-" line then through [console.FgHiWhite; console.BgRed]
  else [Stdout (line +:+ LF)].

(** What the user is shown for a mutant of class [b], [msg] being the
    text that names the mutant. *)
Definition shown_class `{console.Color} (b : bucket) (msg : string) : string :=
  match b with
  | BKilled => console.color_Sprint [console.FgHiWhite; console.BgGreen] "PASS"
               +:+ " " +:+ msg +:+ LF
  | BEscaped => console.color_Sprint [console.FgHiWhite; console.BgRed] "FAIL"
                +:+ " " +:+ msg +:+ LF
  | BSkipped => console.color_Sprint [console.FgHiWhite; console.BgYellow] "SKIP"
                +:+ " " +:+ msg +:+ LF
  | BErrored => "UNKOWN exit code for "
                +:+ strings_Replace1 (msg +:+ LF) "UNKNOWN"
                      (console.color_Sprint [console.FgHiWhite; console.BgMagenta]
                                            "UNKNOWN")
  end.

End QuietVocabulary.

(** ** Package annotation: the next-line annotation *)

Module line.
Import ast.

(** [mutatorInfo] is declared in another file of the package; [Names] is
    the field this file sets. *)
Record mutatorInfo := mkMutatorInfo {
  Names : list string }.

(** LineAnnotation represents a collection of exclusions based on lines in
    the file: for a line number, the nodes on it with what is excluded
    there. *)
Record LineAnnotation := mkLineAnnotation {
  Exclusions : gmap Z (gmap Pos mutatorInfo);
  Name : string }.

Section Filter.
(** Declared elsewhere in the package, and in go/ast: does [mutators]
    exclude the mutator of this name, and the position [node.Pos()]. *)
Variable shouldSkipMutator : mutatorInfo -> string -> bool.
Variable Pos_of : loc -> Pos.

(** The loop of [filterNodesOnNextLine], over the entries of
    [l.Exclusions] in the order [entries]: Go ranges over a map in an
    order of its own choosing. *)
Fixpoint filterNodesOnNextLine_range (entries : list (Z * gmap Pos mutatorInfo))
    (node : loc) (mutatorName : string) : bool :=
  match entries with
  | [] => false
  | (_, n) :: rest =>
      match n !! Pos_of node with
      | Some mutators =>
          if shouldSkipMutator mutators mutatorName then true
          else filterNodesOnNextLine_range rest node mutatorName
      | None => filterNodesOnNextLine_range rest node mutatorName
      end
  end.

(** filterNodesOnNextLine checks if a given node should be excluded from
    mutation based on whether the node appears in the Exclusions map and
    whether the current mutator is in the node's exclusion list. *)
Definition filterNodesOnNextLine (l : LineAnnotation) (node : loc) (mutatorName : string)
  : bool :=
  filterNodesOnNextLine_range (map_to_list (Exclusions l)) node mutatorName.

End Filter.
End line.

(** ** More concrete cases, for the examples *)

Module cases.
Import ast mutator main.

(** The options of [demo.opts] with no-exec, and with silent mode. *)
Definition noexec : Options :=
  mkOptions false false [] [] "" true 10 false false.
Definition silent : Options :=
  mkOptions false false [] [] "" false 10 false true.

(** Child processes of which [diff] ends with the status 2 (trouble). *)
Definition Run_diff_trouble (argv env : list string) (fs : gmap string string)
  : gmap string string * string * cmd_err :=
  match argv with
  | "diff" :: _ => (fs, "diff: tmp/a.go.0: No such file or directory", ExitError 2)
  | _ => (fs, "ok", CmdNil)
  end.

Definition env_diff_trouble : GoEnv :=
  {| FileSet := unit;
     printer_Fprint := demo.Fprint;
     format_Source := demo.Source;
     md5_Sum := md5.Sum;
     strconv_Quote := demo.quote;
     parser_FindOriginalStartLine := fun _ => 1;
     os_refuses := fun _ => false;
     exec_Run := Run_diff_trouble |}.

(** An earlier run was killed during the tests: [a.go.tmp] holds the
    original of then, [a.go] the mutant of then. *)
Definition after_crash : State :=
  mkState {[ "a.go" := "package p // mutant of the earlier run";
             "a.go.tmp" := "package p // original";
             "tmp/a.go.0" := "package p // mutant" ]} ∅ emptyReport [].

(** A range statement whose body is nil. *)
Definition no_body : Heap :=
  {[ 1%positive := NRangeStmt (mkRangeStmt 10 None None 0 DEFINE None None) ]}.

(** A blacklist file as a run of the tool would let one write it: one
    fingerprint to the line. *)
Definition listed : State :=
  mkState {[ "seen.txt" := unlines ["d41d8cd98f00b204e9800998ecf8427e";
                                    "224562c5cbffa8e3fe364b065ca6083c"] ]}
          ∅ emptyReport [].

(** The colour library with the colours switched off. *)
Definition no_color : console.Color :=
  {| console.color_Sprint := fun _ t => t;
     console.color_Println := fun _ line => (line +:+ LF, None);
     console.color_Blue := fun t => t +:+ LF |}.

(** A diff of one changed line. *)
Definition a_diff : string :=
  "--- Original" +:+ LF +:+ "+++ New" +:+ LF +:+ "@@ -1 +1 @@" +:+ LF
  +:+ "-x := 1" +:+ LF +:+ "+x := 2" +:+ LF.

End cases.

(** ** Package main, the rest of it: checkArguments, mainCmd, main *)

Module cmd.
Import main.
Local Open Scope go_scope.

(** [models.Options] in full: [base] holds the fields that [mutate] and
    [mutateExec] read and that [Options] above has; the other fields are
    read by [checkArguments] and [mainCmd] only. *)
Record CmdOptions := mkCmdOptions {
  base : Options;
  General_Help : bool;
  General_Config : string;
  General_DoNotRemoveTmpFolder : bool;
  Mutator_ListMutators : bool;
  Files_ListFiles : bool;
  Files_PrintAST : bool;
  Filter_Match : string;
  Remaining_Targets : list string }.

(** [&models.Options{}]: every field at its zero value. *)
Definition zero_Options : CmdOptions :=
  mkCmdOptions (mkOptions false false [] [] "" false 0 false false)
               false "" false false false false "" [].

Definition with_base (o : CmdOptions) (b : Options) : CmdOptions :=
  mkCmdOptions b (General_Help o) (General_Config o) (General_DoNotRemoveTmpFolder o)
               (Mutator_ListMutators o) (Files_ListFiles o) (Files_PrintAST o)
               (Filter_Match o) (Remaining_Targets o).

Definition with_Verbose (o : Options) (b : bool) : Options :=
  mkOptions (General_Debug o) b (Files_Blacklist o) (Mutator_DisableMutators o)
            (Exec_Exec o) (Exec_NoExec o) (Exec_Timeout o) (Test_Recursive o)
            (Config_SilentMode o).

Definition with_SilentMode (o : Options) (b : bool) : Options :=
  mkOptions (General_Debug o) (General_Verbose o) (Files_Blacklist o)
            (Mutator_DisableMutators o) (Exec_Exec o) (Exec_NoExec o) (Exec_Timeout o)
            (Test_Recursive o) b.

(** Calls of package os that [mainCmd] makes besides those of [syscall]. *)
Inductive oscall :=
| MkdirTemp
| MkdirAll (path : string)
| RemoveAll (path : string)
| OpenFile (name : string)
| WriteString (name : string)
| Close (name : string).

(** What [parser.ParseAndTypeCheckFile] hands back for a file: the syntax
    tree with its root, the file set, the path of the package, and the
    two collectors as filled by the parse, which [mainCmd] then passes on
    as the filters. *)
Record Parsed `{GoEnv} := mkParsed {
  src : ast.loc;
  tree : ast.Heap;
  fset : FileSet;
  pkgPath : string;
  filters : list annotation.NodeFilter }.

(** What lies outside this file, besides [GoEnv].  The flags library
    parses the arguments into the options; it may write to standard
    output and may end the process by itself (when asked to complete a
    command line).  [fmt_Sprintf] formats a format that comes without
    operands, [fmt_Sprintf_f] is the verb [%f].  The functions of the
    repository's other packages are taken as functions of their arguments
    and of the files on disk; a call of package os that fails is taken
    to have done nothing. *)
Class CmdEnv `{GoEnv} := {
  flags_AddGroup : option error;
  flags_ParseArgs : list string -> CmdOptions -> string * outcome (CmdOptions * option error);
  flags_WriteHelp : string;
  os_Getenv : string -> string;
  os_fails : oscall -> option error;
  os_TempName : gmap string string -> string;
  fmt_Sprintf : string -> string;
  yaml_Unmarshal : string -> bool -> bool * option error;
  filepath_Dir : string -> string;
  regexp_Compile : string -> option error;
  regexp_MatchString : string -> string -> bool;
  mutator_registry : list (string * mutator.Mutator);
  importing_FilesOfArgs : list string -> CmdOptions -> gmap string string -> list string;
  parser_ParseFile : string -> gmap string string -> ast.Heap * ast.loc * option error;
  parser_ParseAndTypeCheckFile : string -> gmap string string -> Parsed * option error;
  mutesting_PrintWalk : ast.Heap -> ast.loc -> string;
  astutil_Functions : ast.Heap -> ast.loc -> list ast.loc;
  ast_FuncName : ast.Heap -> ast.loc -> string;
  Score : Type;
  models_Calculate : Report -> Score * Z;
  fmt_Sprintf_f : Score -> string;
  json_Marshal : Report -> Score -> Z -> string * option error;
  models_ReportFileName : string }.

Section Cmd.
Context `{CmdEnv}.

(** [exitError(err.Error())]: the text of the error is used as the
    format. *)
Definition exitError_of (err : error) : M State Z :=
  emit (Stderr (fmt_Sprintf (err +:+ LF))) ;;; ret returnError.

(** [for _, l := range lines { fmt.Println(l) }] *)
Fixpoint Println_each (lines : list string) : M State unit :=
  match lines with
  | [] => ret tt
  | l :: rest => emit (Stdout (l +:+ LF)) ;;; Println_each rest
  end.

(** [checkArguments]; [opts] is passed by pointer in Go, so the options
    as the call leaves them are returned with the two results. *)
Definition checkArguments (args : list string) (opts : CmdOptions)
  : M State (bool * Z * CmdOptions) :=
  match flags_AddGroup with
  | Some err => code <- exitError_of err ;; ret (true, code, opts)
  | None =>
      let completion :=
        0 <? Z.of_nat (String.length (os_Getenv "GO_FLAGS_COMPLETION")) in
      let '(out, parsed) := flags_ParseArgs args opts in
      when (negb (String.eqb out "")) (emit (Stdout out)) ;;;
      r <- (fun s => (parsed, s)) ;;
      let '(opts, err) := r in
      if (General_Help opts || (Z.of_nat (List.length args) =? 0)) && negb completion then
        emit (Stdout flags_WriteHelp) ;;;
        ret (true, returnHelp, opts)
      else if Mutator_ListMutators opts then
        Println_each (map fst mutator_registry) ;;;
        ret (true, returnOk, opts)
      else
        match err with
        | Some e => code <- exitError_of e ;; ret (true, code, opts)
        | None =>
            if completion then ret (true, returnBashCompletion, opts)
            else
              let opts :=
                if General_Debug (base opts)
                then with_base opts (with_Verbose (base opts) true)
                else opts in
              if negb (String.eqb (General_Config opts) "") then
                r <- os_ReadFile (General_Config opts) ;;
                let '(yamlFile, err) := r in
                match err with
                | Some _ =>
                    code <- exitError ("Could not read config file: "
                                       +:+ strconv_Quote (General_Config opts)) ;;
                    ret (true, code, opts)
                | None =>
                    let '(silent, err) :=
                      yaml_Unmarshal yamlFile (Config_SilentMode (base opts)) in
                    let opts := with_base opts (with_SilentMode (base opts) silent) in
                    match err with
                    | Some e =>
                        code <- exitError ("Could not unmarshall config file: "
                                           +:+ strconv_Quote (General_Config opts)
                                           +:+ ", " +:+ e) ;;
                        ret (true, code, opts)
                    | None => ret (false, 0, opts)
                    end
                end
              else ret (false, 0, opts)
        end
  end.

(** [mainCmd], the branch of the option print-ast. *)
Fixpoint mainCmd_printAST (files : list string) : M State Z :=
  match files with
  | [] => ret returnOk
  | file :: rest =>
      emit (Stdout (file +:+ LF)) ;;;
      s <- get ;;
      let '(tree, src, err) := parser_ParseFile file (main.files s) in
      match err with
      | Some e =>
          exitError ("Could not open file " +:+ strconv_Quote file +:+ ": " +:+ e)
      | None =>
          emit (Stdout (mutesting_PrintWalk tree src)) ;;;
          emit (Stdout LF) ;;;
          mainCmd_printAST rest
      end
  end.

(** The syntax tree is shared by reference, and [mutate] above returns the
    id only: this is the tree as the walks of [mutate] leave it. *)
Fixpoint mutate_tree (mutators : list mutatorItem) (tree : ast.Heap) (node : ast.loc)
    (filters : list annotation.NodeFilter) : ast.Heap :=
  match mutators with
  | [] => tree
  | m :: rest =>
      let mutatorAnnotated := annotation.DecoratorFilter (Mutator m) (Name m) filters in
      let '(_, (_, tree')) :=
        mutesting.MutateWalk mutatorAnnotated (mutesting.Walk_order tree node) tree in
      mutate_tree rest tree' node filters
  end.

(** The loop over the functions of a file, when a match is asked for. *)
Fixpoint mainCmd_functions (opts : CmdOptions) (mutators : list mutatorItem)
    (file : string) (p : Parsed) (tmpFile : string) (execs : list string)
    (fs : list ast.loc) (mutationID : Z) (tree : ast.Heap) : M State Z :=
  match fs with
  | [] => ret mutationID
  | f :: rest =>
      if regexp_MatchString (Filter_Match opts) (ast_FuncName tree f) then
        mutationID <- mutate (base opts) mutators mutationID (pkgPath p) file (fset p)
                             tree (src p) f tmpFile execs (filters p) ;;
        mainCmd_functions opts mutators file p tmpFile execs rest mutationID
                          (mutate_tree mutators tree f (filters p))
      else mainCmd_functions opts mutators file p tmpFile execs rest mutationID tree
  end.

(** The body of the loop over the files, for one file; [Some code] is an
    early [return code] out of [mainCmd]. *)
Definition mainCmd_file (opts : CmdOptions) (mutators : list mutatorItem)
    (tmpDir : string) (execs : list string) (file : string) : M State (option Z) :=
  emit (Console "Verbose" ("Mutate " +:+ strconv_Quote file)) ;;;
  s <- get ;;
  let '(p, err) := parser_ParseAndTypeCheckFile file (main.files s) in
  match err with
  | Some e => code <- exitError_of e ;; ret (Some code)
  | None =>
      match os_fails (MkdirAll (tmpDir +:+ "/" +:+ filepath_Dir file)) with
      | Some e => panic e
      | None =>
          let tmpFile := tmpDir +:+ "/" +:+ file in
          let originalFile := tmpFile +:+ ".original" in
          err <- osutil_CopyFile file originalFile ;;
          match err with
          | Some e => panic e
          | None =>
              emit (Console "Debug"
                      ("Save original into " +:+ strconv_Quote originalFile)) ;;;
              let mutationID := 0 in
              if negb (String.eqb (Filter_Match opts) "") then
                match regexp_Compile (Filter_Match opts) with
                | Some e =>
                    code <- exitError ("Match regex is not valid: " +:+ e) ;;
                    ret (Some code)
                | None =>
                    mainCmd_functions opts mutators file p tmpFile execs
                      (astutil_Functions (tree p) (src p)) mutationID (tree p) ;;;
                    ret None
                end
              else
                mutate (base opts) mutators mutationID (pkgPath p) file (fset p)
                       (tree p) (src p) (src p) tmpFile execs (filters p) ;;;
                ret None
          end
      end
  end.

(** The loop over the files. *)
Fixpoint mainCmd_files (opts : CmdOptions) (mutators : list mutatorItem)
    (tmpDir : string) (execs : list string) (files : list string) : M State (option Z) :=
  match files with
  | [] => ret None
  | file :: rest =>
      r <- mainCmd_file opts mutators tmpDir execs file ;;
      match r with
      | Some code => ret (Some code)
      | None => mainCmd_files opts mutators tmpDir execs rest
      end
  end.

(** Is the path [name] the directory [dir] or below it?  Paths are
    compared as they are written. *)
Definition below (dir name : string) : bool :=
  String.eqb name dir || HasPrefix name (dir +:+ "/").

(** [mainCmd] after the loop over the files: the temp folder, the
    summary, the report file. *)
Definition mainCmd_finish (opts : CmdOptions) (tmpDir : string) : M State Z :=
  (if negb (General_DoNotRemoveTmpFolder opts) then
     match os_fails (RemoveAll tmpDir) with
     | Some e => panic e
     | None =>
         modify (fun s => set_files (filter (fun kv => below tmpDir kv.1 = false)
                                            (main.files s)) s) ;;;
         emit (Console "Debug" ("Remove " +:+ strconv_Quote tmpDir))
     end
   else ret tt) ;;;
  report <- gets report ;;
  let '(msi, total) := models_Calculate report in
  (if negb (Exec_NoExec (base opts)) then
     when (negb (Config_SilentMode (base opts)))
          (emit (Stdout ("The mutation score is " +:+ fmt_Sprintf_f msi
                         +:+ " (" +:+ Sprintf_d (KilledCount report) +:+ " passed, "
                         +:+ Sprintf_d (EscapedCount report) +:+ " failed, "
                         +:+ Sprintf_d (DuplicatedCount report) +:+ " duplicated, "
                         +:+ Sprintf_d (SkippedCount report) +:+ " skipped, total is "
                         +:+ Sprintf_d total +:+ ")" +:+ LF)))
   else
     emit (Stdout ("Cannot do a mutation testing summary since no exec command was executed."
                   +:+ LF))) ;;;
  let '(jsonContent, err) := json_Marshal report msi total in
  match err with
  | Some e => exitError_of e
  | None =>
      match os_fails (OpenFile models_ReportFileName) with
      | Some e => exitError_of e
      | None =>
          (* O_CREATE|O_TRUNC: the file is there and empty; [file] is not nil *)
          modify (fun s => set_files (<[models_ReportFileName := ""]> (main.files s)) s) ;;;
          with_defer
            (match os_fails (Close models_ReportFileName) with
             | Some e => emit (Stdout ("Error while report file closing: " +:+ e))
             | None => ret tt
             end)
            (match os_fails (WriteString models_ReportFileName) with
             | Some e => exitError_of e
             | None =>
                 modify (fun s => set_files (<[models_ReportFileName := jsonContent]>
                                               (main.files s)) s) ;;;
                 emit (Console "Verbose"
                         ("Save report into " +:+ strconv_Quote models_ReportFileName)) ;;;
                 ret returnOk
             end)
      end
  end.

(** [execs]: the command of the option exec, cut at every blank. *)
Definition execs_of (opts : CmdOptions) : list string :=
  if negb (String.eqb (Exec_Exec (base opts)) "")
  then Split (Exec_Exec (base opts)) " "
  else [].

(** [mainCmd] from the temp folder on. *)
Definition mainCmd_run (opts : CmdOptions) (files : list string)
    (mutators : list mutatorItem) : M State Z :=
  s <- get ;;
  match os_fails MkdirTemp with
  | Some e => panic e
  | None =>
      let tmpDir := os_TempName (main.files s) in
      emit (Console "Verbose" ("Save mutations into " +:+ strconv_Quote tmpDir)) ;;;
      let execs := execs_of opts in
      modify (set_report emptyReport) ;;;
      r <- mainCmd_files opts mutators tmpDir execs files ;;
      match r with
      | Some code => ret code
      | None => mainCmd_finish opts tmpDir
      end
  end.

Definition mainCmd (args : list string) : M State Z :=
  let opts := zero_Options in
  modify (set_mutationBlackList ∅) ;;;
  r <- checkArguments args opts ;;
  let '(exit, exitCode, opts) := r in
  if (exit : bool) then ret exitCode
  else
    s <- get ;;
    let files := importing_FilesOfArgs (Remaining_Targets opts) opts (main.files s) in
    if Z.of_nat (List.length files) =? 0 then
      exitError "Could not find any suitable Go source files"
    else if Files_ListFiles opts then
      Println_each files ;;; ret returnOk
    else if Files_PrintAST opts then
      mainCmd_printAST files
    else
      mainCmd_from_blacklist (base opts) mutator_registry (mainCmd_run opts files).

(** [func main() { os.Exit(mainCmd(os.Args[1:])) }] *)
Definition main (args : list string) : M State unit :=
  code <- mainCmd args ;;
  fun s => (Exit code, s).

End Cmd.
End cmd.

(** ** A concrete command line, for the examples *)

Module shell.
Import main cmd.

Definition defaults (targets : list string) : CmdOptions :=
  mkCmdOptions (mkOptions false false [] [] "" false 10 false false)
               false "" false false false false "" targets.

(** The flags library, for a few command lines. *)
Definition ParseArgs (args : list string) (o : CmdOptions)
  : string * outcome (CmdOptions * option error) :=
  match args with
  | "--debug" :: targets =>
      ("", Ret (mkCmdOptions (mkOptions true false [] [] "" false 10 false false)
                             false "" false false false false "" targets, None))
  | "--list-files" :: targets =>
      ("", Ret (mkCmdOptions (mkOptions false false [] [] "" false 10 false false)
                             false "" false false true false "" targets, None))
  | "--bogus" :: _ => ("", Ret (o, Some "unknown flag `bogus'"))
  | targets => ("", Ret (defaults targets, None))
  end.

(** The files among the targets that exist. *)
Definition FilesOfArgs (targets : list string) (_ : CmdOptions) (fs : gmap string string)
  : list string :=
  List.filter (fun t => bool_decide (is_Some (fs !! t))) targets.

(** The parser: a file that starts with the package clause is the tree
    [demo.two_loops]. *)
Definition ParseAndTypeCheckFile (file : string) (fs : gmap string string)
  : @Parsed (demo.env CmdNil) * option error :=
  let p := @mkParsed (demo.env CmdNil) 1%positive demo.two_loops tt "p" [] in
  match fs !! file with
  | Some c => if HasPrefix c "package " then (p, None)
              else (p, Some (file +:+ ":1:1: expected 'package'"))
  | None => (p, Some ("open " +:+ file +:+ ": no such file or directory"))
  end.

Definition env : @CmdEnv (demo.env CmdNil) :=
  {| flags_AddGroup := None;
     flags_ParseArgs := ParseArgs;
     flags_WriteHelp := "Usage: go-mutesting [OPTIONS]";
     os_Getenv := fun _ => "";
     os_fails := fun _ => None;
     os_TempName := fun _ => "/tmp/go-mutesting-1";
     fmt_Sprintf := fun format => format;
     yaml_Unmarshal := fun _ silent => (silent, None);
     filepath_Dir := fun _ => ".";
     regexp_Compile := fun _ => None;
     regexp_MatchString := fun pattern name => String.eqb pattern name;
     mutator_registry := demo.registry;
     importing_FilesOfArgs := FilesOfArgs;
     parser_ParseFile := fun _ _ => (demo.two_loops, 1%positive, None);
     parser_ParseAndTypeCheckFile := ParseAndTypeCheckFile;
     mutesting_PrintWalk := fun _ _ => "";
     astutil_Functions := fun _ _ => [2%positive; 5%positive];
     ast_FuncName := fun _ f => if decide (f = 2%positive) then "First" else "Second";
     Score := Z;
     models_Calculate := fun r => (0, KilledCount r + EscapedCount r + SkippedCount r
                                      + DuplicatedCount r + ErrorCount r);
     fmt_Sprintf_f := Sprintf_d;
     json_Marshal := fun r _ total => ("{total: " +:+ Sprintf_d total +:+ "}", None);
     models_ReportFileName := "report.json" |}.

(** A folder with one file that is no Go source, and the state after a
    run with no-exec that has left two mutants in the temp folder. *)
Definition with_bad_file : State :=
  mkState {[ "bad.go" := "pakage p" ]} ∅ emptyReport [].

Definition after_run : State :=
  mkState {[ "a.go" := "package p // original";
             "/tmp/go-mutesting-1/a.go.original" := "package p // original";
             "/tmp/go-mutesting-1/a.go.0" := "package p // mutant" ]}
          ∅ emptyReport [].

Definition noexec : CmdOptions :=
  mkCmdOptions (mkOptions false false [] [] "" true 10 false true)
               false "" false false false false "" ["a.go"].


End shell.

(** * Proofs *)

(** ** Reasoning about monadic code: weakest preconditions *)

Definition wp {S A} (m : M S A) (Q : outcome A -> S -> Prop) (s : S) : Prop :=
  Q (m s).1 (m s).2.

Lemma wp_bind {S A B} (m : M S A) (k : A -> M S B) Q s :
  wp m (fun r s' => match r with
                    | Ret a => wp (k a) Q s'
                    | Panic e => Q (Panic e) s'
                    | Exit c => Q (Exit c) s'
                    end) s ->
  wp (bind m k) Q s.
Proof. unfold wp, bind. by destruct (m s) as [[a|e|c] s']. Qed.

Lemma wp_ret {S A} (a : A) (Q : outcome A -> S -> Prop) s : Q (Ret a) s -> wp (ret a) Q s.
Proof. done. Qed.

Lemma wp_panic {S A} e (Q : outcome A -> S -> Prop) s : Q (Panic e) s -> wp (panic e) Q s.
Proof. done. Qed.

Lemma wp_modify {S} (f : S -> S) (Q : outcome unit -> S -> Prop) s :
  Q (Ret tt) (f s) -> wp (modify f) Q s.
Proof. done. Qed.

Lemma wp_with_defer {S A} (d : M S unit) (body : M S A) Q s :
  (forall s', (d s').1 = Ret tt) ->
  wp body (fun r s' => match r with
                       | Exit c => Q (Exit c) s'
                       | _ => Q r (d s').2
                       end) s ->
  wp (with_defer d body) Q s.
Proof.
  intros Hd. unfold wp, with_defer.
  destruct (body s) as [[a|e|c] s']; cbn [fst snd]; [| |done].
  all: specialize (Hd s'); destruct (d s') as [[[]|e'|c'] s'']; by cbn in *.
Qed.

Lemma wp_mono {S A} (m : M S A) (Q Q' : outcome A -> S -> Prop) s :
  (forall r s', Q r s' -> Q' r s') -> wp m Q s -> wp m Q' s.
Proof. unfold wp. auto. Qed.

Lemma wp_run {S A} (m : M S A) Q s r s' : wp m Q s -> m s = (r, s') -> Q r s'.
Proof. unfold wp. intros HQ E. by rewrite E in HQ. Qed.

(** ** The operator: package loop *)

Section RangeBreak.
Import ast mutator loop mutesting.

Lemma with_Body_id r : with_Body r (Body r) = r.
Proof. by destruct r. Qed.

Lemma set_Body_set_Body n a b (h : Heap) :
  set_Body n b (set_Body n a h) = set_Body n b h.
Proof.
  unfold set_Body. destruct (h !! n) as [[r| | |]|] eqn:E; rewrite ?E; try done.
  rewrite lookup_insert_eq. by rewrite insert_insert_eq.
Qed.

Lemma set_Body_same n r (h : Heap) :
  h !! n = Some (NRangeStmt r) -> set_Body n (Body r) h = h.
Proof.
  intros E. unfold set_Body. rewrite E, with_Body_id. by apply insert_id.
Qed.

Lemma set_Body_range n r b (h : Heap) :
  h !! n = Some (NRangeStmt r) ->
  set_Body n b h = <[n := NRangeStmt (with_Body r b)]> h.
Proof. intros E. unfold set_Body. by rewrite E. Qed.

Lemma fresh_ne_of_lookup (h : Heap) l v : h !! l = Some v -> fresh (dom h) <> l.
Proof.
  intros E <-. apply (is_fresh (dom h)). apply elem_of_dom. eauto.
Qed.

Lemma get_List_state p (h : Heap) r hx : get_List p h = (r, hx) -> hx = h.
Proof.
  unfold get_List.
  destruct p as [l|]; [destruct (h !! l) as [[]|]|]; congruence.
Qed.

(** The run of the operator on a range statement, up to the reading of
    the old body. *)
Lemma MutatorLoopRangeBreak_run node (h : Heap) n :
  h !! node = Some (NRangeStmt n) ->
  let nb := fresh (dom h) in
  let h' := <[nb := NBlockStmt (mkBlockStmt NoPos [] NoPos)]> h in
  let br := fresh (dom h') in
  let h2 := <[nb := NBlockStmt (mkBlockStmt NoPos [br] NoPos)]>
              (<[br := NBranchStmt (mkBranchStmt NoPos BREAK None)]> h') in
  MutatorLoopRangeBreak node h =
    match get_List (Body n) h2 with
    | (Ret l2, _) =>
        (Ret [mkMutation (set_Body node (Some nb)) (set_Body node (Body n))],
         <[nb := NBlockStmt (mkBlockStmt NoPos (br :: l2) NoPos)]> h2)
    | (Panic msg, _) => (Panic msg, h2)
    | (Exit c, _) => (Exit c, h2)
    end.
Proof.
  intros E nb h' br h2.
  assert (Hnb : nb <> node) by exact (fresh_ne_of_lookup _ _ _ E).
  assert (E' : h' !! node = Some (NRangeStmt n))
    by (unfold h'; by rewrite lookup_insert_ne).
  assert (Hbr : br <> node) by exact (fresh_ne_of_lookup _ _ _ E').
  assert (E2 : h2 !! node = Some (NRangeStmt n))
    by (unfold h2; by rewrite !lookup_insert_ne).
  unfold MutatorLoopRangeBreak, bind, get. cbv beta iota. rewrite E.
  unfold new, set_List, ret. cbv beta iota zeta. fold nb. fold h'.
  unfold get_Body at 1. rewrite E'. cbv beta iota. fold br.
  assert (Hne : br <> nb).
  { apply (fresh_ne_of_lookup h' nb (NBlockStmt (mkBlockStmt NoPos [] NoPos))).
    apply lookup_insert_eq. }
  assert (L1 : (<[br := NBranchStmt (mkBranchStmt NoPos BREAK None)]> h') !! nb
               = Some (NBlockStmt (mkBlockStmt NoPos [] NoPos))).
  { rewrite lookup_insert_ne by done. apply lookup_insert_eq. }
  unfold get_List at 1. rewrite L1. cbv beta iota. rewrite L1. cbv beta iota.
  unfold with_List. cbn [List app Lbrace Rbrace]. fold h2.
  assert (L2 : h2 !! nb = Some (NBlockStmt (mkBlockStmt NoPos [br] NoPos)))
    by apply lookup_insert_eq.
  unfold get_List at 1. rewrite L2. cbn [List].
  unfold get_Body. rewrite E2. cbv beta iota.
  destruct (get_List (Body n) h2) as [[l2|msg|c] hx] eqn:G2;
    rewrite (get_List_state _ _ _ _ G2); [|done..].
  rewrite L2. cbn [List app Lbrace Rbrace]. reflexivity.
Qed.

Lemma alloc2_frame (h : Heap) v1 v2 v3 v4 l v :
  h !! l = Some v ->
  let nb := fresh (dom h) in
  let h' := <[nb := v1]> h in
  let br := fresh (dom h') in
  (<[nb := v4]> (<[nb := v3]> (<[br := v2]> h'))) !! l = Some v.
Proof.
  intros E nb h' br.
  assert (nb <> l) by exact (fresh_ne_of_lookup _ _ _ E).
  assert (E' : h' !! l = Some v) by (unfold h'; by rewrite lookup_insert_ne).
  assert (br <> l) by exact (fresh_ne_of_lookup _ _ _ E').
  by rewrite !lookup_insert_ne.
Qed.

(** Whatever the operator returns, it is nothing, or one mutation that
    swaps the body pointer of [node], and [node] itself is as it was. *)
Lemma MutatorLoopRangeBreak_inv node (h : Heap) ms h1 :
  MutatorLoopRangeBreak node h = (Ret ms, h1) ->
  (ms = [] /\ h1 = h) \/
  (exists n nb, h !! node = Some (NRangeStmt n) /\ h1 !! node = Some (NRangeStmt n) /\
     ms = [mkMutation (set_Body node (Some nb)) (set_Body node (Body n))]).
Proof.
  destruct (h !! node) as [[n| | |]|] eqn:E.
  2-5: unfold MutatorLoopRangeBreak, bind, get; cbv beta iota; rewrite E;
       intros [= <- <-]; by left.
  rewrite (MutatorLoopRangeBreak_run _ _ _ E).
  destruct (get_List _ _) as [[l2|msg|c] hx]; [|done..].
  intros [= <- <-]. right. exists n, (fresh (dom h)). split; [done|]. split; [|done].
  by apply alloc2_frame.
Qed.

Lemma MutatorLoopRangeBreak_other node (h : Heap) :
  is_RangeStmt h node = false -> MutatorLoopRangeBreak node h = (Ret [], h).
Proof.
  unfold is_RangeStmt, MutatorLoopRangeBreak, bind, get. cbv beta iota.
  by destruct (h !! node) as [[]|].
Qed.

(** The run on a range statement whose body is a block, in closed form. *)
Lemma MutatorLoopRangeBreak_block node (h : Heap) n ob b :
  h !! node = Some (NRangeStmt n) -> Body n = Some ob -> h !! ob = Some (NBlockStmt b) ->
  let nb := fresh (dom h) in
  let br := fresh (dom (<[nb := NBlockStmt (mkBlockStmt NoPos [] NoPos)]> h)) in
  let h1 := <[nb := NBlockStmt (mkBlockStmt NoPos (br :: List b) NoPos)]>
             (<[br := NBranchStmt (mkBranchStmt NoPos BREAK None)]> h) in
  MutatorLoopRangeBreak node h =
    (Ret [mkMutation (set_Body node (Some nb)) (set_Body node (Some ob))], h1)
  /\ nb <> br /\ h !! nb = None /\ h !! br = None.
Proof.
  intros E Eb Eo nb br h1.
  assert (Hnb : h !! nb = None) by (apply not_elem_of_dom, is_fresh).
  assert (Hbr : (<[nb := NBlockStmt (mkBlockStmt NoPos [] NoPos)]> h) !! br = None)
    by (apply not_elem_of_dom, is_fresh).
  assert (Hne : nb <> br).
  { intros Heq. rewrite <- Heq, lookup_insert_eq in Hbr. done. }
  rewrite lookup_insert_ne in Hbr by done.
  split; [|done].
  rewrite (MutatorLoopRangeBreak_run _ _ _ E). cbv zeta. fold nb. fold br.
  assert (ob <> nb) by congruence.
  assert (ob <> br) by congruence.
  rewrite Eb. unfold get_List.
  rewrite !lookup_insert_ne, Eo by done.
  f_equal. unfold h1.
  apply map_eq. intros i.
  destruct (decide (i = nb)) as [->|]; [by rewrite !lookup_insert_eq|].
  rewrite !(lookup_insert_ne _ nb) by done.
  destruct (decide (i = br)) as [->|]; [by rewrite !lookup_insert_eq|].
  by rewrite !lookup_insert_ne.
Qed.

Lemma extends_refl h : extends h h.
Proof. by split. Qed.

Lemma extends_trans h1 h2 h3 : extends h1 h2 -> extends h2 h3 -> extends h1 h3.
Proof. intros [A B] [C D]. split; eauto. Qed.

Lemma extends_is_RangeStmt h h' l : extends h h' -> is_RangeStmt h' l = is_RangeStmt h l.
Proof.
  intros [A B]. unfold is_RangeStmt.
  destruct (h !! l) as [v|] eqn:E.
  - by rewrite (A _ _ E).
  - destruct (h' !! l) as [[r| | |]|] eqn:E'; try done.
    pose proof (B _ _ E'). congruence.
Qed.

Lemma alloc2_extends (h : Heap) nb br b v :
  h !! nb = None -> h !! br = None ->
  extends h (<[nb := NBlockStmt b]> (<[br := NBranchStmt v]> h)).
Proof.
  intros Hnb Hbr. split.
  - intros l x El. rewrite !lookup_insert_ne; [done|congruence..].
  - intros l r.
    destruct (decide (l = nb)) as [->|]; [by rewrite lookup_insert_eq|].
    rewrite lookup_insert_ne by done.
    destruct (decide (l = br)) as [->|]; [by rewrite lookup_insert_eq|].
    by rewrite lookup_insert_ne.
Qed.

(** One visit of the walker at a range statement: one tree is yielded,
    and the tree is then as the operator left it. *)
Lemma yield_range_break node (h : Heap) n ob b ms h1 :
  h !! node = Some (NRangeStmt n) -> Body n = Some ob -> h !! ob = Some (NBlockStmt b) ->
  MutatorLoopRangeBreak node h = (Ret ms, h1) ->
  extends h h1 /\ yield_each ms h1 = ([set_Body node (Some (fresh (dom h))) h1], h1).
Proof.
  intros E Eb Eo.
  destruct (MutatorLoopRangeBreak_block _ _ _ _ _ E Eb Eo) as (-> & Hne & Hnb & Hbr).
  intros [= <- <-].
  pose proof (alloc2_extends h _ _ (mkBlockStmt NoPos
    (fresh (dom (<[fresh (dom h):=NBlockStmt (mkBlockStmt NoPos [] NoPos)]> h)) :: List b)
    NoPos) (mkBranchStmt NoPos BREAK None) Hnb Hbr) as Hext.
  split; [done|].
  cbn [yield_each Change Reset].
  rewrite set_Body_set_Body, <- Eb, (set_Body_same _ n); [done|].
  by apply Hext.
Qed.

Lemma body_replaced_with_Body r b : body_replaced r (with_Body r b) b.
Proof. by repeat split. Qed.

(** The tree the walker hands over at a range statement of the original
    tree [h0], when the tree it walks is [h0] with nodes added. *)
Lemma yield_break_prepended (h0 h : Heap) node n ob b :
  extends h0 h ->
  h0 !! node = Some (NRangeStmt n) -> Body n = Some ob -> h0 !! ob = Some (NBlockStmt b) ->
  break_prepended h0 node
    (set_Body node (Some (fresh (dom h))) (MutatorLoopRangeBreak node h).2).
Proof.
  intros [A B] E Eb Eo.
  destruct (MutatorLoopRangeBreak_block node h n ob b (A _ _ E) Eb (A _ _ Eo))
    as (Hrun & Hne & Hnb & Hbr).
  rewrite Hrun. cbn [snd].
  set (nb := fresh (dom h)) in *.
  set (br := fresh (dom (<[nb := NBlockStmt (mkBlockStmt NoPos [] NoPos)]> h))) in *.
  assert (Hn1 : node <> nb) by (intros ->; rewrite (A _ _ E) in Hnb; done).
  assert (Hn2 : node <> br) by (intros ->; rewrite (A _ _ E) in Hbr; done).
  rewrite (set_Body_range node n) by (by rewrite !lookup_insert_ne; [apply A|..]).
  exists n, ob, b, (with_Body n (Some nb)), nb,
    (mkBlockStmt NoPos (br :: List b) NoPos), br, (mkBranchStmt NoPos BREAK None).
  split_and!; try done.
  - apply lookup_insert_eq.
  - rewrite lookup_insert_ne by done. apply lookup_insert_eq.
  - rewrite !lookup_insert_ne by done. apply lookup_insert_eq.
  - destruct (h0 !! nb) as [v|] eqn:Ev; [|done]. rewrite (A _ _ Ev) in Hnb. done.
  - destruct (h0 !! br) as [v|] eqn:Ev; [|done]. rewrite (A _ _ Ev) in Hbr. done.
  - intros l' v Hl' El'. pose proof (A _ _ El') as El.
    rewrite !lookup_insert_ne; [done|congruence..].
Qed.

Lemma MutateWalk_range_break_trees (h0 : Heap) nodes :
  block_bodies h0 nodes ->
  forall h, extends h0 h ->
  exists ys h',
    MutateWalk MutatorLoopRangeBreak nodes h = (ys, (Ret tt, h')) /\
    Forall2 (break_prepended h0) (List.filter (is_RangeStmt h0) nodes) ys /\
    extends h0 h'.
Proof.
  induction nodes as [|l nodes IH]; intros Hb h Hext.
  - exists [], h. by cbn.
  - assert (Hb' : block_bodies h0 nodes).
    { intros l' r Hin. apply Hb. by right. }
    cbn [MutateWalk List.filter].
    destruct (is_RangeStmt h0 l) eqn:Er.
    + unfold is_RangeStmt in Er.
      destruct (h0 !! l) as [[n| | |]|] eqn:E; try done.
      destruct (Hb l n) as (ob & b & Eb & Eo); [by left|done|].
      pose proof (yield_break_prepended h0 h l n ob b Hext E Eb Eo) as Hy.
      destruct Hext as [A B].
      destruct (MutatorLoopRangeBreak_block l h n ob b (A _ _ E) Eb (A _ _ Eo))
        as (Hrun & _).
      rewrite Hrun in Hy |- *. cbn [snd] in Hy.
      destruct (yield_range_break l h n ob b _ _ (A _ _ E) Eb (A _ _ Eo) Hrun)
        as (Hext1 & ->).
      destruct (IH Hb' _ (extends_trans _ _ _ (conj A B) Hext1))
        as (zs & h' & -> & Hall & Hext').
      eexists _, h'. split; [done|]. split; [|done]. cbn. by constructor.
    + rewrite MutatorLoopRangeBreak_other
        by (by rewrite (extends_is_RangeStmt _ _ _ Hext)).
      cbn [yield_each].
      destruct (IH Hb' _ Hext) as (zs & h' & -> & Hall & Hext').
      exists zs, h'. done.
Qed.

(** C4 (the apply/revert protocol, for the mutations [MutatorLoopRangeBreak]
    proposes on a tree [h1]): revert after apply gives back the very tree,
    so its serialization by the printer is the same bytes as before the
    apply; and apply after revert-after-apply gives the mutated tree
    again, with the same serialization. *)
Theorem revert_after_apply_is_identity `{main.GoEnv}
    (node : loc) (h h1 : Heap) (ms : list Mutation) (m : Mutation)
    (fset : main.FileSet) (root : loc) :
  MutatorLoopRangeBreak node h = (Ret ms, h1) ->
  In m ms ->
  let mutated := Change m h1 in
  let reverted := Reset m mutated in
  reverted = h1 /\
  main.printer_Fprint fset reverted root = main.printer_Fprint fset h1 root /\
  Change m reverted = mutated /\
  main.printer_Fprint fset (Change m reverted) root = main.printer_Fprint fset mutated root.
Proof.
  intros Hrun Hin.
  assert (Hrev : Reset m (Change m h1) = h1).
  { destruct (MutatorLoopRangeBreak_inv _ _ _ _ Hrun)
      as [[-> _]|(n & nb & _ & E1 & ->)]; [done|].
    destruct Hin as [<-|[]]. cbn [Change Reset].
    rewrite set_Body_set_Body. by apply set_Body_same. }
  cbv zeta. rewrite Hrev. done.
Qed.

(** C8 (what [MutatorLoopRangeBreak] proposes): nothing at a node that is
    no range statement; at a range statement with a block body, exactly
    one mutation.  The operator makes two nodes that were not in the tree,
    an unlabelled [break] and a block holding that [break] followed by the
    statements of the old body, in order, and changes no node of the tree.
    Apply makes the field [Body] of the loop point at the new block, so
    that the loop's body reads [break], then the old statements; the
    loop's other fields and all other nodes stay.  Revert makes [Body]
    point at the old block again: the tree is then the tree before apply.
    A walk over [nodes] yields, for each range statement among them and in
    their order, the tree with the [break] put first in that loop and the
    rest as in the tree the walk began with, and ends on a tree that holds
    every node of that tree unchanged: one mutant per range statement, two
    for a file with two range loops. *)
Theorem range_break_prepends_break (h : Heap) (node : loc) :
  (is_RangeStmt h node = false -> MutatorLoopRangeBreak node h = (Ret [], h)) /\
  (forall n ob b,
      h !! node = Some (NRangeStmt n) -> Body n = Some ob ->
      h !! ob = Some (NBlockStmt b) ->
      exists m h1 nb br,
        MutatorLoopRangeBreak node h = (Ret [m], h1) /\
        h !! nb = None /\ h !! br = None /\ extends h h1 /\
        h1 !! br = Some (NBranchStmt (mkBranchStmt NoPos BREAK None)) /\
        h1 !! nb = Some (NBlockStmt (mkBlockStmt NoPos (br :: List b) NoPos)) /\
        h1 !! node = Some (NRangeStmt n) /\
        (exists r', Change m h1 !! node = Some (NRangeStmt r') /\
                    body_replaced n r' (Some nb)) /\
        (forall l, l <> node -> Change m h1 !! l = h1 !! l) /\
        get_Body node (Change m h1) = (Ret (Some nb), Change m h1) /\
        get_List (Some nb) (Change m h1) = (Ret (br :: List b), Change m h1) /\
        break_prepended h node (Change m h1) /\
        Reset m (Change m h1) = h1 /\
        get_Body node (Reset m (Change m h1)) = (Ret (Some ob), h1) /\
        get_List (Some ob) (Reset m (Change m h1)) = (Ret (List b), h1)) /\
  (forall nodes,
      block_bodies h nodes ->
      exists ys h',
        MutateWalk MutatorLoopRangeBreak nodes h = (ys, (Ret tt, h')) /\
        Forall2 (break_prepended h) (List.filter (is_RangeStmt h) nodes) ys /\
        extends h h' /\
        length ys = length (List.filter (is_RangeStmt h) nodes) /\
        (length (List.filter (is_RangeStmt h) nodes) = 2%nat -> length ys = 2%nat)).
Proof.
  split; [apply MutatorLoopRangeBreak_other|]. split.
  - intros n ob b E Eb Eo.
    destruct (MutatorLoopRangeBreak_block _ _ _ _ _ E Eb Eo) as (Hrun & Hne & Hnb & Hbr).
    destruct (yield_range_break _ _ _ _ _ _ _ E Eb Eo Hrun) as (Hext & Hy).
    pose proof (yield_break_prepended h h node n ob b (extends_refl h) E Eb Eo) as Hbp.
    rewrite Hrun in Hbp. cbn [snd] in Hbp.
    eexists _, _, _, _. split; [exact Hrun|].
    assert (E1 : forall h1, extends h h1 -> h1 !! node = Some (NRangeStmt n))
      by (intros h1 [A _]; by apply A).
    pose proof (E1 _ Hext) as En.
    assert (Hrev : forall h1, h1 !! node = Some (NRangeStmt n) ->
               set_Body node (Some ob) (set_Body node (Some (fresh (dom h))) h1) = h1).
    { intros h1 Eh1. rewrite set_Body_set_Body, <- Eb. by apply set_Body_same. }
    assert (Hn1 : node <> fresh (dom h)) by (intros Hx; rewrite <- Hx, E in Hnb; done).
    cbn [Change Reset].
    rewrite (Hrev _ En).
    rewrite (set_Body_range node n _ _ En).
    split; [exact Hnb|]. split; [exact Hbr|]. split; [exact Hext|].
    split; [rewrite lookup_insert_ne by done; apply lookup_insert_eq|].
    split; [apply lookup_insert_eq|].
    split; [exact En|].
    split; [eexists; split; [apply lookup_insert_eq|apply body_replaced_with_Body]|].
    split; [intros l Hl; by rewrite lookup_insert_ne|].
    split; [unfold get_Body; by rewrite lookup_insert_eq|].
    split; [unfold get_List; rewrite lookup_insert_ne by done; by rewrite lookup_insert_eq|].
    split; [by rewrite <- (set_Body_range node n _ _ En)|].
    split; [done|].
    split; [unfold get_Body; by rewrite En, Eb|].
    unfold get_List. destruct Hext as [A _]. by rewrite (A _ _ Eo).
  - intros nodes Hb.
    destruct (MutateWalk_range_break_trees h nodes Hb h (extends_refl h))
      as (ys & h' & Hrun & Hall & Hext).
    exists ys, h'. split; [done|]. split; [done|]. split; [done|].
    pose proof (Forall2_length _ _ _ Hall) as Hlen.
    split; [done|]. congruence.
Qed.

End RangeBreak.

(** ** The harness: package main *)

Section HarnessProofs.
Import main.
Context `{GoEnv}.

Lemma wp_emit e (Q : outcome unit -> State -> Prop) s :
  Q (Ret tt) (add_event e s) -> wp (emit e) Q s.
Proof. done. Qed.

Lemma wp_when b m (Q : outcome unit -> State -> Prop) s :
  (b = true -> wp m Q s) -> (b = false -> Q (Ret tt) s) -> wp (when b m) Q s.
Proof. intros A B. destruct b; [by apply A|by apply B]. Qed.

Lemma wp_exec argv env (Q : outcome (string * cmd_err) -> State -> Prop) s :
  (forall fs' out err,
      exec_Run argv env (files s) = (fs', out, err) ->
      Q (Ret (out, err)) (set_files fs' (add_event (Exec argv env (files s)) s))) ->
  wp (exec_CombinedOutput argv env) Q s.
Proof.
  intros HQ. unfold wp, exec_CombinedOutput, bind, get, emit, modify, ret. cbn.
  destruct (exec_Run argv env (files s)) as [[fs' out] err] eqn:E. cbn. by apply HQ.
Qed.

Lemma wp_Rename old new (Q : outcome (option error) -> State -> Prop) s :
  (forall e, (os_refuses (Rename old new) = true \/ files s !! old = None) ->
             Q (Ret (Some e)) s) ->
  (forall c, os_refuses (Rename old new) = false -> files s !! old = Some c ->
             Q (Ret None) (set_files (<[new := c]> (delete old (files s))) s)) ->
  wp (os_Rename old new) Q s.
Proof.
  intros HE HO. unfold wp, os_Rename, bind, get, modify, ret. cbn.
  destruct (os_refuses (Rename old new)) eqn:R; cbn; [by apply HE; left|].
  destruct (files s !! old) as [c|] eqn:L; cbn; [by apply HO|by apply HE; right].
Qed.

Lemma wp_CopyFile src dst (Q : outcome (option error) -> State -> Prop) s :
  (forall e, (os_refuses (CopyFile src dst) = true \/ files s !! src = None) ->
             Q (Ret (Some e)) s) ->
  (forall c, os_refuses (CopyFile src dst) = false -> files s !! src = Some c ->
             Q (Ret None) (set_files (<[dst := c]> (files s)) s)) ->
  wp (osutil_CopyFile src dst) Q s.
Proof.
  intros HE HO. unfold wp, osutil_CopyFile, bind, get, modify, ret. cbn.
  destruct (os_refuses (CopyFile src dst)) eqn:R; cbn; [by apply HE; left|].
  destruct (files s !! src) as [c|] eqn:L; cbn; [by apply HO|by apply HE; right].
Qed.

Lemma wp_exitCodeOf err (Q : outcome Z -> State -> Prop) s :
  (err = CmdNil -> Q (Ret 0) s) ->
  (forall st, err = ExitError st -> Q (Ret st) s) ->
  (forall e, err = OtherError e -> Q (Panic e) s) ->
  wp (exitCodeOf err) Q s.
Proof. intros A B C. destruct err; [by apply A|by apply B|by apply C]. Qed.



Lemma wp_ReadFile name (Q : outcome (string * option error) -> State -> Prop) s :
  (forall e, (os_refuses (ReadFile name) = true \/ files s !! name = None) ->
             Q (Ret ("", Some e)) s) ->
  (forall c, os_refuses (ReadFile name) = false -> files s !! name = Some c ->
             Q (Ret (c, None)) s) ->
  wp (os_ReadFile name) Q s.
Proof.
  intros HE HO. unfold wp, os_ReadFile, bind, get, ret. cbn.
  destruct (os_refuses (ReadFile name)) eqn:R; cbn; [by apply HE; left|].
  destruct (files s !! name) as [c|] eqn:L; cbn; [by apply HO|by apply HE; right].
Qed.

Lemma wp_WriteFile name data (Q : outcome (option error) -> State -> Prop) s :
  (forall e, os_refuses (WriteFile name) = true -> Q (Ret (Some e)) s) ->
  (os_refuses (WriteFile name) = false ->
     Q (Ret None) (set_files (<[name := data]> (files s)) s)) ->
  wp (os_WriteFile name data) Q s.
Proof.
  intros HE HO. unfold wp, os_WriteFile, bind, modify, ret.
  destruct (os_refuses (WriteFile name)) eqn:R; cbn; [by apply HE|by apply HO].
Qed.

Lemma length_app (a b : string) :
  String.length (a +:+ b) = (String.length a + String.length b)%nat.
Proof. induction a as [|x a IH]; simpl; [done|f_equal; exact IH]. Qed.

Lemma tmp_ne (file : string) : file +:+ ".tmp" <> file.
Proof.
  intros E. apply (f_equal String.length) in E.
  rewrite length_app in E. cbn in E. lia.
Qed.

Lemma only_output_refl s : only_output s s.
Proof. repeat split. exists []. by rewrite app_nil_r. Qed.

Lemma only_output_emit e s s' :
  is_Exec e = false -> only_output s s' -> only_output s (add_event e s').
Proof.
  intros He (A & B & C & evs & D & E). repeat split; try done.
  exists (evs ++ [e]). cbn. rewrite D, <- app_assoc. split; [done|].
  rewrite forallb_app, E. cbn. by rewrite He.
Qed.

Lemma wp_translate opts diff code (Q : outcome Z -> State -> Prop) s :
  (forall s', only_output s s' -> Q (Ret (invert code)) s') ->
  wp (translate opts diff code) Q s.
Proof.
  intros HQ. unfold translate, invert in *.
  destruct (code =? 0); [|destruct (code =? 1); [|destruct (code =? 2)]].
  all: repeat (apply wp_bind, wp_when; [intros _|intros _]);
       repeat (apply wp_bind, wp_emit); try apply wp_emit; apply wp_ret, HQ;
       repeat (apply only_output_emit; [done|]); apply only_output_refl.
Qed.


Lemma only_output_trans s1 s2 s3 :
  only_output s1 s2 -> only_output s2 s3 -> only_output s1 s3.
Proof.
  intros (A & B & C & e1 & D & E) (A' & B' & C' & e2 & D' & E').
  repeat split; try congruence.
  exists (e1 ++ e2). rewrite D', D, <- app_assoc. split; [done|].
  by rewrite forallb_app, E, E'.
Qed.

Lemma no_test_on_swap file mutationFile c evs :
  forallb (fun e => negb (is_go_test e)) evs = true ->
  test_on_swap file mutationFile c evs.
Proof.
  intros Hall argv env fs Hin.
  rewrite forallb_forall in Hall. by specialize (Hall _ Hin).
Qed.

Lemma restored_intro file mutationFile c s r s' evs :
  files s' !! file = Some c ->
  files s' !! (file +:+ ".tmp") = None ->
  (forall code, r <> Exit code) ->
  events s' = events s ++ evs ->
  test_on_swap file mutationFile c evs ->
  restored file mutationFile c s r s'.
Proof. intros. repeat split; try done. by exists evs. Qed.

Lemma restore_returns (a b : string) (s : State) :
  ((_ <- os_Rename a b ;; ret tt)%go s).1 = Ret tt.
Proof.
  unfold os_Rename, bind, get, modify, ret. cbn.
  destruct (os_refuses (Rename a b)); [done|]. by destruct (files s !! a).
Qed.

Lemma restore_run (file c : string) (s : State) :
  os_refuses (Rename (file +:+ ".tmp") file) = false ->
  ((_ <- os_Rename (file +:+ ".tmp") file ;; ret tt)%go s).2 =
    match files s !! (file +:+ ".tmp") with
    | Some c => set_files (<[file := c]> (delete (file +:+ ".tmp") (files s))) s
    | None => s
    end.
Proof.
  intros Hr. unfold os_Rename, bind, get, modify, ret. cbn. rewrite Hr.
  by destruct (files s !! (file +:+ ".tmp")).
Qed.

Lemma os_Rename_events a b s :
  events ((_ <- os_Rename a b ;; ret tt)%go s).2 = events s.
Proof.
  unfold os_Rename, bind, get, modify, ret. cbn.
  destruct (os_refuses (Rename a b)); [done|]. by destruct (files s !! a).
Qed.

(** Whatever the built-in run does, the original is back afterwards, when
    no copy was left behind before and the restoring rename goes through. *)
Lemma mutateExec_restores (opts : Options) (pkgPath file mutationFile : string) (mutant : Mutant)
    (s : State) (c : string) :
  files s !! file = Some c ->
  files s !! (file +:+ ".tmp") = None ->
  os_refuses (Rename (file +:+ ".tmp") file) = false ->
  frame_cmds file ->
  forall r s',
    mutateExec opts pkgPath file mutationFile [] mutant s = (r, s') ->
    restored file mutationFile c s r s'.
Proof.
  intros Hf Ht Hr Hfr r0 s0' Hrun0.
  eapply wp_run; [|exact Hrun0]. clear r0 s0' Hrun0.
  pose proof (tmp_ne file) as Hne.
  unfold mutateExec.
  apply wp_bind, wp_emit. apply wp_bind, wp_exec. intros fs1 diff e1 E1.
  cbn [add_event files] in E1.
  match type of E1 with exec_Run ?a ?e ?f = _ => destruct (Hfr a e f) as [F1 F2] end.
  rewrite E1 in F1, F2. cbn in F1, F2.
  rewrite Hf in F1. rewrite Ht in F2.
  assert (Early : forall (r : outcome (Z * Mutant)) s',
             (forall code, r <> Exit code) -> files s' = fs1 ->
             (exists pre, events s' = events s ++ pre /\
                forallb (fun e => negb (is_go_test e)) pre = true) ->
             restored file mutationFile c s r s').
  { intros r s' Hr' Hs' (pre & He & Hpre).
    apply restored_intro with pre; rewrite ?Hs'; try done.
    by apply no_test_on_swap. }
  apply wp_bind, wp_exitCodeOf;
    [intros _|intros st _
    |intros e _; apply Early; [done|done|];
     eexists; cbn [events set_files add_event]; rewrite <- app_assoc; by split].
  all: apply wp_bind;
    match goal with |- context [if ?b then _ else _] => destruct b end;
    [apply wp_bind, wp_emit, wp_panic, Early; [done|done|];
     eexists; cbn [events set_files add_event]; rewrite <- !app_assoc; by split
    |apply wp_ret].
  all: match goal with |- wp _ _ ?st => set (s1 := st) end;
    assert (Hs1 : files s1 = fs1) by done;
    assert (He1 : exists pre, events s1 = events s ++ pre /\
                    forallb (fun e => negb (is_go_test e)) pre = true)
      by (eexists; unfold s1; cbn [events set_files add_event];
          rewrite <- app_assoc; split; [reflexivity|done]);
    clearbody s1; destruct He1 as (pre & He1 & Hpre).
  all: (apply wp_with_defer; [apply restore_returns|]); apply wp_bind, wp_Rename.
  all: try (intros e _; apply wp_panic; rewrite restore_run by done;
            rewrite Hs1, F2; apply restored_intro with pre; rewrite ?Hs1; try done;
            by apply no_test_on_swap).
  all: intros c0 _ L; rewrite Hs1, F1 in L; injection L as <-.
  all: match goal with |- wp _ _ ?st => set (s2 := st) end;
    assert (Hs2 : files s2 = <[file +:+ ".tmp" := c]> (delete file fs1))
      by (unfold s2; cbn [files set_files]; by rewrite Hs1);
    assert (He2 : events s2 = events s ++ pre) by done;
    clearbody s2.
  all: assert (T2 : files s2 !! (file +:+ ".tmp") = Some c)
         by (rewrite Hs2; apply lookup_insert_eq).
  all: apply wp_bind, wp_CopyFile.
  all: try (intros e _; apply wp_panic; rewrite restore_run by done;
            rewrite T2; apply restored_intro with pre; cbn [files events set_files];
            [by simplify_map_eq|by simplify_map_eq|done|done|by apply no_test_on_swap]).
  all: intros mc _ Lmc.
  all: apply wp_bind, wp_exec; intros fs4 out e2 E2;
    match type of E2 with exec_Run ?a ?e ?f = _ => destruct (Hfr a e f) as [G1 G2] end;
    rewrite E2 in G1, G2; cbn [fst snd files set_files add_event] in G1, G2, E2;
    rewrite lookup_insert_eq in G1;
    rewrite lookup_insert_ne, T2 in G2 by done.
  all: match goal with |- wp _ _ ?st => set (s3 := st) end;
    assert (Hs3 : files s3 = fs4) by done;
    assert (He3 : events s3 = events s ++ pre ++
              [Exec ["go"; "test"; "-timeout"; Sprintf_d (Exec_Timeout opts) +:+ "s";
                     if Test_Recursive opts then pkgPath +:+ "/..." else pkgPath] []
                    (<[file := mc]> (files s2))])
      by (unfold s3; cbn [events set_files add_event files]; by rewrite He2, <- app_assoc);
    clearbody s3.
  all: assert (Leaf : forall (r : outcome (Z * Mutant)) s',
             (forall code, r <> Exit code) -> only_output s3 s' ->
             restored file mutationFile c s r
               ((_ <- os_Rename (file +:+ ".tmp") file ;; ret tt)%go s').2).
  1,3: intros r s' Hr' (A & _ & _ & evs & D & E);
    rewrite restore_run by done; rewrite A, Hs3, G2;
    eapply restored_intro; cbn [files events set_files];
    [by simplify_map_eq|by simplify_map_eq|done
    |rewrite D, He3, <- !app_assoc; reflexivity|];
    intros argv env fs Hin;
    apply in_app_or in Hin as [Hin|Hin];
    [rewrite forallb_forall in Hpre; by specialize (Hpre _ Hin)|];
    apply in_app_or in Hin as [Hin|Hin];
    [|rewrite forallb_forall in E; by specialize (E _ Hin)];
    destruct Hin as [[= <- <- <-]|[]];
    (split; [by rewrite lookup_insert_ne|]);
    rewrite lookup_insert_eq;
    (split; [|done]);
    (destruct (decide (file = mutationFile)) as [<-|];
     [by rewrite lookup_insert_eq|by rewrite lookup_insert_ne]).
  all: apply wp_bind, wp_exitCodeOf;
    [intros _|intros st2 _|intros e _; apply Leaf; [done|apply only_output_refl]].
  all: apply wp_bind, wp_when; [intros _; apply wp_emit|intros _].
  all: apply wp_bind, wp_translate; intros s' Ho; apply wp_ret, Leaf; [done|].
  all: try done.
  all: destruct Ho as (A & B & C & evs & D & E); repeat split; try done;
    exists ([Stdout (out +:+ LF)] ++ evs); cbn [events add_event] in D;
    rewrite D, <- app_assoc; done.
Qed.

(** The built-in run when the swap can be made: the tests are started
    once, on the tree with the original set aside and the mutant in its
    place, and no other child process follows. *)
Lemma mutateExec_swaps opts pkgPath file mutationFile mutant s c mc :
  let run := mutateExec opts pkgPath file mutationFile [] mutant s in
  let diffed := exec_Run (diff_argv file mutationFile) [] (files s) in
  let aside := <[file +:+ ".tmp" := c]> (delete file diffed.1.1) in
  raw_status diffed.2 = Some 0 \/ raw_status diffed.2 = Some 1 ->
  os_refuses (Rename file (file +:+ ".tmp")) = false ->
  diffed.1.1 !! file = Some c ->
  os_refuses (CopyFile mutationFile file) = false ->
  aside !! mutationFile = Some mc ->
  exists post,
    events run.2 = events s ++
      [Console "Debug" "Execute built-in exec command for mutation";
       Exec (diff_argv file mutationFile) [] (files s);
       Exec ["go"; "test"; "-timeout"; Sprintf_d (Exec_Timeout opts) +:+ "s";
             if Test_Recursive opts then pkgPath +:+ "/..." else pkgPath] []
            (<[file := mc]> aside)] ++ post /\
    forallb (fun e => negb (is_Exec e)) post = true.
Proof.
  intros run diffed aside Hst1 Hr1 Hl1 Hr2 Hl2.
  subst run.
  change (wp (mutateExec opts pkgPath file mutationFile [] mutant)
            (fun _ s' => exists post,
               events s' = events s ++
                 [Console "Debug" "Execute built-in exec command for mutation";
                  Exec (diff_argv file mutationFile) [] (files s);
                  Exec ["go"; "test"; "-timeout"; Sprintf_d (Exec_Timeout opts) +:+ "s";
                        if Test_Recursive opts then pkgPath +:+ "/..." else pkgPath] []
                       (<[file := mc]> aside)] ++ post /\
               forallb (fun e => negb (is_Exec e)) post = true) s).
  unfold mutateExec. fold (diff_argv file mutationFile).
  apply wp_bind, wp_emit. apply wp_bind, wp_exec. intros fs1 diff e1 E1.
  cbn [files add_event] in E1.
  subst aside diffed. rewrite E1 in *. cbn [fst snd] in *.
  assert (Hcode : exists st1, raw_status e1 = Some st1 /\
                    negb (st1 =? 0) && negb (st1 =? 1) = false).
  { destruct Hst1 as [->| ->]; eexists; by split. }
  destruct Hcode as (st1 & Hraw & Hok).
  apply wp_bind, wp_exitCodeOf;
    [intros ->; injection Hraw as <-
    |intros st ->; injection Hraw as <-
    |intros e ->; discriminate Hraw].
  all: rewrite Hok; apply wp_bind, wp_ret.
  all: (apply wp_with_defer; [apply restore_returns|]); apply wp_bind, wp_Rename;
    [intros e [Hx|Hx]; cbn [files set_files add_event] in Hx; congruence|].
  all: intros c' _ Hc'; cbn [files set_files add_event] in Hc';
    rewrite Hl1 in Hc'; injection Hc' as <-.
  all: apply wp_bind, wp_CopyFile;
    [intros e [Hx|Hx]; cbn [files set_files add_event] in Hx; congruence|].
  all: intros mc' _ Hmc'; cbn [files set_files add_event] in Hmc';
    rewrite Hl2 in Hmc'; injection Hmc' as <-.
  all: apply wp_bind, wp_exec; intros fs4 out e2 E2;
    cbn [files set_files add_event] in E2.
  all: match goal with |- wp _ _ ?st => set (s3 := st) end;
    assert (He3 : events s3 = events s ++
              [Console "Debug" "Execute built-in exec command for mutation";
               Exec (diff_argv file mutationFile) [] (files s);
               Exec ["go"; "test"; "-timeout"; Sprintf_d (Exec_Timeout opts) +:+ "s";
                     if Test_Recursive opts then pkgPath +:+ "/..." else pkgPath] []
                    (<[file := mc]> (<[file +:+ ".tmp" := c]> (delete file fs1)))])
      by (unfold s3; cbn [events set_files add_event files]; by rewrite <- !app_assoc);
    clearbody s3.
  all: assert (Leaf : forall s', only_output s3 s' ->
         exists post,
           events ((_ <- os_Rename (file +:+ ".tmp") file ;; ret tt)%go s').2 =
             events s ++
               [Console "Debug" "Execute built-in exec command for mutation";
                Exec (diff_argv file mutationFile) [] (files s);
                Exec ["go"; "test"; "-timeout"; Sprintf_d (Exec_Timeout opts) +:+ "s";
                      if Test_Recursive opts then pkgPath +:+ "/..." else pkgPath] []
                     (<[file := mc]> (<[file +:+ ".tmp" := c]> (delete file fs1)))] ++ post /\
           forallb (fun e => negb (is_Exec e)) post = true)
    by (intros s' (_ & _ & _ & evs & D & E); exists evs;
        rewrite os_Rename_events, D, He3, <- !app_assoc; by split).
  all: apply wp_bind, wp_exitCodeOf;
    [intros _|intros st2 _|intros e _; apply Leaf, only_output_refl].
  all: apply wp_bind, wp_when; [intros _; apply wp_emit|intros _].
  all: apply wp_bind, wp_translate; intros s' Ho; apply wp_ret, Leaf.
  all: try done.
  all: eapply only_output_trans; [|exact Ho]; apply only_output_emit; [done|];
    apply only_output_refl.
Qed.

(** C2, as amended (internal mode).  The premises: the original exists, no
    [file.tmp] left by an earlier run lies around, the child processes
    leave the two paths alone, and the operating system does not refuse
    the rename that puts the original back.  Then, whatever [mutateExec]
    does (return or panic, it never exits the process), the original file
    has its contents of before the call again and the copy set aside is
    gone, and the tests were never started on any other tree than the
    swapped one.  And the swap is made: when [diff] ends with status 0 or 1,
    the rename aside and the copy are not refused and the mutant's file
    exists, the tests are started exactly once, after [diff], on the tree
    where [file.tmp] holds the original and [file] the mutant, and no
    other child process follows. *)
Theorem original_restored_on_every_path
    (opts : Options) (pkgPath file mutationFile : string) (mutant : Mutant)
    (s : State) (c : string) :
  files s !! file = Some c ->
  files s !! (file +:+ ".tmp") = None ->
  os_refuses (Rename (file +:+ ".tmp") file) = false ->
  frame_cmds file ->
  let run := mutateExec opts pkgPath file mutationFile [] mutant s in
  let diffed := exec_Run (diff_argv file mutationFile) [] (files s) in
  let aside := <[file +:+ ".tmp" := c]> (delete file diffed.1.1) in
  restored file mutationFile c s run.1 run.2 /\
  (forall mc,
     raw_status diffed.2 = Some 0 \/ raw_status diffed.2 = Some 1 ->
     os_refuses (Rename file (file +:+ ".tmp")) = false ->
     os_refuses (CopyFile mutationFile file) = false ->
     aside !! mutationFile = Some mc ->
     (<[file := mc]> aside) !! file = Some mc /\
     (<[file := mc]> aside) !! (file +:+ ".tmp") = Some c /\
     exists post,
       events run.2 = events s ++
         [Console "Debug" "Execute built-in exec command for mutation";
          Exec (diff_argv file mutationFile) [] (files s);
          Exec ["go"; "test"; "-timeout"; Sprintf_d (Exec_Timeout opts) +:+ "s";
                if Test_Recursive opts then pkgPath +:+ "/..." else pkgPath] []
               (<[file := mc]> aside)] ++ post /\
       forallb (fun e => negb (is_Exec e)) post = true).
Proof.
  intros Hf Ht Hr Hfr run diffed aside. split.
  - apply (mutateExec_restores opts pkgPath file mutationFile mutant s c Hf Ht Hr Hfr).
    by destruct (mutateExec _ _ _ _ _ _ _).
  - intros mc Hst Hr1 Hr2 Hl2.
    pose proof (tmp_ne file) as Hne.
    split; [apply lookup_insert_eq|].
    split; [unfold aside; rewrite lookup_insert_ne by (intros X; by apply Hne);
            apply lookup_insert_eq|].
    apply (mutateExec_swaps opts pkgPath file mutationFile mutant s c mc); try done.
    destruct (Hfr (diff_argv file mutationFile) [] (files s)) as [F1 _].
    by rewrite F1.
Qed.

End HarnessProofs.

Section SaveProofs.
Import main.
Context `{GoEnv}.

(** *** [saveAST], case by case *)

Lemma saveAST_duplicate file fset tree node s buf :
  printer_Fprint fset tree node = (buf, None) ->
  Sprintf_x (md5_Sum buf) ∈ mutationBlackList s ->
  saveAST file fset tree node s = (Ret (Sprintf_x (md5_Sum buf), true, None), s).
Proof.
  intros Hp Hin. unfold saveAST. rewrite Hp.
  unfold bind, gets. cbn. by rewrite decide_True.
Qed.

Lemma saveAST_fresh file fset tree node s buf text :
  printer_Fprint fset tree node = (buf, None) ->
  Sprintf_x (md5_Sum buf) ∉ mutationBlackList s ->
  format_Source buf = (text, None) ->
  os_refuses (WriteFile file) = false ->
  saveAST file fset tree node s =
    (Ret (Sprintf_x (md5_Sum buf), false, None),
     mkState (<[file := text]> (files s))
             ({[Sprintf_x (md5_Sum buf)]} ∪ mutationBlackList s)
             (report s) (events s)).
Proof.
  intros Hp Hin Hf Hw. unfold saveAST. rewrite Hp.
  unfold bind, gets, modify, os_WriteFile. cbn. rewrite decide_False by done.
  cbn. rewrite Hf, Hw. reflexivity.
Qed.

Lemma saveAST_fails file fset tree node s buf :
  printer_Fprint fset tree node = (buf, None) ->
  Sprintf_x (md5_Sum buf) ∉ mutationBlackList s ->
  snd (format_Source buf) <> None \/ os_refuses (WriteFile file) = true ->
  exists e,
    saveAST file fset tree node s =
      (Ret ("", false, Some e),
       set_mutationBlackList ({[Sprintf_x (md5_Sum buf)]} ∪ mutationBlackList s) s).
Proof.
  intros Hp Hin Hor. unfold saveAST. rewrite Hp.
  unfold bind, gets, modify, os_WriteFile. cbn. rewrite decide_False by done. cbn.
  destruct (format_Source buf) as [text [e|]] eqn:Hf; cbn; [by exists e|].
  destruct Hor as [Hn|Hw]; [done|]. rewrite Hw. cbn. by eexists.
Qed.

(** A successful save of a new mutant can only have come about one way. *)
Lemma saveAST_saved_inv file fset tree node s checksum s' :
  saveAST file fset tree node s = (Ret (checksum, false, None), s') ->
  exists buf text,
    printer_Fprint fset tree node = (buf, None) /\
    checksum = Sprintf_x (md5_Sum buf) /\
    (checksum ∉ mutationBlackList s) /\
    format_Source buf = (text, None) /\
    os_refuses (WriteFile file) = false /\
    s' = mkState (<[file := text]> (files s)) ({[checksum]} ∪ mutationBlackList s)
                 (report s) (events s).
Proof.
  unfold saveAST.
  destruct (printer_Fprint fset tree node) as [buf [e|]] eqn:Hp; [done|].
  unfold bind, gets, modify, os_WriteFile. cbn.
  destruct (decide _) as [Hin|Hin]; [done|]. cbn.
  destruct (format_Source buf) as [text [e|]] eqn:Hf; cbn; [done|].
  destruct (os_refuses (WriteFile file)) eqn:Hw; cbn; [done|].
  intros [= <- <-]. by exists buf, text.
Qed.

(** [saveAST] never touches the report or the trace, and never removes a
    fingerprint. *)
Lemma saveAST_keeps file fset tree node s r s' :
  saveAST file fset tree node s = (r, s') ->
  report s' = report s /\ events s' = events s /\
  mutationBlackList s ⊆ mutationBlackList s' /\
  (forall code, r <> Exit code) /\ (forall e, r <> Panic e).
Proof.
  unfold saveAST.
  destruct (printer_Fprint fset tree node) as [buf [e|]] eqn:Hp;
    [by intros [= <- <-]|].
  unfold bind, gets, modify, os_WriteFile. cbn.
  destruct (decide _) as [Hin|Hin]; [by intros [= <- <-]|]. cbn.
  destruct (format_Source buf) as [text [e|]] eqn:Hf; cbn;
    [intros [= <- <-]; cbn; split_and!; try done; set_solver|].
  destruct (os_refuses (WriteFile file)) eqn:Hw; cbn;
    intros [= <- <-]; cbn; split_and!; try done; set_solver.
Qed.

(** *** Hexadecimal fingerprints *)

Lemma Sprintf_x_length b : String.length (Sprintf_x b) = (2 * String.length b)%nat.
Proof. induction b as [|c b IH]; cbn [Sprintf_x String.length]; [done|]. rewrite IH. lia. Qed.

Lemma hex_digit_is_hex n : is_hex_digit (hex_digit n) = true.
Proof. unfold hex_digit. repeat case_match; reflexivity. Qed.

Lemma Sprintf_x_all_hex b : all_hex (Sprintf_x b) = true.
Proof.
  induction b as [|c b IH]; cbn [Sprintf_x all_hex]; [done|].
  by rewrite !hex_digit_is_hex, IH.
Qed.

End SaveProofs.

Section ClassifyProofs.
Import main.
Context `{GoEnv}.

(** *** What [mutateExec] leaves alone *)

Lemma Rename_same_books a b s :
  same_books s ((_ <- os_Rename a b ;; ret tt)%go s).2.
Proof.
  unfold os_Rename, bind, get, modify, ret. cbn.
  destruct (os_refuses (Rename a b)); [done|].
  by destruct (files s !! a).
Qed.

Lemma same_books_trans s1 s2 s3 : same_books s1 s2 -> same_books s2 s3 -> same_books s1 s3.
Proof. intros [A B] [C D]. split; congruence. Qed.

Lemma mutateExec_same_books opts pkgPath file mutationFile execs mutant s :
  wp (mutateExec opts pkgPath file mutationFile execs mutant)
     (fun r s' => same_books s s' /\ forall code, r <> Exit code) s.
Proof.
  unfold mutateExec. destruct execs as [|name args].
  - apply wp_bind, wp_emit. apply wp_bind, wp_exec. intros fs1 diff e1 _.
    apply wp_bind, wp_exitCodeOf; [intros _|intros st _|by intros e _].
    all: apply wp_bind;
      match goal with |- context [if ?b then _ else _] => destruct b end;
      [by apply wp_bind, wp_emit, wp_panic|apply wp_ret].
    all: (apply wp_with_defer; [apply restore_returns|]); apply wp_bind, wp_Rename;
      [intros e _; apply wp_panic; split; [|done];
       eapply same_books_trans; [|apply Rename_same_books]; done|].
    all: intros c _ _.
    all: apply wp_bind, wp_CopyFile;
      [intros e _; apply wp_panic; split; [|done];
       eapply same_books_trans; [|apply Rename_same_books]; done|].
    all: intros mc _ _.
    all: apply wp_bind, wp_exec; intros fs4 out e2 _.
    all: apply wp_bind, wp_exitCodeOf;
      [intros _|intros st2 _
      |intros e _; split; [|done];
       eapply same_books_trans; [|apply Rename_same_books]; done].
    all: apply wp_bind, wp_when; [intros _; apply wp_emit|intros _].
    all: apply wp_bind, wp_translate; intros s' (_ & B & C & _); apply wp_ret.
    all: split; [|done]; eapply same_books_trans; [|apply Rename_same_books].
    all: by split.
  - apply wp_bind, wp_emit. apply wp_bind, wp_exec. intros fs1 out e1 _.
    apply wp_bind, wp_emit.
    apply wp_bind, wp_exitCodeOf; [intros _|intros st _|by intros e _].
    all: by apply wp_ret.
Qed.

(** *** The switch of [mutate] *)

Lemma plus_one_incr x : plus_one x (incr x).
Proof.
  unfold plus_one, incr, int_wrap. split; [done|].
  split; [intros Hx; rewrite Z.mod_small; lia|].
  split; [intros ->; reflexivity|].
  pose proof (Z.mod_pos_bound (x + 1 + 2 ^ 63) (2 ^ 64)). lia.
Qed.

Lemma classify_recorded opts msg code mutant s :
  exists s' m,
    classify opts msg code mutant s = (Ret tt, s') /\
    completed mutant (MutatedSourceCode mutant) m /\
    recorded (bucket_of code) m (report s) (report s') /\
    files s' = files s /\ mutationBlackList s' = mutationBlackList s.
Proof.
  unfold classify, bucket_of.
  destruct (code =? 0); [|destruct (code =? 1); [|destruct (code =? 2)]].
  all: destruct (Config_SilentMode opts); cbn.
  all: first [ eexists _, (with_ProcessOutput mutant ("PASS " +:+ msg +:+ LF));
               split; [reflexivity|]; split; [done|]; split; [|done];
               unfold recorded; cbn; rewrite ?app_nil_r;
               split_and!; first [reflexivity|apply plus_one_incr]
             | eexists _, (with_ProcessOutput mutant ("FAIL " +:+ msg +:+ LF));
               split; [reflexivity|]; split; [done|]; split; [|done];
               unfold recorded; cbn; rewrite ?app_nil_r;
               split_and!; first [reflexivity|apply plus_one_incr]
             | eexists _, (with_ProcessOutput mutant
                             ("UNKOWN exit code for " +:+ msg +:+ LF));
               split; [reflexivity|]; split; [done|]; split; [|done];
               unfold recorded; cbn; rewrite ?app_nil_r;
               split_and!; first [reflexivity|apply plus_one_incr] ].
Qed.

End ClassifyProofs.

Section MutateProofs.
Import main.
Context `{GoEnv}.

Lemma wp_of_run {A} (m : M State A) (Q : outcome A -> State -> Prop) s :
  (forall r s', m s = (r, s') -> Q r s') -> wp m Q s.
Proof. intros HQ. unfold wp. apply HQ. by destruct (m s). Qed.

Lemma os_ReadFile_run name c s :
  os_refuses (ReadFile name) = false -> files s !! name = Some c ->
  os_ReadFile name s = (Ret (c, None), s).
Proof. intros Hr Hl. unfold os_ReadFile, bind, get, ret. cbn. by rewrite Hr, Hl. Qed.

Lemma wp_log_Fatal {A} e (Q : outcome A -> State -> Prop) s :
  Q (Exit 1) (add_event (Stderr e) s) -> wp (log_Fatal e) Q s.
Proof. done. Qed.

(** *** The body of the receive loop *)

(** A mutant whose fingerprint is known already: counted, nothing else. *)
Lemma mutate_mutant_duplicate opts m mutationID pkgPath originalFile fset tree src
    mutatedFile execs s buf osc :
  os_refuses (ReadFile originalFile) = false ->
  files s !! originalFile = Some osc ->
  printer_Fprint fset tree src = (buf, None) ->
  Sprintf_x (md5_Sum buf) ∈ mutationBlackList s ->
  mutate_mutant opts m mutationID pkgPath originalFile fset tree src mutatedFile execs s =
    (Ret tt,
     mkState (files s) (mutationBlackList s) (add_Duplicated (report s))
       (events s ++
          [Console "Debug"
             (strconv_Quote (mutatedFile +:+ "." +:+ Sprintf_d mutationID)
              +:+ " is a duplicate, we ignore it")])).
Proof.
  intros Hr Hl Hp Hin. unfold mutate_mutant.
  unfold bind at 1. rewrite (os_ReadFile_run _ _ _ Hr Hl).
  unfold bind at 1. rewrite (saveAST_duplicate _ _ _ _ _ _ Hp Hin).
  reflexivity.
Qed.

(** A mutant that was saved and run: classified by the code [mutateExec]
    returned. *)
Lemma mutate_mutant_executed opts m mutationID pkgPath originalFile fset tree src
    mutatedFile execs s osc checksum s1 code mutant' s2 msc :
  let mutationFile := mutatedFile +:+ "." +:+ Sprintf_d mutationID in
  os_refuses (ReadFile originalFile) = false ->
  files s !! originalFile = Some osc ->
  saveAST mutationFile fset tree src s = (Ret (checksum, false, None), s1) ->
  Exec_NoExec opts = false ->
  mutateExec opts pkgPath originalFile mutationFile execs
    (mkMutant (Name m) originalFile osc "" 0 "" "")
    (add_event (Console "Debug" ("Save mutation into " +:+ strconv_Quote mutationFile
                                 +:+ " with checksum " +:+ checksum)) s1)
    = (Ret (code, mutant'), s2) ->
  os_refuses (ReadFile mutationFile) = false ->
  files s2 !! mutationFile = Some msc ->
  exists s3 final,
    mutate_mutant opts m mutationID pkgPath originalFile fset tree src mutatedFile execs s
      = (Ret tt, s3) /\
    completed mutant' msc final /\
    recorded (bucket_of code) final (report s) (report s3) /\
    files s3 = files s2 /\ mutationBlackList s3 = mutationBlackList s2.
Proof.
  intros mutationFile Hr Hl Hsave Hexec Hrun Hr2 Hl2.
  destruct (saveAST_keeps _ _ _ _ _ _ _ Hsave) as (Rep1 & _).
  pose proof (mutateExec_same_books opts pkgPath originalFile mutationFile execs
                (mkMutant (Name m) originalFile osc "" 0 "" "")
                (add_event (Console "Debug" ("Save mutation into "
                   +:+ strconv_Quote mutationFile +:+ " with checksum " +:+ checksum)) s1))
    as Hbooks.
  unfold wp in Hbooks. rewrite Hrun in Hbooks. destruct Hbooks as [[Rep2 _] _].
  cbn [fst snd report add_event] in Rep2.
  destruct (classify_recorded opts
              (strconv_Quote mutationFile +:+ " with checksum " +:+ checksum) code
              (with_MutatedSourceCode mutant' msc)
              (add_event (Console "Debug" ("Exited with " +:+ Sprintf_d code)) s2))
    as (s3 & final & Hc & Hfin & Hrec & Hf & Hb).
  exists s3, final. split; [|split; [|split; [|by split]]].
  - unfold mutate_mutant. fold mutationFile.
    unfold bind at 1. rewrite (os_ReadFile_run _ _ _ Hr Hl).
    unfold bind at 1. rewrite Hsave. rewrite Hexec. cbn [negb].
    unfold bind at 1. unfold emit at 1, modify at 1.
    unfold bind at 1. rewrite Hrun.
    unfold bind at 1. unfold emit at 1, modify at 1.
    unfold bind at 1. rewrite (os_ReadFile_run mutationFile msc); [exact Hc|done|done].
  - destruct Hfin as (F1 & F2 & F3 & F4 & F5 & F6). by split_and!.
  - cbn [report add_event] in Hrec. by rewrite Rep2, Rep1 in Hrec.
Qed.




End MutateProofs.

Section ExitCodes.
Import main.
Context `{GoEnv}.

(** The built-in run, when nothing goes wrong around the tests: the code
    returned is the inverted go-test status. *)
Lemma mutateExec_builtin_code opts pkgPath file mutationFile mutant s
    fs1 diff e1 c mc fs4 out e2 st2 :
  exec_Run ["diff"; "--label=Original"; "--label=New"; "-u"; file; mutationFile] []
           (files s) = (fs1, diff, e1) ->
  raw_status e1 = Some 0 \/ raw_status e1 = Some 1 ->
  os_refuses (Rename file (file +:+ ".tmp")) = false ->
  fs1 !! file = Some c ->
  os_refuses (CopyFile mutationFile file) = false ->
  (<[file +:+ ".tmp" := c]> (delete file fs1)) !! mutationFile = Some mc ->
  exec_Run ["go"; "test"; "-timeout"; Sprintf_d (Exec_Timeout opts) +:+ "s";
            if Test_Recursive opts then pkgPath +:+ "/..." else pkgPath] []
           (<[file := mc]> (<[file +:+ ".tmp" := c]> (delete file fs1))) = (fs4, out, e2) ->
  raw_status e2 = Some st2 ->
  (mutateExec opts pkgPath file mutationFile [] mutant s).1 =
    Ret (invert st2,
         with_Diff (with_OriginalStartLine mutant (parser_FindOriginalStartLine diff)) diff).
Proof.
  intros Hdiff Hst1 Hr1 Hl1 Hr2 Hl2 Htest Hst2.
  change (wp (mutateExec opts pkgPath file mutationFile [] mutant)
            (fun r _ => r = Ret (invert st2,
               with_Diff (with_OriginalStartLine mutant (parser_FindOriginalStartLine diff))
                         diff)) s).
  unfold mutateExec.
  apply wp_bind, wp_emit. apply wp_bind, wp_exec. intros fs1' diff' e1' E1.
  cbn [files add_event] in E1. rewrite Hdiff in E1. injection E1 as <- <- <-.
  assert (Hcode : exists st1, raw_status e1 = Some st1 /\
                    negb (st1 =? 0) && negb (st1 =? 1) = false).
  { destruct Hst1 as [->| ->]; eexists; by split. }
  destruct Hcode as (st1 & Hraw & Hok).
  apply wp_bind, wp_exitCodeOf;
    [intros ->; injection Hraw as <-
    |intros st ->; injection Hraw as <-
    |intros e ->; discriminate Hraw].
  all: rewrite Hok; apply wp_bind, wp_ret.
  all: (apply wp_with_defer; [apply restore_returns|]); apply wp_bind, wp_Rename;
    [intros e [Hx|Hx]; cbn [files set_files add_event] in Hx; congruence|].
  all: intros c' _ Hc'; cbn [files set_files add_event] in Hc';
    rewrite Hl1 in Hc'; injection Hc' as <-.
  all: apply wp_bind, wp_CopyFile;
    [intros e [Hx|Hx]; cbn [files set_files add_event] in Hx; congruence|].
  all: intros mc' _ Hmc'; cbn [files set_files add_event] in Hmc';
    rewrite Hl2 in Hmc'; injection Hmc' as <-.
  all: apply wp_bind, wp_exec; intros fs4' out' e2' E2;
    cbn [files set_files add_event] in E2; rewrite Htest in E2; injection E2 as <- <- <-.
  all: apply wp_bind, wp_exitCodeOf;
    [intros ->; injection Hst2 as <-
    |intros st' ->; injection Hst2 as <-
    |intros e ->; discriminate Hst2].
  all: apply wp_bind, wp_when; [intros _; apply wp_emit|intros _].
  all: by apply wp_bind, wp_translate; intros s' _; apply wp_ret.
Qed.

(** The run of a user's command: the code returned is its exit status. *)
Lemma mutateExec_exec_code opts pkgPath file mutationFile name args mutant s :
  exists env fs' out e,
    exec_Run (name :: args) env (files s) = (fs', out, e) /\
    In ("MUTATE_CHANGED=" +:+ mutationFile) env /\
    In ("MUTATE_ORIGINAL=" +:+ file) env /\
    (mutateExec opts pkgPath file mutationFile (name :: args) mutant s).1 =
      match e with
      | CmdNil => Ret (0, mutant)
      | ExitError status => Ret (status, mutant)
      | OtherError msg => Panic msg
      end.
Proof.
  unfold mutateExec.
  match goal with |- context [exec_CombinedOutput _ ?l] => set (env := l) end.
  destruct (exec_Run (name :: args) env (files s)) as [[fs' out] e] eqn:E.
  exists env, fs', out, e. split; [done|].
  split; [by left|]. split; [by right; right; left|].
  cbv beta iota zeta delta [bind emit modify exec_CombinedOutput get ret].
  cbn [files add_event]. rewrite E. by destruct e.
Qed.

Lemma bucket_of_invert :
  bucket_of (invert 0) = BEscaped /\ bucket_of (invert 1) = BKilled /\
  bucket_of (invert 2) = BSkipped /\
  forall st, st <> 0 -> st <> 1 -> st <> 2 ->
    invert st = st /\ bucket_of (invert st) = BErrored /\ bucket_of st = BErrored.
Proof.
  split; [reflexivity|]. split; [reflexivity|]. split; [reflexivity|].
  intros st H0 H1 H2. unfold invert, bucket_of.
  destruct (Z.eqb_spec st 0); [done|]. destruct (Z.eqb_spec st 1); [done|].
  destruct (Z.eqb_spec st 2); [done|].
  destruct (Z.eqb_spec st 0); [done|]. destruct (Z.eqb_spec st 1); [done|].
  by destruct (Z.eqb_spec st 2).
Qed.

(** C1 (classification by exit code).  (a) A mutant that was saved and run,
    [mutateExec] returning [code] and the record [mutant']: the mutant
    goes to the class of the code: 0 appended to Killed and KilledCount up
    by one, 1 to Escaped and EscapedCount, 2 only SkippedCount, any other
    code to Errored and ErrorCount; nothing else in the report moves.  What
    is appended is [mutant'] with the text of the mutant's file and a
    process output filled in.  (b) Built-in mode: the
    code is the go-test status inverted.  (c) With a user's command: the
    code is the command's exit status.  (d) So tests passed is Escaped,
    tests failed Killed, did-not-compile Skipped, the rest Errored. *)
Theorem classification_follows_exit_code
    (opts : Options) (m : mutatorItem) (mutationID : Z) (pkgPath originalFile : string)
    (fset : FileSet) (tree : ast.Heap) (src : ast.loc) (mutatedFile : string)
    (execs : list string) :
  let mutationFile := mutatedFile +:+ "." +:+ Sprintf_d mutationID in
  (forall s osc checksum s1 code mutant' s2 msc,
      os_refuses (ReadFile originalFile) = false ->
      files s !! originalFile = Some osc ->
      saveAST mutationFile fset tree src s = (Ret (checksum, false, None), s1) ->
      Exec_NoExec opts = false ->
      mutateExec opts pkgPath originalFile mutationFile execs
        (mkMutant (Name m) originalFile osc "" 0 "" "")
        (add_event (Console "Debug" ("Save mutation into " +:+ strconv_Quote mutationFile
                                     +:+ " with checksum " +:+ checksum)) s1)
        = (Ret (code, mutant'), s2) ->
      os_refuses (ReadFile mutationFile) = false ->
      files s2 !! mutationFile = Some msc ->
      exists s3 final,
        mutate_mutant opts m mutationID pkgPath originalFile fset tree src mutatedFile
                      execs s = (Ret tt, s3) /\
        completed mutant' msc final /\
        recorded (bucket_of code) final (report s) (report s3)) /\
  (forall s mutant fs1 diff e1 c mc fs4 out e2 st2,
      exec_Run ["diff"; "--label=Original"; "--label=New"; "-u"; originalFile; mutationFile]
               [] (files s) = (fs1, diff, e1) ->
      raw_status e1 = Some 0 \/ raw_status e1 = Some 1 ->
      os_refuses (Rename originalFile (originalFile +:+ ".tmp")) = false ->
      fs1 !! originalFile = Some c ->
      os_refuses (CopyFile mutationFile originalFile) = false ->
      (<[originalFile +:+ ".tmp" := c]> (delete originalFile fs1)) !! mutationFile
        = Some mc ->
      exec_Run ["go"; "test"; "-timeout"; Sprintf_d (Exec_Timeout opts) +:+ "s";
                if Test_Recursive opts then pkgPath +:+ "/..." else pkgPath] []
               (<[originalFile := mc]>
                  (<[originalFile +:+ ".tmp" := c]> (delete originalFile fs1)))
        = (fs4, out, e2) ->
      raw_status e2 = Some st2 ->
      exists mutant',
        (mutateExec opts pkgPath originalFile mutationFile [] mutant s).1
          = Ret (invert st2, mutant')) /\
  (forall s mutant name args,
      exists env fs' out e,
        exec_Run (name :: args) env (files s) = (fs', out, e) /\
        (mutateExec opts pkgPath originalFile mutationFile (name :: args) mutant s).1 =
          match e with
          | CmdNil => Ret (0, mutant)
          | ExitError status => Ret (status, mutant)
          | OtherError msg => Panic msg
          end) /\
  (bucket_of (invert 0) = BEscaped /\ bucket_of (invert 1) = BKilled /\
   bucket_of (invert 2) = BSkipped /\
   forall st, st <> 0 -> st <> 1 -> st <> 2 ->
     invert st = st /\ bucket_of (invert st) = BErrored /\ bucket_of st = BErrored).
Proof.
  intros mutationFile. split; [|split; [|split]].
  - intros s osc checksum s1 code mutant' s2 msc Hr Hl Hsave Hexec Hrun Hr2 Hl2.
    destruct (mutate_mutant_executed opts m mutationID pkgPath originalFile fset tree src
                mutatedFile execs s osc checksum s1 code mutant' s2 msc
                Hr Hl Hsave Hexec Hrun Hr2 Hl2) as (s3 & final & Hm & Hfin & Hrec & _).
    by exists s3, final.
  - intros s mutant fs1 diff e1 c mc fs4 out e2 st2 H1 H2 H3 H4 H5 H6 H7 H8.
    eexists. by eapply mutateExec_builtin_code.
  - intros s mutant name args.
    destruct (mutateExec_exec_code opts pkgPath originalFile mutationFile name args mutant s)
      as (env & fs' & out & e & E & _ & _ & Hrun).
    by exists env, fs', out, e.
  - apply bucket_of_invert.
Qed.

End ExitCodes.

Section Dedup.
Import main.
Context `{GoEnv}.


(** C10 (a failed save leaves its fingerprint behind): if the tree prints,
    its fingerprint is new, and then the formatter rejects the text or the
    write is refused, [saveAST] returns the error with the fingerprint
    already in the map and no file written; any later tree with the same
    printed text is then answered as a duplicate, and counted as one,
    although no file holds it. *)
Theorem fingerprint_stays_after_failed_save
    (file : string) (fset : FileSet) (tree : ast.Heap) (node : ast.loc) (s : State)
    (buf : string) :
  let checksum := Sprintf_x (md5_Sum buf) in
  printer_Fprint fset tree node = (buf, None) ->
  checksum ∉ mutationBlackList s ->
  snd (format_Source buf) <> None \/ os_refuses (WriteFile file) = true ->
  exists e s',
    saveAST file fset tree node s = (Ret ("", false, Some e), s') /\
    checksum ∈ mutationBlackList s' /\
    files s' = files s /\
    forall s2 tree2 node2,
      mutationBlackList s' ⊆ mutationBlackList s2 ->
      printer_Fprint fset tree2 node2 = (buf, None) ->
      (forall file2,
          saveAST file2 fset tree2 node2 s2 = (Ret (checksum, true, None), s2)) /\
      (forall opts m mutationID pkgPath originalFile mutatedFile execs osc,
          os_refuses (ReadFile originalFile) = false ->
          files s2 !! originalFile = Some osc ->
          exists s3,
            mutate_mutant opts m mutationID pkgPath originalFile fset tree2 node2
                          mutatedFile execs s2 = (Ret tt, s3) /\
            files s3 = files s2 /\ only_duplicated (report s2) (report s3)).
Proof.
  intros checksum Hp Hnew Hor.
  destruct (saveAST_fails file fset tree node s buf Hp Hnew Hor) as (e & Hrun).
  eexists e, _. split; [exact Hrun|].
  cbn [mutationBlackList files set_mutationBlackList].
  assert (Hin' : checksum ∈ {[checksum]} ∪ mutationBlackList s)
    by (apply elem_of_union; left; by apply elem_of_singleton).
  split; [done|]. split; [done|].
  intros s2 tree2 node2 Hsub Hp2.
  assert (Hin : checksum ∈ mutationBlackList s2) by (by apply Hsub).
  split.
  - intros file2. by apply saveAST_duplicate.
  - intros opts m mutationID pkgPath originalFile mutatedFile execs osc Hr Hl.
    eexists. split; [by eapply mutate_mutant_duplicate|].
    cbn [files report]. split; [done|].
    unfold only_duplicated. cbn. split_and!; try done. apply plus_one_incr.
Qed.

(** C5, as amended (what the fingerprint is a hash of): when [saveAST]
    saves a new mutant, the fingerprint is the MD5 digest, in lower-case
    hexadecimal (32 characters for the 16 bytes of a digest), of the text
    the printer produced, and the file holds what the formatter made of
    that same text.  So both are functions of the printed text: any other
    save of a tree that prints the same returns the same fingerprint and
    writes the same bytes. *)
Theorem fingerprint_is_of_printed_text
    (file : string) (fset : FileSet) (tree : ast.Heap) (node : ast.loc) (s : State)
    (buf text : string) :
  let checksum := Sprintf_x (md5_Sum buf) in
  printer_Fprint fset tree node = (buf, None) ->
  String.length (md5_Sum buf) = 16%nat ->
  checksum ∉ mutationBlackList s ->
  format_Source buf = (text, None) ->
  os_refuses (WriteFile file) = false ->
  exists s',
    saveAST file fset tree node s = (Ret (checksum, false, None), s') /\
    files s' !! file = Some text /\
    String.length checksum = 32%nat /\ all_hex checksum = true /\
    forall file2 tree2 node2 s2 checksum2 s2',
      printer_Fprint fset tree2 node2 = (buf, None) ->
      saveAST file2 fset tree2 node2 s2 = (Ret (checksum2, false, None), s2') ->
      checksum2 = checksum /\ files s2' !! file2 = Some text.
Proof.
  intros checksum Hp Hlen Hnew Hf Hw.
  eexists. split; [by eapply saveAST_fresh|].
  cbn [files]. split; [apply lookup_insert_eq|].
  split; [unfold checksum; rewrite Sprintf_x_length, Hlen; reflexivity|].
  split; [apply Sprintf_x_all_hex|].
  intros file2 tree2 node2 s2 checksum2 s2' Hp2 Hsave.
  destruct (saveAST_saved_inv _ _ _ _ _ _ _ Hsave)
    as (buf2 & text2 & Hp2' & -> & _ & Hf2 & _ & ->).
  rewrite Hp2 in Hp2'. injection Hp2' as <-.
  rewrite Hf in Hf2. injection Hf2 as <-.
  split; [done|]. cbn [files]. apply lookup_insert_eq.
Qed.

End Dedup.

Section Restore.
Import main.

Lemma eq_out_refl {A} (x : outcome A * State) : eq_out x x.
Proof. by split. Qed.

Lemma eq_out_bind {A B} (m : M State A) (k k' : A -> M State B) s :
  (forall a s1, eq_out (k a s1) (k' a s1)) ->
  eq_out (bind m k s) (bind m k' s).
Proof.
  intros Hk. unfold bind. destruct (m s) as [[a|e|c] s1]; [apply Hk|by split..].
Qed.

Lemma eq_out_defer {A} (d d' : M State unit) (body : M State A) s :
  (forall s1, (d s1).1 = Ret tt /\ events (d s1).2 = events s1) ->
  (forall s1, (d' s1).1 = Ret tt /\ events (d' s1).2 = events s1) ->
  eq_out (with_defer d body s) (with_defer d' body s).
Proof.
  intros Hd Hd'. unfold with_defer.
  destruct (body s) as [[a|e|c] s1]; [| |by split].
  all: destruct (Hd s1) as [Hr He], (Hd' s1) as [Hr' He'].
  all: destruct (d s1) as [[[]|e1|c1] t1], (d' s1) as [[[]|e2|c2] t2];
    cbn [fst snd] in *; try discriminate; split; cbn [fst snd]; congruence.
Qed.

Lemma os_Rename_refusing (E : GoEnv) sc a b :
  Rename a b <> sc -> @os_Rename (refusing E sc) a b = @os_Rename E a b.
Proof.
  intros Hne. unfold os_Rename. cbn [os_refuses refusing].
  by rewrite decide_False.
Qed.

Lemma osutil_CopyFile_refusing (E : GoEnv) a b c d :
  @osutil_CopyFile (refusing E (Rename a b)) c d = @osutil_CopyFile E c d.
Proof.
  unfold osutil_CopyFile. cbn [os_refuses refusing].
  by rewrite decide_False.
Qed.

Lemma os_Rename_refused (E : GoEnv) a b s :
  @os_Rename (refusing E (Rename a b)) a b s = (Ret (Some "permission denied"), s).
Proof.
  unfold os_Rename, bind, get, ret. cbn [os_refuses refusing]. by rewrite decide_True.
Qed.

Lemma swapped_paths_differ (file : string) :
  Rename file (file +:+ ".tmp") <> Rename (file +:+ ".tmp") file.
Proof. intros [= E _]. by apply (@tmp_ne file). Qed.

(** C6, as amended (a failing restore): when the operating system refuses
    the rename that puts the original back, the call returns an error and
    changes nothing, and [mutateExec] discards that error: it ends as it
    ends when the rename succeeds, with the same result (the same exit
    code, or the same panic) and the same output. *)
Theorem restore_failure_is_ignored
    (E : GoEnv) (opts : Options) (pkgPath file mutationFile : string) (mutant : Mutant)
    (s : State) :
  let E' := refusing E (Rename (file +:+ ".tmp") file) in
  (forall s1, @os_Rename E' (file +:+ ".tmp") file s1 = (Ret (Some "permission denied"), s1)) /\
  (@mutateExec E' opts pkgPath file mutationFile [] mutant s).1 =
    (@mutateExec E opts pkgPath file mutationFile [] mutant s).1 /\
  events (@mutateExec E' opts pkgPath file mutationFile [] mutant s).2 =
    events (@mutateExec E opts pkgPath file mutationFile [] mutant s).2.
Proof.
  intros E'. split; [intros s1; apply os_Rename_refused|].
  change (eq_out (@mutateExec E' opts pkgPath file mutationFile [] mutant s)
                 (@mutateExec E opts pkgPath file mutationFile [] mutant s)).
  unfold mutateExec, E'.
  rewrite (os_Rename_refusing E _ file (file +:+ ".tmp")) by apply swapped_paths_differ.
  rewrite osutil_CopyFile_refusing.
  change (@exec_CombinedOutput (refusing E (Rename (file +:+ ".tmp") file)))
    with (@exec_CombinedOutput E).
  change (@parser_FindOriginalStartLine (refusing E (Rename (file +:+ ".tmp") file)))
    with (@parser_FindOriginalStartLine E).
  apply eq_out_bind. intros _ s1.
  apply eq_out_bind. intros [diff err] s2.
  apply eq_out_bind. intros code s3.
  apply eq_out_bind. intros _ s4.
  apply eq_out_defer; intros s5; (split; [apply restore_returns|apply os_Rename_events]).
Qed.

End Restore.

Section Blacklist.
Import main.
Context `{GoEnv}.

Lemma mainCmd_blacklist_lines_ok lines :
  forall s,
    forallb well_sized lines = true ->
    mainCmd_blacklist_lines lines s =
      (Ret None,
       set_mutationBlackList (list_to_set (entries lines) ∪ mutationBlackList s) s).
Proof.
  induction lines as [|line rest IH]; intros s Hall; cbn [mainCmd_blacklist_lines].
  - unfold ret, set_mutationBlackList, entries. cbn.
    rewrite (left_id_L ∅ (∪)). by destruct s.
  - cbn [forallb] in Hall. apply andb_prop in Hall as [Hline Hrest].
    unfold well_sized in Hline. unfold entries. cbn [List.filter].
    destruct (String.eqb line "") eqn:Eempty; cbn [negb].
    + by apply IH.
    + cbn [orb] in Hline. rewrite Hline. cbn [negb].
      unfold bind, modify. rewrite (IH _ Hrest).
      cbn [mutationBlackList set_mutationBlackList files report events].
      f_equal. unfold set_mutationBlackList. f_equal.
      rewrite list_to_set_cons. fold (entries rest).
      set_unfold. intros x. tauto.
Qed.

Lemma mainCmd_blacklist_lines_bad pre line post :
  forall s,
    forallb well_sized pre = true ->
    well_sized line = false ->
    mainCmd_blacklist_lines (pre ++ line :: post) s =
      (Ret (Some returnError),
       add_event (Stderr ((strconv_Quote line +:+ " is not a MD5 checksum") +:+ LF))
         (set_mutationBlackList (list_to_set (entries pre) ∪ mutationBlackList s) s)).
Proof.
  induction pre as [|l pre IH]; intros s Hall Hbad.
  - cbn [app mainCmd_blacklist_lines]. unfold well_sized in Hbad.
    apply orb_false_elim in Hbad as [Hb1 Hb2]. rewrite Hb1, Hb2. cbn [negb].
    unfold entries. cbn [List.filter list_to_set].
    rewrite (left_id_L ∅ (∪)). by destruct s.
  - cbn [forallb] in Hall. apply andb_prop in Hall as [Hl Hrest].
    cbn [app mainCmd_blacklist_lines]. unfold well_sized in Hl.
    unfold entries. cbn [List.filter].
    destruct (String.eqb l "") eqn:Eempty; cbn [negb].
    + by apply IH.
    + cbn [orb] in Hl. rewrite Hl. cbn [negb].
      unfold bind at 1, modify at 1. rewrite (IH _ Hrest Hbad).
      cbn [mutationBlackList set_mutationBlackList files report events].
      f_equal. unfold add_event, set_mutationBlackList. cbn. f_equal.
      set_unfold. intros x. tauto.
Qed.

Lemma mainCmd_blacklist_lines_app l1 l2 s :
  mainCmd_blacklist_lines (l1 ++ l2) s =
    (r <- mainCmd_blacklist_lines l1 ;;
     match r with
     | Some code => ret (Some code)
     | None => mainCmd_blacklist_lines l2
     end)%go s.
Proof.
  revert s. induction l1 as [|l l1 IH]; intros s; cbn [app mainCmd_blacklist_lines].
  - reflexivity.
  - destruct (String.eqb l ""); [apply IH|].
    destruct (negb _); [reflexivity|].
    unfold bind at 1 3, modify. apply IH.
Qed.

Lemma mainCmd_blacklist_lines_files lines s :
  files (mainCmd_blacklist_lines lines s).2 = files s /\
  exists r, (mainCmd_blacklist_lines lines s).1 = Ret r.
Proof.
  revert s. induction lines as [|l lines IH]; intros s; cbn [mainCmd_blacklist_lines].
  - split; [done|by eexists].
  - destruct (String.eqb l ""); [apply IH|].
    destruct (negb _); [split; [done|by eexists]|].
    unfold bind, modify. cbn. apply (IH (set_mutationBlackList _ s)).
Qed.

(** Reading the files one after the other is the loop over all their
    lines. *)
Lemma mainCmd_blacklist_run blacklist :
  forall s0 s lines,
    files s = files s0 ->
    blacklist_lines s0 blacklist = Some lines ->
    mainCmd_blacklist blacklist s = mainCmd_blacklist_lines lines s.
Proof.
  induction blacklist as [|f rest IH]; intros s0 s lines Hfs Hlines;
    cbn [blacklist_lines mainCmd_blacklist] in *.
  - by injection Hlines as <-.
  - destruct (os_refuses (ReadFile f)) eqn:Hr; [done|].
    destruct (files s0 !! f) as [c|] eqn:Hl; [|done].
    destruct (blacklist_lines s0 rest) as [ls|] eqn:Hrest; [|done].
    injection Hlines as <-.
    unfold bind at 1. rewrite (os_ReadFile_run f c s) by (by rewrite ?Hfs).
    rewrite mainCmd_blacklist_lines_app. unfold bind.
    destruct (mainCmd_blacklist_lines_files (Split c "010") s) as (Hf & r & Hret).
    destruct (mainCmd_blacklist_lines (Split c "010") s) as [o s1].
    cbn [fst snd] in Hf, Hret. subst o.
    destruct r as [code|]; [reflexivity|].
    apply (IH s0); [by rewrite Hf|done].
Qed.

(** C7, as amended (the blacklist files are checked by length only): with
    [lines] all the lines of the blacklist files, (a) if every line is empty
    or 32 bytes long, the non-empty ones are all put into the map, whatever
    their characters, and [mainCmd] goes on to select the mutators;
    (b) at the first non-empty line whose length is not 32, that line is
    reported on standard error and [mainCmd] returns the error code, without
    touching a file and without going on to the mutators or the mutation
    ([rest] is never run). *)
Theorem blacklist_lines_checked_by_length
    (opts : Options) (registry : list (string * mutator.Mutator))
    (rest : list mutatorItem -> M State Z) (s : State) (lines : list string) :
  blacklist_lines s (Files_Blacklist opts) = Some lines ->
  (forallb well_sized lines = true ->
     mainCmd_from_blacklist opts registry rest s =
       (mutators <- mainCmd_mutators opts registry ;; rest mutators)%go
         (set_mutationBlackList (list_to_set (entries lines) ∪ mutationBlackList s) s)) /\
  (forall pre line post,
      lines = pre ++ line :: post ->
      forallb well_sized pre = true ->
      well_sized line = false ->
      exists s',
        mainCmd_from_blacklist opts registry rest s = (Ret returnError, s') /\
        events s' = events s ++
          [Stderr ((strconv_Quote line +:+ " is not a MD5 checksum") +:+ LF)] /\
        files s' = files s /\ report s' = report s).
Proof.
  intros Hlines. split.
  - intros Hall. unfold mainCmd_from_blacklist. unfold bind at 1.
    rewrite (mainCmd_blacklist_run _ s s lines eq_refl Hlines).
    by rewrite (mainCmd_blacklist_lines_ok lines s Hall).
  - intros pre line post -> Hpre Hbad. eexists.
    unfold mainCmd_from_blacklist. unfold bind at 1.
    rewrite (mainCmd_blacklist_run _ s s _ eq_refl Hlines).
    rewrite (mainCmd_blacklist_lines_bad pre line post s Hpre Hbad).
    split; [reflexivity|]. by cbn.
Qed.

End Blacklist.

(** ** The theorems at work: concrete runs *)

Section Runs.
Import ast mutator main.

Lemma demo_frame test file : @frame_cmds (demo.env test) file.
Proof.
  intros argv env fs. cbn [exec_Run demo.env]. unfold demo.Run.
  by repeat case_match.
Qed.

(** C4 at the first loop of [demo.two_loops]. *)
Lemma revert_after_apply_witness :
  Reset demo.proposed (Change demo.proposed demo.after_proposal) = demo.after_proposal.
Proof.
  refine (proj1 (@revert_after_apply_is_identity (demo.env CmdNil)
                   2%positive demo.two_loops demo.after_proposal
                   [demo.proposed] demo.proposed tt 1%positive _ _)).
  - vm_compute. reflexivity.
  - left. reflexivity.
Defined.

(** C8 on [demo.two_loops]: two range loops, two mutants, the first with
    the [break] in the loop at 2, the second with it in the loop at 5. *)
Lemma two_loops_two_mutants :
  exists y1 y2 h',
    mutesting.MutateWalk loop.MutatorLoopRangeBreak
      (mutesting.Walk_order demo.two_loops 1%positive) demo.two_loops
      = ([y1; y2], (Ret tt, h')) /\
    break_prepended demo.two_loops 2%positive y1 /\
    break_prepended demo.two_loops 5%positive y2 /\
    extends demo.two_loops h'.
Proof.
  destruct (proj2 (proj2 (range_break_prepends_break demo.two_loops 1%positive))
              (mutesting.Walk_order demo.two_loops 1%positive))
    as (ys & h' & Hrun & Hall & Hext & _ & _).
  - intros l r Hin Hl. vm_compute in Hin.
    repeat (destruct Hin as [<-|Hin]; [vm_compute in Hl; try discriminate Hl|]);
      try (injection Hl as <-; eexists _, _; split; reflexivity).
    destruct Hin.
  - change (List.filter (is_RangeStmt demo.two_loops)
              (mutesting.Walk_order demo.two_loops 1%positive))
      with [2%positive; 5%positive] in Hall.
    apply Forall2_cons_inv_l in Hall as (y1 & ys1 & H1 & Hall & ->).
    apply Forall2_cons_inv_l in Hall as (y2 & ys2 & H2 & Hall & ->).
    apply Forall2_nil_inv_l in Hall as ->.
    exists y1, y2, h'.
    split; [exact Hrun|]. split; [exact H1|]. split; [exact H2|exact Hext].
Defined.

(** C1: the tests pass on the mutant, so it is recorded as escaped. *)
Lemma passing_tests_escape :
  exists s3 final,
    @mutate_mutant (demo.env CmdNil) demo.opts demo.item 0 "p" "a.go" tt demo.tabbed
                   1%positive "tmp/a.go" [] demo.state0 = (Ret tt, s3) /\
    completed
      (mkMutant "loop/range_break" "a.go" "package p // original" "" 1 "@@ -1 +1 @@" "")
      "package p; var x = 1" final /\
    recorded BEscaped final (report demo.state0) (report s3).
Proof.
  pose (E := demo.env CmdNil).
  pose (saved := @saveAST E "tmp/a.go.0" tt demo.tabbed 1%positive demo.state0).
  pose (ran := @mutateExec E demo.opts "p" "a.go" "tmp/a.go.0" [] demo.mutant0
                 (add_event (Console "Debug"
                    ("Save mutation into " +:+ demo.quote "tmp/a.go.0"
                     +:+ " with checksum " +:+ demo.tabbed_sum)) saved.2)).
  refine (proj1 (@classification_follows_exit_code E demo.opts demo.item 0 "p" "a.go" tt
                   demo.tabbed 1%positive "tmp/a.go" [])
            demo.state0 "package p // original" demo.tabbed_sum saved.2 1
            (mkMutant "loop/range_break" "a.go" "package p // original" ""
                      1 "@@ -1 +1 @@" "")
            ran.2 "package p; var x = 1" _ _ _ _ _ _ _);
    vm_compute; reflexivity.
Defined.

(** C2 as amended: a run of the tests on [a.go]; they are started on the
    tree with the mutant in [a.go] and the original in [a.go.tmp], and
    afterwards the original is back. *)
Lemma original_restored_witness :
  let run := @mutateExec (demo.env CmdNil) demo.opts "p" "a.go" "tmp/a.go.0" []
               demo.mutant0 demo.state1 in
  restored "a.go" "tmp/a.go.0" "package p // original" demo.state1 run.1 run.2 /\
  exists post,
    events run.2 =
      [Console "Debug" "Execute built-in exec command for mutation";
       Exec (diff_argv "a.go" "tmp/a.go.0") [] (files demo.state1);
       Exec ["go"; "test"; "-timeout"; "10s"; "p"] []
            (<["a.go" := "package p // mutant"]>
               (<["a.go.tmp" := "package p // original"]>
                  (delete "a.go" (files demo.state1))))] ++ post /\
    forallb (fun e => negb (is_Exec e)) post = true.
Proof.
  destruct (@original_restored_on_every_path (demo.env CmdNil) demo.opts "p" "a.go"
              "tmp/a.go.0" demo.mutant0 demo.state1 "package p // original")
    as [Hback Hswap].
  - vm_compute. reflexivity.
  - vm_compute. reflexivity.
  - reflexivity.
  - apply demo_frame.
  - split; [exact Hback|].
    destruct (Hswap "package p // mutant") as (_ & _ & Hrun).
    + right. reflexivity.
    + reflexivity.
    + reflexivity.
    + vm_compute. reflexivity.
    + exact Hrun.
Defined.

(** C2 fails as stated: the tests cannot be started, so [mutateExec]
    panics, and the operating system refuses the rename that puts the
    original back: after the call [a.go] holds the mutant, not what it held
    before. *)
Lemma original_not_restored_after_panic :
  let E := refusing (demo.env (OtherError "exec: go: executable file not found"))
                    (Rename "a.go.tmp" "a.go") in
  let run := @mutateExec E demo.opts "p" "a.go" "tmp/a.go.0" [] demo.mutant0 demo.state1 in
  files demo.state1 !! "a.go" = Some "package p // original" /\
  run.1 = Panic "exec: go: executable file not found" /\
  files run.2 !! "a.go" = Some "package p // mutant" /\
  files run.2 !! "a.go.tmp" = Some "package p // original".
Proof. vm_compute. repeat split. Qed.


(** C10: the formatter rejects [demo.broken]; its fingerprint stays. *)
Lemma failed_save_witness :
  exists e s',
    @saveAST (demo.env CmdNil) "tmp/a.go.0" tt demo.broken 1%positive demo.state0
      = (Ret ("", false, Some e), s') /\
    Sprintf_x (md5.Sum demo.broken_text) ∈ mutationBlackList s' /\
    files s' = files demo.state0.
Proof.
  destruct (@fingerprint_stays_after_failed_save (demo.env CmdNil) "tmp/a.go.0" tt
              demo.broken 1%positive demo.state0 demo.broken_text)
    as (e & s' & Hrun & Hin & Hfiles & _).
  - vm_compute. reflexivity.
  - apply not_elem_of_empty.
  - left. vm_compute. discriminate.
  - by exists e, s'.
Defined.

(** C5 as amended, on [demo.tabbed]. *)
Lemma fingerprint_witness :
  exists s',
    @saveAST (demo.env CmdNil) "tmp/a.go.0" tt demo.tabbed 1%positive demo.state0
      = (Ret (demo.tabbed_sum, false, None), s') /\
    files s' !! "tmp/a.go.0" = Some "package p; var x = 1" /\
    String.length demo.tabbed_sum = 32%nat /\ all_hex demo.tabbed_sum = true.
Proof.
  destruct (@fingerprint_is_of_printed_text (demo.env CmdNil) "tmp/a.go.0" tt demo.tabbed
              1%positive demo.state0 demo.tabbed_text "package p; var x = 1")
    as (s' & Hrun & Hfile & Hlen & Hhex & _).
  - vm_compute. reflexivity.
  - vm_compute. reflexivity.
  - apply not_elem_of_empty.
  - vm_compute. reflexivity.
  - reflexivity.
  - exists s'. split; [exact Hrun|]. split; [exact Hfile|]. split; [exact Hlen|exact Hhex].
Defined.

(** C5 fails as stated: two trees whose printed texts differ in a tab are
    saved under different fingerprints, and the formatter writes the same
    bytes for both; the first fingerprint is not the digest of what its
    file holds. *)
Lemma fingerprint_not_of_written_bytes :
  let E := demo.env CmdNil in
  let first := @saveAST E "tmp/a.go.0" tt demo.tabbed 1%positive demo.state0 in
  let second := @saveAST E "tmp/a.go.1" tt demo.spaced 1%positive first.2 in
  first.1 = Ret ("224562c5cbffa8e3fe364b065ca6083c", false, None) /\
  second.1 = Ret ("2e86e03db37223363ccd245fc780281b", false, None) /\
  files second.2 !! "tmp/a.go.0" = Some "package p; var x = 1" /\
  files second.2 !! "tmp/a.go.1" = Some "package p; var x = 1" /\
  Sprintf_x (md5.Sum "package p; var x = 1") = "2e86e03db37223363ccd245fc780281b".
Proof. vm_compute. repeat split. Qed.

(** C6 fails as stated: the restoring rename is refused; [mutateExec]
    returns the code 1 as if nothing had happened, nothing is put out about
    it, and [a.go] holds the mutant. *)
Lemma restore_failure_goes_unnoticed :
  let E := refusing (demo.env CmdNil) (Rename "a.go.tmp" "a.go") in
  let run := @mutateExec E demo.opts "p" "a.go" "tmp/a.go.0" [] demo.mutant0 demo.state1 in
  run.1 = Ret (1, mkMutant "loop/range_break" "a.go" "package p // original" ""
                           1 "@@ -1 +1 @@" "") /\
  files run.2 !! "a.go" = Some "package p // mutant" /\
  files run.2 !! "a.go.tmp" = Some "package p // original" /\
  List.filter (fun e => negb (is_Exec e)) (events run.2) =
    [Console "Debug" "Execute built-in exec command for mutation";
     Console "PrintDiff" "@@ -1 +1 @@"].
Proof. vm_compute. repeat split. Qed.

(** C7 as amended, on the two files of [demo.state_z]: the line of 32
    letters z is taken, the line of 31 digits is the error. *)
Lemma blacklist_witness :
  exists s',
    @mainCmd_from_blacklist (demo.env CmdNil) (demo.with_blacklist ["blacklist"; "short"])
      demo.registry (fun _ => ret returnOk) demo.state_z = (Ret returnError, s') /\
    events s' = [Stderr ((demo.quote "d41d8cd98f00b204e9800998ecf8427"
                          +:+ " is not a MD5 checksum") +:+ LF)] /\
    files s' = files demo.state_z /\ report s' = report demo.state_z.
Proof.
  refine (proj2 (@blacklist_lines_checked_by_length (demo.env CmdNil)
                   (demo.with_blacklist ["blacklist"; "short"]) demo.registry
                   (fun _ => ret returnOk) demo.state_z
                   ["zzzzzzzzzzzzzzzzzzzzzzzzzzzzzzzz"; "d41d8cd98f00b204e9800998ecf8427"] _)
            ["zzzzzzzzzzzzzzzzzzzzzzzzzzzzzzzz"] "d41d8cd98f00b204e9800998ecf8427" [] _ _ _);
    vm_compute; reflexivity.
Defined.

(** C7 fails as stated: a line of 32 bytes that is no hexadecimal number
    is no error; it is put into the map. *)
Lemma blacklist_takes_any_32_bytes :
  let run := @mainCmd_blacklist (demo.env CmdNil) ["blacklist"] demo.state_z in
  run.1 = Ret None /\
  elements (mutationBlackList run.2) = ["zzzzzzzzzzzzzzzzzzzzzzzzzzzzzzzz"] /\
  events run.2 = [] /\
  all_hex "zzzzzzzzzzzzzzzzzzzzzzzzzzzzzzzz" = false.
Proof. vm_compute. repeat split. Qed.

(** C9, the code at work: [arithmetic/b*] disables every mutator whose name
    starts with [arithmetic/], two characters being cut off the argument,
    so [arithmetic/assignment] goes too although it does not start with
    [arithmetic/b]; and the argument [*] alone makes the selection panic. *)
Lemma disable_glob_cuts_two_characters :
  let E := demo.env CmdNil in
  names_of (@mainCmd_mutators E (demo.disabling ["arithmetic/b*"]) demo.registry
              demo.state0).1 = Ret ["loop/range_break"] /\
  HasPrefix "arithmetic/assignment" "arithmetic/b" = false /\
  (disables "arithmetic/b*" "arithmetic/assignment" demo.state0).1 = Ret true /\
  names_of (@mainCmd_mutators E (demo.disabling ["loop/*"]) demo.registry
              demo.state0).1
    = Ret ["arithmetic/assignment"; "arithmetic/base"; "arithmetic/bitwise"] /\
  names_of (@mainCmd_mutators E (demo.disabling ["*"]) demo.registry demo.state0).1
    = Panic "slice bounds out of range".
Proof. vm_compute. repeat split. Qed.

End Runs.

(** * More of the code *)

Section SaveFrame.
Import main.
Context `{GoEnv}.

(** X1 ([saveAST] and the files): [saveAST] always returns (it neither
    panics nor exits); it leaves every path but [file] as it was, and
    [file] too unless it returns a new fingerprint without error; a
    fingerprint it returns as new is in the map and its file exists; when
    the printer fails nothing at all is changed; the report and the output
    are never touched. *)
Theorem saveAST_writes_only_its_file
    (file : string) (fset : FileSet) (tree : ast.Heap) (node : ast.loc) (s : State) :
  let run := saveAST file fset tree node s in
  (exists res, run.1 = Ret res) /\
  (forall p, p <> file -> files run.2 !! p = files s !! p) /\
  (forall checksum duplicate err,
      run.1 = Ret (checksum, duplicate, err) ->
      duplicate = true \/ err <> None -> files run.2 = files s) /\
  (forall checksum,
      run.1 = Ret (checksum, false, None) ->
      checksum ∈ mutationBlackList run.2 /\ is_Some (files run.2 !! file)) /\
  (snd (printer_Fprint fset tree node) <> None -> run.2 = s) /\
  report run.2 = report s /\ events run.2 = events s.
Proof.
  cbv zeta. unfold saveAST.
  destruct (printer_Fprint fset tree node) as [buf [e|]] eqn:Hp; cbn [fst snd].
  { split_and!; try done; try (by eexists); intros; simplify_eq. }
  unfold bind, gets, modify, os_WriteFile. cbn.
  destruct (decide _) as [Hin|Hin]; cbn.
  { split_and!; try done; try (by eexists); intros; simplify_eq. }
  destruct (format_Source buf) as [text [e|]] eqn:Hf; cbn.
  { split_and!; try done; try (by eexists); intros; simplify_eq. }
  destruct (os_refuses (WriteFile file)) eqn:Hw; cbn.
  { split_and!; try done; try (by eexists); intros; simplify_eq. }
  split_and!; try done.
  - by eexists.
  - intros p Hne. by rewrite lookup_insert_ne.
  - intros c d err [= <- <- <-] [?|?]; done.
  - intros c [= <-]. split; [set_solver|]. rewrite lookup_insert_eq. by eexists.
Qed.

End SaveFrame.

Section LoopBody.
Import main.
Context `{GoEnv}.

(** X2 (a save that fails): when [saveAST] returns an error, the loop body
    of [mutate] prints the line INTERNAL ERROR with the error on standard
    output and goes on to the next tree; the mutant is run by nothing and
    counted nowhere, not even among the errors. *)
Theorem failed_save_is_reported_not_counted
    (opts : Options) (m : mutatorItem) (mutationID : Z) (pkgPath originalFile : string)
    (fset : FileSet) (tree : ast.Heap) (src : ast.loc) (mutatedFile : string)
    (execs : list string) (s : State) (osc checksum : string) (duplicate : bool)
    (e : error) (s1 : State) :
  os_refuses (ReadFile originalFile) = false ->
  files s !! originalFile = Some osc ->
  saveAST (mutatedFile +:+ "." +:+ Sprintf_d mutationID) fset tree src s
    = (Ret (checksum, duplicate, Some e), s1) ->
  mutate_mutant opts m mutationID pkgPath originalFile fset tree src mutatedFile execs s
    = (Ret tt, add_event (Stdout ("INTERNAL ERROR " +:+ e +:+ LF)) s1) /\
  report s1 = report s /\ files s1 = files s /\ events s1 = events s.
Proof.
  intros Hr Hl Hsave. split.
  - unfold mutate_mutant.
    unfold bind at 1. rewrite (os_ReadFile_run _ _ _ Hr Hl).
    unfold bind at 1. rewrite Hsave. reflexivity.
  - pose proof (saveAST_keeps _ _ _ _ _ _ _ Hsave) as (Hrep & Hev & _).
    split; [done|]. split; [|done].
    revert Hsave. unfold saveAST.
    destruct (printer_Fprint fset tree src) as [buf [e0|]];
      [by (unfold ret; intros ?; simplify_eq)|].
    unfold bind, gets, modify, os_WriteFile, ret. cbn.
    destruct (decide _); [by (intros ?; simplify_eq)|]. cbn.
    destruct (format_Source buf) as [text [e0|]]; cbn; [by (intros ?; simplify_eq)|].
    destruct (os_refuses (WriteFile _)); cbn; by (intros ?; simplify_eq).
Qed.

Lemma idle_refl s : idle s s.
Proof. split; [|done]. exists []. by rewrite app_nil_r. Qed.

Lemma idle_trans s1 s2 s3 : idle s1 s2 -> idle s2 s3 -> idle s1 s3.
Proof.
  intros [(e1 & A & B) C] [(e2 & A' & B') C']. split; [|congruence].
  exists (e1 ++ e2). rewrite A', A, <- app_assoc. split; [done|].
  unfold no_child in *. by rewrite forallb_app, B, B'.
Qed.

Lemma idle_emit e s s' : is_Exec e = false -> idle s s' -> idle s (add_event e s').
Proof.
  intros He [(evs & A & B) C]. split; [|done].
  exists (evs ++ [e]). cbn. rewrite A, <- app_assoc. split; [done|].
  unfold no_child in *. rewrite forallb_app, B. cbn. by rewrite He.
Qed.

Lemma mutate_mutant_idle opts m mutationID pkgPath originalFile fset tree src
    mutatedFile execs s :
  Exec_NoExec opts = true ->
  wp (mutate_mutant opts m mutationID pkgPath originalFile fset tree src mutatedFile execs)
     (fun _ s' => idle s s') s.
Proof.
  intros Hno. unfold mutate_mutant.
  apply wp_bind, wp_ReadFile;
    [intros e _; apply wp_log_Fatal; by apply idle_emit, idle_refl|].
  intros osc _ _.
  apply wp_bind, wp_of_run. intros r s1 Hsave.
  destruct (saveAST_keeps _ _ _ _ _ _ _ Hsave) as (Hrep & Hev & _ & Hx & Hp).
  assert (Hs1 : idle s s1).
  { split; [|by rewrite Hrep]. exists []. by rewrite app_nil_r. }
  destruct r as [[[checksum duplicate] [e|]]|e|c];
    [by apply wp_emit, idle_emit| |by destruct (Hp e)|by destruct (Hx c)].
  destruct duplicate.
  - apply wp_bind, wp_emit. unfold update_report. apply wp_modify.
    destruct Hs1 as [(evs & A & B) C]. split; [|by rewrite <- C].
    exists (evs ++ [Console "Debug"
              (strconv_Quote (mutatedFile +:+ "." +:+ Sprintf_d mutationID)
               +:+ " is a duplicate, we ignore it")]).
    cbn. rewrite A, <- app_assoc. split; [done|].
    unfold no_child in *. by rewrite forallb_app, B.
  - apply wp_bind, wp_emit. rewrite Hno. cbn [negb]. apply wp_ret.
    by apply idle_emit.
Qed.

Lemma mutate_changed_idle opts m pkgPath originalFile fset src mutatedFile execs changed :
  Exec_NoExec opts = true ->
  forall mutationID s,
    wp (mutate_changed opts m mutationID pkgPath originalFile fset src mutatedFile
                       execs changed)
       (fun _ s' => idle s s') s.
Proof.
  intros Hno. induction changed as [|tree rest IH]; intros mutationID s;
    cbn [mutate_changed]; [apply wp_ret, idle_refl|].
  apply wp_bind.
  eapply wp_mono; [|by apply mutate_mutant_idle].
  intros [[]|e|c] s1 Hi; try done.
  eapply wp_mono; [|apply IH]. cbn beta. intros _ s2 Hi2. by eapply idle_trans.
Qed.

(** X3 (the option no-exec): with [Exec.NoExec] set, a whole run of
    [mutate], however it ends, starts no child process and classifies no
    mutant: the lists Killed, Escaped and Errored and the counters of
    killed, escaped, skipped and errored mutants are as before; only the
    count of duplicates can have moved. *)
Theorem no_exec_runs_and_classifies_nothing
    (opts : Options) (mutators : list mutatorItem) (mutationID : Z)
    (pkgPath originalFile : string) (fset : FileSet) (tree : ast.Heap)
    (src node : ast.loc) (mutatedFile : string) (execs : list string)
    (filters : list annotation.NodeFilter) (s : State) :
  Exec_NoExec opts = true ->
  let run := mutate opts mutators mutationID pkgPath originalFile fset tree src node
                    mutatedFile execs filters s in
  (exists evs, events run.2 = events s ++ evs /\ no_child evs = true) /\
  executed_part (report run.2) = executed_part (report s).
Proof.
  intros Hno. cbv zeta.
  change (wp (mutate opts mutators mutationID pkgPath originalFile fset tree src node
                     mutatedFile execs filters) (fun _ s' => idle s s') s).
  revert mutationID tree s.
  induction mutators as [|m rest IH]; intros mutationID tree s; cbn [mutate];
    [apply wp_ret, idle_refl|].
  apply wp_bind, wp_emit.
  destruct (mutesting.MutateWalk _ _ _) as [changed [ended tree']].
  apply wp_bind.
  eapply wp_mono; [|by apply mutate_changed_idle].
  intros r s1 Hi.
  assert (Hi' : idle s s1).
  { eapply idle_trans; [|exact Hi]. by apply idle_emit, idle_refl. }
  destruct r as [mutationID'|e|c]; [|done..].
  destruct ended as [[]|e|c]; [|done..].
  eapply wp_mono; [|apply IH]. cbn beta. intros _ s2 Hi2. by eapply idle_trans.
Qed.

Lemma iter_incr n : forall id,
  0 <= id -> id + Z.of_nat n < 2 ^ 63 -> Nat.iter n incr id = id + Z.of_nat n.
Proof.
  induction n as [|n IH]; intros id H0 Hlt; [cbn; lia|].
  rewrite Nat.iter_succ, IH by lia.
  unfold incr, int_wrap. rewrite Z.mod_small; lia.
Qed.

Lemma mutate_changed_counts opts m pkgPath originalFile fset src mutatedFile execs changed :
  forall mutationID s,
    wp (mutate_changed opts m mutationID pkgPath originalFile fset src mutatedFile
                       execs changed)
       (fun r _ => forall id', r = Ret id' ->
                     id' = Nat.iter (length changed) incr mutationID) s.
Proof.
  induction changed as [|tree rest IH]; intros mutationID s; cbn [mutate_changed].
  - apply wp_ret. by intros id' [= <-].
  - apply wp_bind. apply wp_of_run. intros [[]|e|c] s1 _; [|done..].
    eapply wp_mono; [|apply IH]. cbn beta. intros r s2 Hr id' ->.
    rewrite (Hr _ eq_refl). cbn [length]. by rewrite Nat.iter_succ_r.
Qed.

(** X4 (mutation ids): the receive loop of [mutate] advances the id by one
    for every tree the walker hands over, whether the tree was a
    duplicate, failed to save, or was run; so when the loop returns, the
    id is the old one plus the number of trees (as long as an [int] holds
    it).  And the temp-file names made from two different ids differ, so no
    mutant is saved over another. *)
Theorem every_tree_takes_one_id
    (opts : Options) (m : mutatorItem) (mutationID : Z) (pkgPath originalFile : string)
    (fset : FileSet) (src : ast.loc) (mutatedFile : string) (execs : list string)
    (changed : list ast.Heap) (s : State) :
  (forall id' s',
      mutate_changed opts m mutationID pkgPath originalFile fset src mutatedFile execs
                     changed s = (Ret id', s') ->
      id' = Nat.iter (length changed) incr mutationID /\
      (0 <= mutationID -> mutationID + Z.of_nat (length changed) < 2 ^ 63 ->
       id' = mutationID + Z.of_nat (length changed))) /\
  (forall i j,
      mutatedFile +:+ "." +:+ Sprintf_d i = mutatedFile +:+ "." +:+ Sprintf_d j -> i = j).
Proof.
  split.
  - intros id' s' Hrun.
    pose proof (mutate_changed_counts opts m pkgPath originalFile fset src mutatedFile
                  execs changed mutationID s) as Hc.
    unfold wp in Hc. rewrite Hrun in Hc. specialize (Hc _ eq_refl).
    split; [done|]. intros H0 Hlt. rewrite Hc. by apply iter_incr.
  - intros i j E. do 2 apply (inj (String.app _)) in E.
    by apply (inj pretty) in E.
Qed.

End LoopBody.

Section ExecModes.
Import main.
Context `{GoEnv}.

(** X5 (a user's command): in external mode [mutateExec] does no file
    operation of its own.  The command is started on the files as they
    are, the original still in its place, and is told the two paths in
    [MUTATE_ORIGINAL] and [MUTATE_CHANGED] (and [TEST_RECURSIVE=true]
    exactly when the option is set); what it prints is passed on, and the
    files afterwards are what the command left. *)
Theorem external_mode_leaves_the_swap_to_the_command
    (opts : Options) (pkgPath file mutationFile name : string) (args : list string)
    (mutant : Mutant) (s : State) :
  exists env fs' out e,
    exec_Run (name :: args) env (files s) = (fs', out, e) /\
    In ("MUTATE_CHANGED=" +:+ mutationFile) env /\
    In ("MUTATE_ORIGINAL=" +:+ file) env /\
    In ("MUTATE_PACKAGE=" +:+ pkgPath) env /\
    (In "TEST_RECURSIVE=true" env <-> Test_Recursive opts = true) /\
    let run := mutateExec opts pkgPath file mutationFile (name :: args) mutant s in
    files run.2 = fs' /\
    events run.2 = events s ++
      [Console "Debug" ("Execute " +:+ strconv_Quote (Exec_Exec opts) +:+ " for mutation");
       Exec (name :: args) env (files s);
       Stdout out] /\
    report run.2 = report s /\ mutationBlackList run.2 = mutationBlackList s.
Proof.
  set (env :=
    [ "MUTATE_CHANGED=" +:+ mutationFile;
      "MUTATE_DEBUG=" +:+ (if General_Debug opts then "true" else "false");
      "MUTATE_ORIGINAL=" +:+ file;
      "MUTATE_PACKAGE=" +:+ pkgPath;
      "MUTATE_TIMEOUT=" +:+ Sprintf_d (Exec_Timeout opts);
      "MUTATE_VERBOSE=" +:+ (if General_Verbose opts then "true" else "false") ]
    ++ (if Test_Recursive opts then ["TEST_RECURSIVE=true"] else [])).
  destruct (exec_Run (name :: args) env (files s)) as [[fs' out] e] eqn:E.
  exists env, fs', out, e. split; [done|].
  split; [unfold env; cbn; tauto|].
  split; [unfold env; cbn; tauto|].
  split; [unfold env; cbn; tauto|].
  split.
  { unfold env. destruct (Test_Recursive opts); cbn; split; try done; try tauto.
    intros [X|[X|[X|[X|[X|[X|[]]]]]]]; discriminate X. }
  cbv zeta. unfold mutateExec. fold env. clearbody env.
  unfold bind, emit, modify, exec_CombinedOutput, get, ret. cbn.
  rewrite E. cbn.
  destruct e as [|st|msg]; cbn; rewrite <- ?app_assoc; by cbn.
Qed.

(** X6 (the built-in diff fails): when [diff] ends with a status other
    than 0 and 1, [mutateExec] prints what [diff] put out and panics;
    when [diff] cannot be run at all it panics with that error.  Either
    way this is before the original is moved: no rename, no copy and no
    test run happen, the files are as [diff] left them. *)
Theorem failed_diff_stops_before_the_swap
    (opts : Options) (pkgPath file mutationFile : string) (mutant : Mutant) (s : State)
    (fs1 : gmap string string) (diff : string) (err : cmd_err) :
  exec_Run (diff_argv file mutationFile) [] (files s) = (fs1, diff, err) ->
  raw_status err <> Some 0 -> raw_status err <> Some 1 ->
  let run := mutateExec opts pkgPath file mutationFile [] mutant s in
  (exists msg, run.1 = Panic msg /\
     match err with
     | OtherError e => msg = e
     | _ => msg = "Could not execute diff on mutation file"
     end) /\
  files run.2 = fs1 /\
  events run.2 = events s ++
    [Console "Debug" "Execute built-in exec command for mutation";
     Exec (diff_argv file mutationFile) [] (files s)] ++
    (if err is OtherError _ then [] else [Stdout (diff +:+ LF)]) /\
  report run.2 = report s.
Proof.
  intros E H0 H1. cbv zeta. unfold mutateExec, diff_argv in *.
  unfold exitCodeOf, exec_CombinedOutput, emit, bind, modify, get, ret, panic. cbn -[Z.eqb].
  rewrite E. cbn -[Z.eqb].
  destruct err as [|st|msg]; cbn [raw_status] in *; [done| |].
  - assert ((st =? 0) = false) as -> by (apply Z.eqb_neq; congruence).
    assert ((st =? 1) = false) as -> by (apply Z.eqb_neq; congruence).
    cbn. rewrite <- ?app_assoc. split_and!; try done. by eexists.
  - cbn. rewrite <- ?app_assoc. split_and!; try done. by eexists.
Qed.

(** X7 (a copy left behind by an earlier run): if [file.tmp] exists when
    [mutateExec] starts and the original cannot be moved aside, the call
    panics, and the deferred restore then moves that old [file.tmp] over
    the original: the original's contents are lost without any test having
    run. *)
Theorem stale_copy_replaces_the_original
    (opts : Options) (pkgPath file mutationFile : string) (mutant : Mutant) (s : State)
    (stale : string) :
  frame_cmds file ->
  files s !! (file +:+ ".tmp") = Some stale ->
  raw_status (exec_Run (diff_argv file mutationFile) [] (files s)).2 = Some 0 \/
  raw_status (exec_Run (diff_argv file mutationFile) [] (files s)).2 = Some 1 ->
  os_refuses (Rename file (file +:+ ".tmp")) = true ->
  os_refuses (Rename (file +:+ ".tmp") file) = false ->
  let run := mutateExec opts pkgPath file mutationFile [] mutant s in
  run.1 = Panic "permission denied" /\
  files run.2 !! file = Some stale /\
  files run.2 !! (file +:+ ".tmp") = None /\
  events run.2 = events s ++
    [Console "Debug" "Execute built-in exec command for mutation";
     Exec (diff_argv file mutationFile) [] (files s)].
Proof.
  intros Hframe Hstale Hst Hr1 Hr2. cbv zeta. unfold mutateExec.
  fold (diff_argv file mutationFile).
  destruct (Hframe (diff_argv file mutationFile) [] (files s)) as [_ Ftmp].
  unfold exitCodeOf, exec_CombinedOutput, emit, bind, modify, get, ret, panic. cbn -[Z.eqb].
  destruct (exec_Run (diff_argv file mutationFile) [] (files s)) as [[fs1 diff] err].
  cbn [fst snd] in *.
  assert (Hcode : exists st, (st = 0 \/ st = 1) /\
            match err with
            | CmdNil => Ret 0 | ExitError status => Ret status
            | OtherError e => Panic e end = Ret st).
  { destruct err as [|st|msg]; cbn [raw_status] in Hst.
    - exists 0. by split; [left|].
    - exists st. split; [|done]. destruct Hst as [[= ->]|[= ->]]; tauto.
    - by destruct Hst. }
  destruct Hcode as (st & Hst' & Hcode).
  destruct err as [|st0|msg]; cbn -[Z.eqb] in Hcode |- *; simplify_eq.
  all: unfold with_defer, os_Rename, bind, get, modify, ret; cbn.
  all: try (destruct Hst' as [-> | ->]; cbn).
  all: rewrite Hr1; cbn; rewrite Hr2; cbn; rewrite Ftmp, Hstale; cbn.
  all: assert (Hne : file <> file +:+ ".tmp") by (intros X; symmetry in X; by apply tmp_ne in X).
  all: rewrite lookup_insert_eq, lookup_insert_ne, lookup_delete_eq by done.
  all: rewrite <- ?app_assoc; by split_and!.
Qed.

End ExecModes.

Section Thunks.
Import ast mutator loop.

(** What the operator returns at a range statement: the new body is the
    node it made first. *)
Lemma MutatorLoopRangeBreak_proposal node (h : Heap) ms h1 m :
  MutatorLoopRangeBreak node h = (Ret ms, h1) ->
  In m ms ->
  exists n,
    h !! node = Some (NRangeStmt n) /\ h1 !! node = Some (NRangeStmt n) /\
    m = mkMutation (set_Body node (Some (fresh (dom h)))) (set_Body node (Body n)) /\
    h !! fresh (dom h) = None /\ is_Some (h1 !! fresh (dom h)).
Proof.
  destruct (h !! node) as [[n| | |]|] eqn:E.
  2-5: unfold MutatorLoopRangeBreak, bind, get; cbv beta iota; rewrite E;
       by intros [= <- <-] [].
  rewrite (MutatorLoopRangeBreak_run _ _ _ E).
  destruct (get_List _ _) as [[l2|msg|c] hx]; [|done..].
  intros [= <- <-] [<-|[]]. exists n. split; [done|].
  split; [by apply alloc2_frame|]. split; [done|].
  split; [apply not_elem_of_dom, is_fresh|].
  rewrite lookup_insert_eq. by eexists.
Qed.

(** X8 (the two thunks, on any tree): a mutation of [MutatorLoopRangeBreak]
    writes one field, the body pointer of its range statement, and nothing
    else: on whatever tree [h2] it is run, apply leaves the loop with the
    block the operator made for its body, revert leaves it with the body
    the loop had when the operator was called (not the one apply found),
    and the loop's other fields and all other nodes are as in [h2].  So
    revert before any apply changes nothing, each thunk done twice is the
    thunk done once, and of two thunks in a row the last one wins. *)
Theorem thunks_write_one_field
    (node : loc) (h h1 : Heap) (ms : list Mutation) (m : Mutation) :
  MutatorLoopRangeBreak node h = (Ret ms, h1) ->
  In m ms ->
  Reset m h1 = h1 /\
  forall h2,
    Change m (Change m h2) = Change m h2 /\
    Reset m (Reset m h2) = Reset m h2 /\
    Reset m (Change m h2) = Reset m h2 /\
    Change m (Reset m h2) = Change m h2 /\
    (forall l, l <> node -> Change m h2 !! l = h2 !! l /\ Reset m h2 !! l = h2 !! l) /\
    (forall r, h2 !! node = Some (NRangeStmt r) ->
       exists r0 nb rc rr,
         h !! node = Some (NRangeStmt r0) /\
         h !! nb = None /\ is_Some (h1 !! nb) /\
         Change m h2 !! node = Some (NRangeStmt rc) /\ body_replaced r rc (Some nb) /\
         Reset m h2 !! node = Some (NRangeStmt rr) /\ body_replaced r rr (Body r0)).
Proof.
  intros Hrun Hin.
  destruct (MutatorLoopRangeBreak_proposal _ _ _ _ _ Hrun Hin)
    as (n & E & E1 & -> & Hnb & Hnb1).
  cbn [Change Reset].
  split; [by apply set_Body_same|].
  intros h2. rewrite !set_Body_set_Body. split_and!; try done.
  - intros l Hne. unfold set_Body.
    destruct (h2 !! node) as [[r| | |]|]; rewrite ?lookup_insert_ne; done.
  - intros r Er. exists n, (fresh (dom h)). eexists _, _.
    rewrite !(set_Body_range _ _ _ _ Er), !lookup_insert_eq.
    split_and!; try done; apply body_replaced_with_Body.
Qed.

(** X9 (a range statement without a body): if the [Body] field of the
    range statement is nil, the operator panics on the nil dereference
    when it reads the old statements, and proposes nothing; the nodes of
    the tree are as they were (the two nodes it had made are left over). *)
Theorem range_without_body_panics (node : loc) (h : Heap) (n : RangeStmt) :
  h !! node = Some (NRangeStmt n) ->
  Body n = None ->
  exists h',
    MutatorLoopRangeBreak node h
      = (Panic "invalid memory address or nil pointer dereference", h') /\
    extends h h'.
Proof.
  intros E Hnil. rewrite (MutatorLoopRangeBreak_run _ _ _ E). cbv zeta.
  rewrite Hnil. cbn [get_List]. eexists. split; [reflexivity|].
  set (nb := fresh (dom h)).
  set (h0 := <[nb := NBlockStmt (mkBlockStmt NoPos [] NoPos)]> h).
  set (br := fresh (dom h0)).
  assert (Hnb : h !! nb = None) by (apply not_elem_of_dom, is_fresh).
  assert (Hbr0 : h0 !! br = None) by (apply not_elem_of_dom, is_fresh).
  assert (Hne : nb <> br).
  { intros Heq. rewrite <- Heq in Hbr0. unfold h0 in Hbr0.
    by rewrite lookup_insert_eq in Hbr0. }
  assert (Hbr : h !! br = None).
  { unfold h0 in Hbr0. by rewrite lookup_insert_ne in Hbr0. }
  split.
  - intros l v El. unfold h0. rewrite !lookup_insert_ne; [done|congruence..].
  - intros l r. unfold h0.
    destruct (decide (l = nb)) as [->|]; [by rewrite lookup_insert_eq|].
    rewrite lookup_insert_ne by done.
    destruct (decide (l = br)) as [->|]; [by rewrite lookup_insert_eq|].
    rewrite lookup_insert_ne by done.
    by rewrite lookup_insert_ne by done.
Qed.

End Thunks.

Section BlacklistFiles.
Import main.
Context `{GoEnv}.

Lemma mainCmd_blacklist_app l1 l2 s :
  mainCmd_blacklist (l1 ++ l2) s =
    (r <- mainCmd_blacklist l1 ;;
     match r with
     | Some code => ret (Some code)
     | None => mainCmd_blacklist l2
     end)%go s.
Proof.
  revert s. induction l1 as [|f l1 IH]; intros s; cbn [app mainCmd_blacklist].
  - reflexivity.
  - unfold bind.
    destruct (os_ReadFile f s) as [[[c [e|]]|e|code] s1]; try reflexivity.
    destruct (mainCmd_blacklist_lines (Split c "010") s1) as [[[code|]|e|code] s2];
      try reflexivity.
    rewrite IH. reflexivity.
Qed.

(** X10 (a blacklist file that cannot be read): [mainCmd] stops at the
    first blacklist file it cannot read; it reports the file on standard
    error and returns the error code, and neither the later files nor the
    mutator selection nor any mutation is reached.  The fingerprints of the
    files read before it are in the map by then. *)
Theorem unreadable_blacklist_file_is_an_error
    (opts : Options) (registry : list (string * mutator.Mutator))
    (rest : list mutatorItem -> M State Z) (s : State)
    (pre : list string) (f : string) (post : list string) (lines : list string) :
  Files_Blacklist opts = pre ++ f :: post ->
  blacklist_lines s pre = Some lines ->
  forallb well_sized lines = true ->
  os_refuses (ReadFile f) = true \/ files s !! f = None ->
  exists e s',
    mainCmd_from_blacklist opts registry rest s = (Ret returnError, s') /\
    events s' = events s ++
      [Stderr (("Cannot read blacklist file " +:+ strconv_Quote f +:+ ": " +:+ e) +:+ LF)] /\
    files s' = files s /\ report s' = report s /\
    mutationBlackList s' = list_to_set (entries lines) ∪ mutationBlackList s.
Proof.
  intros Hbl Hlines Hall Hbad.
  unfold mainCmd_from_blacklist. rewrite Hbl. unfold bind at 1.
  rewrite mainCmd_blacklist_app. unfold bind at 1.
  rewrite (mainCmd_blacklist_run _ s s lines eq_refl Hlines).
  rewrite (mainCmd_blacklist_lines_ok lines s Hall).
  cbn [mainCmd_blacklist]. unfold bind at 1.
  unfold os_ReadFile, bind at 1, get at 1. cbn [files set_mutationBlackList].
  destruct (os_refuses (ReadFile f)) eqn:Hr.
  - exists "permission denied". eexists. split; [reflexivity|]. by cbn.
  - destruct Hbad as [?|Hnone]; [done|]. rewrite Hnone.
    exists "no such file or directory". eexists. split; [reflexivity|]. by cbn.
Qed.

Lemma app_String c (a b : string) : String c a +:+ b = String c (a +:+ b).
Proof. reflexivity. Qed.

Lemma string_of_list_ascii_app l1 l2 :
  string_of_list_ascii (l1 ++ l2) = string_of_list_ascii l1 +:+ string_of_list_ascii l2.
Proof.
  induction l1 as [|c l1 IH]; [done|].
  cbn [app string_of_list_ascii]. by rewrite IH, app_String.
Qed.

Lemma string_rev_cons c s : string_rev (String c s) = string_rev s +:+ String c "".
Proof. unfold string_rev. cbn. by rewrite string_of_list_ascii_app. Qed.

Lemma string_app_assoc (a b c : string) : (a +:+ b) +:+ c = a +:+ (b +:+ c).
Proof. induction a as [|x a IH]; [done|]. by rewrite !app_String, IH. Qed.

Lemma string_rev_revapp l : forall cur, string_rev (revapp l cur) = string_rev cur +:+ l.
Proof.
  induction l as [|c r IH]; intros cur; cbn [revapp].
  - induction (string_rev cur) as [|x a IHa]; [done|]. by rewrite app_String, <- IHa.
  - rewrite IH, string_rev_cons, string_app_assoc. reflexivity.
Qed.

Lemma Split_aux_line l : forall s cur,
  no_LF l = true ->
  Split_aux "010" (l +:+ LF +:+ s) cur = string_rev (revapp l cur) :: Split_aux "010" s "".
Proof.
  induction l as [|c r IH]; intros s cur Hl; cbn [no_LF] in Hl.
  - reflexivity.
  - apply andb_prop in Hl as [Hc Hr]. rewrite app_String. cbn [Split_aux revapp].
    destruct (Ascii.eqb c "010"); [done|]. by apply IH.
Qed.

Lemma Split_unlines ls :
  forallb no_LF ls = true -> Split (unlines ls) "010" = ls ++ [""].
Proof.
  unfold Split. induction ls as [|l ls IH]; intros Hall; cbn [unlines forallb] in *.
  - reflexivity.
  - apply andb_prop in Hall as [Hl Hls].
    rewrite (Split_aux_line l _ _ Hl), string_rev_revapp, IH by done. reflexivity.
Qed.

(** X11 (a blacklist file written line by line): a file that holds
    fingerprints, each of 32 bytes and each ended by a line feed, is read
    back whole: [mainCmd] puts exactly these fingerprints into the map
    (the empty piece after the last line feed is skipped) and goes on to
    the mutator selection. *)
Theorem blacklist_of_checksum_lines_is_read_back
    (opts : Options) (registry : list (string * mutator.Mutator))
    (rest : list mutatorItem -> M State Z) (s : State) (f : string) (ls : list string) :
  Files_Blacklist opts = [f] ->
  os_refuses (ReadFile f) = false ->
  files s !! f = Some (unlines ls) ->
  forallb checksum_line ls = true ->
  mainCmd_from_blacklist opts registry rest s =
    (mutators <- mainCmd_mutators opts registry ;; rest mutators)%go
      (set_mutationBlackList (list_to_set ls ∪ mutationBlackList s) s).
Proof.
  intros Hbl Hr Hf Hall.
  assert (Hno : forallb no_LF ls = true).
  { rewrite forallb_forall in *. intros l Hl. specialize (Hall l Hl).
    unfold checksum_line in Hall. by apply andb_prop in Hall as [_ ?]. }
  assert (Hws : forallb well_sized (ls ++ [""]) = true).
  { rewrite forallb_app. cbn. rewrite andb_true_r.
    rewrite forallb_forall in *. intros l Hl. specialize (Hall l Hl).
    unfold checksum_line in Hall. apply andb_prop in Hall as [Hlen _].
    unfold well_sized. rewrite Hlen. by rewrite orb_true_r. }
  assert (Hent : entries (ls ++ [""]) = ls).
  { unfold entries. rewrite List.filter_app. cbn. rewrite app_nil_r.
    clear Hws Hno Hf. induction ls as [|l ls IH]; cbn [List.filter forallb] in *; [done|].
    apply andb_prop in Hall as [Hl Hls].
    assert (String.eqb l "" = false) as ->.
    { unfold checksum_line in Hl. apply andb_prop in Hl as [Hlen _].
      by destruct l. }
    cbn [negb]. by rewrite IH. }
  assert (Hlines : blacklist_lines s (Files_Blacklist opts) = Some (ls ++ [""])).
  { rewrite Hbl. cbn [blacklist_lines]. rewrite Hr, Hf.
    rewrite Split_unlines by done. by rewrite app_nil_r. }
  unfold mainCmd_from_blacklist. unfold bind at 1.
  rewrite (mainCmd_blacklist_run _ s s _ eq_refl Hlines).
  rewrite (mainCmd_blacklist_lines_ok _ s Hws). by rewrite Hent.
Qed.

End BlacklistFiles.

Section Selection.
Import main.
Context `{GoEnv}.

Lemma disables_run d name (s : State) :
  d <> "*" -> disables d name s = (Ret (drops d name), s).
Proof.
  intros Hne. unfold disables, drops.
  destruct (HasSuffix d "*") eqn:Hs; [|done].
  destruct d as [|c [|c' rest]].
  - done.
  - unfold HasSuffix in Hs. cbn -[Ascii.eqb] in Hs.
    destruct (Ascii.eqb_spec "*" c) as [<-|]; done.
  - unfold slice_to, bind, ret.
    assert (((Z.of_nat (String.length (String c (String c' rest))) - 2 <? 0)
             || (Z.of_nat (String.length (String c (String c' rest)))
                 <? Z.of_nat (String.length (String c (String c' rest))) - 2)) = false)
      as ->.
    { apply orb_false_intro; apply Z.ltb_ge; cbn [String.length]; lia. }
    do 3 f_equal. cbn [String.length]. f_equal. lia.
Qed.

Lemma disabled_run ds name (s : State) :
  forallb (fun d => negb (String.eqb d "*")) ds = true ->
  disabled ds name s = (Ret (existsb (fun d => drops d name) ds), s).
Proof.
  induction ds as [|d ds IH]; intros Hall; cbn [disabled forallb existsb] in *;
    [done|].
  apply andb_prop in Hall as [Hd Hds].
  apply negb_true_iff, String.eqb_neq in Hd.
  unfold bind. rewrite (disables_run _ _ _ Hd).
  destruct (drops d name); cbn [orb]; [done|]. by apply IH.
Qed.

(** X12 (which mutators stay enabled): when no disable argument is the
    bare star, the selection never panics, and the mutators that stay
    enabled are the registered ones that no argument drops, in the order
    of the registry, each announced once through [console.Verbose];
    nothing else happens.  An argument without a star at its end drops
    the mutator of that very name and no other. *)
Theorem disable_arguments_filter_the_registry
    (opts : Options) (registry : list (string * mutator.Mutator)) (s : State) :
  forallb (fun d => negb (String.eqb d "*")) (Mutator_DisableMutators opts) = true ->
  let enabled :=
    List.filter
      (fun nm => negb (existsb (fun d => drops d nm.1) (Mutator_DisableMutators opts)))
      registry in
  mainCmd_mutators opts registry s =
    (Ret (map (fun nm => mkMutatorItem nm.1 nm.2) enabled),
     mkState (files s) (mutationBlackList s) (report s)
       (events s ++
        map (fun nm => Console "Verbose" ("Enable mutator " +:+ strconv_Quote nm.1))
            enabled)) /\
  (forall d name, HasSuffix d "*" = false -> drops d name = String.eqb name d).
Proof.
  intros Hall. cbv zeta. split; [|by intros d name; unfold drops; intros ->].
  revert s.
  induction registry as [|[name m] rest IH]; intros s; cbn [mainCmd_mutators List.filter].
  - unfold ret. cbn. rewrite app_nil_r. by destruct s.
  - unfold bind at 1. rewrite (disabled_run _ _ _ Hall). cbn [fst snd].
    destruct (existsb _ (Mutator_DisableMutators opts)); cbn [negb].
    + apply IH.
    + unfold bind at 1, emit at 1, modify at 1. unfold bind at 1. rewrite IH.
      unfold ret. cbn. by rewrite <- app_assoc.
Qed.

End Selection.

Section ConsoleProofs.
Import main.
Context `{console.Color}.

Lemma trace_of_app {A} (m : M State A) s evs :
  events (m s).2 = events s ++ evs -> trace_of m s = evs.
Proof. intros E. unfold trace_of. rewrite E. apply drop_app_length. Qed.

Lemma HasPrefix_nil s : HasPrefix s "" = true.
Proof. by destruct s. Qed.

Lemma PrintDiff_line_events line s :
  console.PrintDiff_line line s =
    (Ret tt, mkState (files s) (mutationBlackList s) (report s)
                     (events s ++ diff_chunk line)).
Proof.
  unfold console.PrintDiff_line, diff_chunk, console.Println_or_log, console.log_Printf.
  destruct line as [|c rest]; [reflexivity|].
  cbn [HasPrefix starts_with].
  destruct (Ascii.eqb_spec "+" c) as [<-|Hp];
    [|destruct (Ascii.eqb_spec "-" c) as [<-|Hm]]; cbn [Ascii.eqb Bool.eqb].
  - rewrite HasPrefix_nil. destruct (HasPrefix rest "++");
      destruct (console.color_Println _ _) as [w [e|]]; cbn;
      unfold emit, modify, ret, add_event; cbn; by rewrite <- ?app_assoc.
  - rewrite HasPrefix_nil. destruct (HasPrefix rest "--");
      destruct (console.color_Println _ _) as [w [e|]]; cbn;
      unfold emit, modify, ret, add_event; cbn; by rewrite <- ?app_assoc.
  - reflexivity.
Qed.

Lemma PrintDiff_lines_events lines : forall s,
  console.PrintDiff_lines lines s =
    (Ret tt, mkState (files s) (mutationBlackList s) (report s)
                     (events s ++ flat_map diff_chunk lines)).
Proof.
  induction lines as [|line rest IH]; intros s; cbn [console.PrintDiff_lines flat_map].
  - unfold ret. rewrite app_nil_r. by destruct s.
  - unfold bind. rewrite PrintDiff_line_events, IH. cbn. by rewrite <- app_assoc.
Qed.

Lemma Split_aux_length s : forall cur,
  List.length (Split_aux "010" s cur) =
    S (List.length (List.filter (fun c => Ascii.eqb c "010") (list_ascii_of_string s))).
Proof.
  induction s as [|c rest IH]; intros cur;
    cbn [Split_aux list_ascii_of_string List.filter]; [done|].
  destruct (Ascii.eqb c "010"); cbn [List.length]; by rewrite IH.
Qed.

(** X13 ([PrintDiff], line by line): [PrintDiff] writes one chunk for
    every piece of the diff between line feeds, in order, and changes
    nothing else: a piece that starts with a plus goes through the green
    printer, one that starts with a minus through the red one, any other
    is written as it is with a line feed (the cases for three pluses and
    three minuses add nothing to this).  A diff with [n] line feeds has
    [n + 1] pieces, so for a diff that ends in a line feed one empty line
    more is written. *)
Theorem PrintDiff_writes_every_line (diff : string) (s : State) :
  console.PrintDiff diff s =
    (Ret tt, mkState (files s) (mutationBlackList s) (report s)
                     (events s ++ flat_map diff_chunk (Split diff "010"))) /\
  List.length (Split diff "010") =
    S (List.length (List.filter (fun c => Ascii.eqb c "010") (list_ascii_of_string diff))).
Proof.
  split; [apply PrintDiff_lines_events|apply Split_aux_length].
Qed.

Lemma app_nil_r_string (a : string) : a +:+ "" = a.
Proof. induction a as [|x a IH]; [done|]. by rewrite app_String, IH. Qed.

Lemma unlines_Split_aux s : forall cur,
  unlines (Split_aux "010" s cur) = string_rev cur +:+ s +:+ LF.
Proof.
  induction s as [|c rest IH]; intros cur; cbn [Split_aux unlines].
  - by rewrite app_nil_r_string.
  - destruct (Ascii.eqb_spec c "010") as [->|Hne]; cbn [unlines].
    + rewrite IH. reflexivity.
    + rewrite IH, string_rev_cons, string_app_assoc. reflexivity.
Qed.

Lemma stdout_text_plain_lines lines :
  stdout_text (map (fun l => Stdout (l +:+ LF)) lines) = unlines lines.
Proof.
  induction lines as [|l rest IH]; cbn [map stdout_text unlines]; [done|].
  by rewrite IH, string_app_assoc.
Qed.

(** X14 ([PrintDiff] loses nothing): with the colours switched off, what
    [PrintDiff] writes to standard output is, byte for byte, the diff
    followed by one line feed, and nothing goes to standard error. *)
Theorem PrintDiff_prints_the_whole_diff (diff : string) (s : State) :
  (forall c line, console.color_Println c line = (line +:+ LF, None)) ->
  let written := trace_of (console.PrintDiff diff) s in
  stdout_text written = diff +:+ LF /\
  Forall (fun e => exists t, e = Stdout t) written.
Proof.
  intros Hplain. cbv zeta.
  rewrite (trace_of_app _ _ (flat_map diff_chunk (Split diff "010")))
    by (unfold console.PrintDiff; by rewrite PrintDiff_lines_events).
  assert (Hchunk : forall line, diff_chunk line = [Stdout (line +:+ LF)]).
  { intros line. unfold diff_chunk. rewrite !Hplain. by repeat case_match. }
  assert (Hall : flat_map diff_chunk (Split diff "010")
                 = map (fun l => Stdout (l +:+ LF)) (Split diff "010")).
  { induction (Split diff "010") as [|l ls IH]; cbn [flat_map map]; [done|].
    by rewrite Hchunk, IH. }
  rewrite Hall. split.
  - rewrite stdout_text_plain_lines. unfold Split. by rewrite unlines_Split_aux.
  - apply Forall_fmap, Forall_true. intros l. by eexists.
Qed.

End ConsoleProofs.

Section Shown.
Import main.
Context `{GoEnv} `{console.Color}.

(** X15 (what the user is shown for a mutant): when silent mode is off,
    the call of package console that [mutate] makes for a classified
    mutant writes the mutant's line and then the blue frame line.  For a
    killed, an escaped and a skipped mutant the leading word PASS, FAIL or
    SKIP is the one that is coloured.  For an unknown exit code the line
    starts with the word UNKOWN as it is, uncoloured: [PrintUnknown] looks
    for UNKNOWN, which can only turn up further on, in the name of the
    mutant's file. *)
Theorem classes_as_shown
    (opts : Options) (msg : string) (code : Z) (mutant : Mutant) (s : State) :
  Config_SilentMode opts = false ->
  console.output opts (trace_of (classify opts msg code mutant) s) =
    [Stdout (shown_class (bucket_of code) msg);
     Stdout (console.color_Blue console.frameLine)].
Proof.
  intros Hs. unfold classify, bucket_of.
  destruct (code =? 0); [|destruct (code =? 1); [|destruct (code =? 2)]].
  all: rewrite Hs; cbn [negb when].
  all: match goal with
       | |- context [emit (Console ?fn ?out)] =>
           rewrite (trace_of_app _ _ [Console fn out]) by done
       end.
  all: unfold console.output; cbn [console.replay].
  all: unfold console.call; cbn [String.eqb Ascii.eqb Bool.eqb].
  all: unfold console.PrintPass, console.PrintFail, console.PrintSkip,
         console.PrintUnknown, console.PASS, console.FAIL, console.SKIP, console.UNKNOWN.
  all: unfold bind, emit, modify, ret; cbn [events add_event app fst snd].
  all: unfold shown_class; by do 2 f_equal.
Qed.

End Shown.

Section Silent.
Import main.
Context `{GoEnv} `{console.Color}.

Lemma hush_refl s : hush s s.
Proof. exists []. by rewrite app_nil_r. Qed.

Lemma hush_trans s1 s2 s3 : hush s1 s2 -> hush s2 s3 -> hush s1 s3.
Proof.
  intros (e1 & A & B) (e2 & A' & B'). exists (e1 ++ e2).
  rewrite A', A, <- app_assoc. split; [done|]. by apply Forall_app.
Qed.

Lemma hush_emit e s s' : quiet e -> hush s s' -> hush s (add_event e s').
Proof.
  intros He (evs & A & B). exists (evs ++ [e]). cbn. rewrite A, <- app_assoc.
  split; [done|]. apply Forall_app. split; [done|]. by apply Forall_singleton.
Qed.

Lemma hush_events s s' s'' : hush s s' -> events s'' = events s' -> hush s s''.
Proof. intros (evs & A & B) E. exists evs. by rewrite E. Qed.

Lemma quiet_Debug msg : quiet (Console "Debug" msg).
Proof. right. right. left. by eexists. Qed.

Lemma quiet_Exec argv env fs : quiet (Exec argv env fs).
Proof. by left. Qed.

Lemma translate_silent opts diff code s :
  Config_SilentMode opts = true -> General_Debug opts = false ->
  General_Verbose opts = false ->
  translate opts diff code s = (Ret (invert code), s).
Proof.
  intros Hs Hd Hv. unfold translate, invert. rewrite Hs, Hd, Hv.
  destruct (code =? 0); [done|]. destruct (code =? 1); [done|].
  by destruct (code =? 2).
Qed.

Lemma classify_silent opts msg code mutant s :
  Config_SilentMode opts = true ->
  events (classify opts msg code mutant s).2 = events s /\
  exists s', classify opts msg code mutant s = (Ret tt, s').
Proof.
  intros Hs. unfold classify. rewrite Hs.
  destruct (code =? 0); [|destruct (code =? 1); [|destruct (code =? 2)]];
    (split; [done|by eexists]).
Qed.

(** Built-in mode, when it returns: only quiet events. *)
Lemma mutateExec_hush opts pkgPath file mutationFile mutant s :
  Config_SilentMode opts = true -> General_Debug opts = false ->
  General_Verbose opts = false ->
  wp (mutateExec opts pkgPath file mutationFile [] mutant)
     (fun r s' => (exists v, r = Ret v) -> hush s s') s.
Proof.
  intros Hs Hd Hv. unfold mutateExec.
  apply wp_bind, wp_emit. apply wp_bind, wp_exec. intros fs1 diff e1 _.
  apply wp_bind, wp_exitCodeOf; [intros _|intros st _|by intros e _ [v [=]]].
  all: apply wp_bind;
    match goal with |- context [if ?b then _ else _] => destruct b end;
    [by apply wp_bind, wp_emit, wp_panic; intros [v [=]]|apply wp_ret].
  all: match goal with |- wp _ _ ?st => set (s1 := st) end;
    assert (H1 : hush s s1)
      by (eapply hush_events with (s' := add_event _ (add_event _ s));
          [apply hush_emit; [apply quiet_Exec|];
           apply hush_emit; [apply quiet_Debug|apply hush_refl]|done]);
    clearbody s1.
  all: (apply wp_with_defer; [apply restore_returns|]); apply wp_bind, wp_Rename;
    [by intros e _; apply wp_panic; intros [v [=]]|].
  all: intros c _ _.
  all: apply wp_bind, wp_CopyFile;
    [by intros e _; apply wp_panic; intros [v [=]]|].
  all: intros mc _ _.
  all: apply wp_bind, wp_exec; intros fs4 out e2 _.
  all: apply wp_bind, wp_exitCodeOf;
    [intros _|intros st2 _|by intros e _ [v [=]]].
  all: rewrite Hd; cbn [when]; apply wp_bind, wp_ret.
  all: apply wp_bind, wp_of_run; intros r s5; rewrite translate_silent by done;
    intros [= <- <-]; apply wp_ret; intros _.
  all: eapply hush_events; [|apply os_Rename_events].
  all: eapply hush_events with (s' := add_event (Exec _ _ _) s1); [|done].
  all: apply hush_emit; [apply quiet_Exec|done].
Qed.

Lemma mutate_mutant_hush opts m mutationID pkgPath originalFile fset tree src
    mutatedFile s :
  Config_SilentMode opts = true -> General_Debug opts = false ->
  General_Verbose opts = false ->
  wp (mutate_mutant opts m mutationID pkgPath originalFile fset tree src mutatedFile [])
     (fun r s' => (exists v, r = Ret v) -> hush s s') s.
Proof.
  intros Hs Hd Hv. unfold mutate_mutant.
  apply wp_bind, wp_ReadFile; [by intros e _; apply wp_log_Fatal; intros [v [=]]|].
  intros osc _ _.
  apply wp_bind, wp_of_run. intros r s1 Hsave.
  destruct (saveAST_keeps _ _ _ _ _ _ _ Hsave) as (_ & Hev & _ & Hx & Hp).
  assert (Hs1 : hush s s1) by (eapply hush_events; [apply hush_refl|done]).
  destruct r as [[[checksum duplicate] [e|]]|e|c];
    [| |by destruct (Hp e)|by destruct (Hx c)].
  { apply wp_emit. intros _. apply hush_emit; [|done].
    right. right. right. by eexists. }
  destruct duplicate.
  { apply wp_bind, wp_emit. unfold update_report. apply wp_modify. intros _.
    eapply hush_events with (s' := add_event _ s1); [|done].
    apply hush_emit; [apply quiet_Debug|done]. }
  apply wp_bind, wp_emit.
  destruct (Exec_NoExec opts); cbn [negb].
  { apply wp_ret. intros _. apply hush_emit; [apply quiet_Debug|done]. }
  apply wp_bind.
  eapply wp_mono; [|by apply mutateExec_hush].
  intros [[code mutant']|e|c] s2 Hh; [|by intros [v [=]]..].
  assert (Hs2 : hush s s2).
  { eapply hush_trans; [|by apply Hh; eexists].
    apply hush_emit; [apply quiet_Debug|done]. }
  apply wp_bind, wp_emit.
  apply wp_bind, wp_ReadFile; [by intros e _; apply wp_log_Fatal; intros [v [=]]|].
  intros msc _ _.
  apply wp_of_run. intros r3 s3 Hc _.
  destruct (classify_silent opts
              (strconv_Quote (mutatedFile +:+ "." +:+ Sprintf_d mutationID)
               +:+ " with checksum " +:+ checksum) code
              (with_MutatedSourceCode mutant' msc)
              (add_event (Console "Debug" ("Exited with " +:+ Sprintf_d code)) s2) Hs)
    as (Hev3 & _).
  rewrite Hc in Hev3. cbn [snd] in Hev3.
  eapply hush_events; [|exact Hev3].
  apply hush_emit; [apply quiet_Debug|done].
Qed.

Lemma mutate_changed_hush opts m pkgPath originalFile fset src mutatedFile changed :
  Config_SilentMode opts = true -> General_Debug opts = false ->
  General_Verbose opts = false ->
  forall mutationID s,
    wp (mutate_changed opts m mutationID pkgPath originalFile fset src mutatedFile
                       [] changed)
       (fun r s' => (exists v, r = Ret v) -> hush s s') s.
Proof.
  intros Hs Hd Hv. induction changed as [|tree rest IH]; intros mutationID s;
    cbn [mutate_changed]; [apply wp_ret; intros _; apply hush_refl|].
  apply wp_bind.
  eapply wp_mono; [|by apply mutate_mutant_hush].
  intros [[]|e|c] s1 Hh; [|by intros [v [=]]..].
  eapply wp_mono; [|apply IH]. cbn beta. intros r s2 Hh2 Hr.
  eapply hush_trans; [apply Hh; by eexists|by apply Hh2].
Qed.

Lemma mutate_hush opts mutators pkgPath originalFile fset src node mutatedFile filters :
  Config_SilentMode opts = true -> General_Debug opts = false ->
  General_Verbose opts = false ->
  forall mutationID tree s,
    wp (mutate opts mutators mutationID pkgPath originalFile fset tree src node
               mutatedFile [] filters)
       (fun r s' => (exists v, r = Ret v) -> hush s s') s.
Proof.
  intros Hs Hd Hv. induction mutators as [|m rest IH]; intros mutationID tree s;
    cbn [mutate]; [apply wp_ret; intros _; apply hush_refl|].
  apply wp_bind, wp_emit.
  destruct (mutesting.MutateWalk _ _ _) as [changed [ended tree']].
  apply wp_bind.
  eapply wp_mono; [|by apply mutate_changed_hush].
  intros [mutationID'|e|c] s1 Hh; [|by intros [v [=]]..].
  assert (Hs1 : hush s s1).
  { eapply hush_trans; [|by apply Hh; eexists].
    apply hush_emit; [apply quiet_Debug|apply hush_refl]. }
  destruct ended as [[]|e|c]; [|by intros [v [=]]..].
  eapply wp_mono; [|apply IH]. cbn beta. intros r s2 Hh2 Hr.
  eapply hush_trans; [done|by apply Hh2].
Qed.

Lemma stdout_text_app l1 l2 : stdout_text (l1 ++ l2) = stdout_text l1 +:+ stdout_text l2.
Proof.
  induction l1 as [|e l1 IH]; [done|]. cbn [app stdout_text].
  destruct e; rewrite ?IH, ?string_app_assoc; reflexivity.
Qed.

Lemma replay_quiet opts evs :
  General_Debug opts = false ->
  Forall quiet evs ->
  forall st,
    exists errs,
      stdout_text (events (console.replay opts evs st).2) =
        stdout_text (events st) +:+
        String.concat "" (map (fun e => "INTERNAL ERROR " +:+ e +:+ LF) errs).
Proof.
  intros Hd Hq. induction Hq as [|e evs He Hq IH]; intros st.
  - exists []. cbn. by rewrite app_nil_r_string.
  - destruct He as [He|[[t ->]|[[msg ->]|[err ->]]]].
    + destruct e; try done. cbn [console.replay]. unfold bind, emit, modify.
      cbn. destruct (IH (add_event (Exec argv env fs) st)) as (errs & E).
      exists errs. rewrite E. cbn [events add_event].
      by rewrite stdout_text_app, app_nil_r_string.
    + cbn [console.replay]. unfold bind, emit, modify. cbn.
      destruct (IH (add_event (Stderr t) st)) as (errs & E).
      exists errs. rewrite E. cbn [events add_event].
      by rewrite stdout_text_app, app_nil_r_string.
    + cbn [console.replay]. unfold console.call. cbn [String.eqb Ascii.eqb Bool.eqb].
      unfold console.Debug. rewrite Hd. cbn [when]. unfold bind, ret. cbn.
      apply IH.
    + cbn [console.replay]. unfold bind, emit, modify. cbn.
      destruct (IH (add_event (Stdout ("INTERNAL ERROR " +:+ err +:+ LF)) st))
        as (errs & E).
      exists (err :: errs). rewrite E. cbn [events add_event map].
      rewrite stdout_text_app. cbn [stdout_text]. rewrite app_nil_r_string.
      rewrite string_app_assoc. f_equal.
      destruct errs; cbn [map String.concat]; [by rewrite app_nil_r_string|].
      reflexivity.
Qed.

(** X16 (a silent run): with silent mode on and neither debug nor verbose
    set, a run of [mutate] in built-in mode that returns has made only
    these marks: child processes, writes to standard error, calls of
    [console.Debug], and lines INTERNAL ERROR for saves that failed.  So
    all that reaches standard output is a sequence of INTERNAL ERROR
    lines: no diff, no PASS or FAIL line, no test output. *)
Theorem silent_run_shows_only_internal_errors
    (opts : Options) (mutators : list mutatorItem) (mutationID : Z)
    (pkgPath originalFile : string) (fset : FileSet) (tree : ast.Heap)
    (src node : ast.loc) (mutatedFile : string)
    (filters : list annotation.NodeFilter) (s : State) (id' : Z) (s' : State) :
  Config_SilentMode opts = true ->
  General_Debug opts = false ->
  General_Verbose opts = false ->
  mutate opts mutators mutationID pkgPath originalFile fset tree src node
         mutatedFile [] filters s = (Ret id', s') ->
  let evs := trace_of (mutate opts mutators mutationID pkgPath originalFile fset tree
                              src node mutatedFile [] filters) s in
  events s' = events s ++ evs /\
  Forall quiet evs /\
  exists errs,
    stdout_text (console.output opts evs) =
      String.concat "" (map (fun e => "INTERNAL ERROR " +:+ e +:+ LF) errs).
Proof.
  intros Hs Hd Hv Hrun. cbv zeta.
  pose proof (mutate_hush opts mutators pkgPath originalFile fset src node mutatedFile
                filters Hs Hd Hv mutationID tree s) as Hh.
  unfold wp in Hh. rewrite Hrun in Hh. cbn [fst snd] in Hh.
  destruct Hh as (evs & E & Hq); [by eexists|].
  rewrite (trace_of_app _ _ evs) by (by rewrite Hrun).
  split; [done|]. split; [done|].
  destruct (replay_quiet opts evs Hd Hq (mkState ∅ ∅ emptyReport [])) as (errs & Eo).
  exists errs. unfold console.output. by rewrite Eo.
Qed.

End Silent.

Section LineProofs.
Import ast line.
Variable shouldSkipMutator : mutatorInfo -> string -> bool.
Variable Pos_of : loc -> Pos.

Lemma filterNodesOnNextLine_range_true entries node mutatorName :
  filterNodesOnNextLine_range shouldSkipMutator Pos_of entries node mutatorName = true <->
  exists line n mutators,
    (line, n) ∈ entries /\ n !! Pos_of node = Some mutators /\
    shouldSkipMutator mutators mutatorName = true.
Proof.
  induction entries as [|[line n] rest IH]; cbn [filterNodesOnNextLine_range].
  - split; [done|]. intros (? & ? & ? & Hin & _). by apply elem_of_nil in Hin.
  - destruct (n !! Pos_of node) as [mutators|] eqn:E.
    + destruct (shouldSkipMutator mutators mutatorName) eqn:Hskip.
      * split; [|done]. intros _. exists line, n, mutators. split; [left|done].
      * rewrite IH. split.
        -- intros (l' & n' & m' & Hin & ?). exists l', n', m'. split; [by right|done].
        -- intros (l' & n' & m' & Hin & E' & Hs').
           apply elem_of_cons in Hin as [[= -> ->]|Hin]; [congruence|].
           by exists l', n', m'.
    + rewrite IH. split.
      * intros (l' & n' & m' & Hin & ?). exists l', n', m'. split; [by right|done].
      * intros (l' & n' & m' & Hin & E' & Hs').
        apply elem_of_cons in Hin as [[= -> ->]|Hin]; [congruence|].
        by exists l', n', m'.
Qed.

(** X17 (the next-line filter and the order of the map): whatever order
    the loop of [filterNodesOnNextLine] visits the lines of the map in,
    the answer is the same: the node is filtered out exactly when, on some
    line, the map has an entry at the node's position whose list excludes
    the mutator.  With an empty map no node is filtered out. *)
Theorem next_line_filter_ignores_map_order
    (l : LineAnnotation) (node : loc) (mutatorName : string) :
  (forall entries,
      entries ≡ₚ map_to_list (Exclusions l) ->
      filterNodesOnNextLine_range shouldSkipMutator Pos_of entries node mutatorName =
        filterNodesOnNextLine shouldSkipMutator Pos_of l node mutatorName) /\
  (filterNodesOnNextLine shouldSkipMutator Pos_of l node mutatorName = true <->
   exists line n mutators,
     Exclusions l !! line = Some n /\ n !! Pos_of node = Some mutators /\
     shouldSkipMutator mutators mutatorName = true) /\
  (Exclusions l = ∅ ->
   filterNodesOnNextLine shouldSkipMutator Pos_of l node mutatorName = false).
Proof.
  split_and!.
  - intros entries Hperm. unfold filterNodesOnNextLine.
    apply eq_true_iff_eq. rewrite !filterNodesOnNextLine_range_true.
    by setoid_rewrite Hperm.
  - unfold filterNodesOnNextLine. rewrite filterNodesOnNextLine_range_true.
    by setoid_rewrite elem_of_map_to_list.
  - intros E. unfold filterNodesOnNextLine. by rewrite E, map_to_list_empty.
Qed.

End LineProofs.

Section MoreRuns.
Import ast mutator main.

(** X2: the formatter rejects [demo.broken]; the loop prints the error
    and counts nothing. *)
Lemma failed_save_is_reported_witness :
  let E := demo.env CmdNil in
  let saved := @saveAST E "tmp/a.go.0" tt demo.broken 1%positive demo.state0 in
  @mutate_mutant E demo.opts demo.item 0 "p" "a.go" tt demo.broken 1%positive "tmp/a.go" []
                 demo.state0
    = (Ret tt, add_event (Stdout ("INTERNAL ERROR " +:+ "expected 'package'" +:+ LF))
                         saved.2) /\
  report saved.2 = report demo.state0 /\ files saved.2 = files demo.state0 /\
  events saved.2 = events demo.state0.
Proof.
  cbv zeta.
  apply (@failed_save_is_reported_not_counted (demo.env CmdNil) demo.opts demo.item 0 "p"
           "a.go" tt demo.broken 1%positive "tmp/a.go" [] demo.state0
           "package p // original" "" false "expected 'package'").
  - reflexivity.
  - vm_compute. reflexivity.
  - vm_compute. reflexivity.
Defined.

(** X3: [demo.two_loops] under no-exec: two mutants saved, none run. *)
Lemma no_exec_witness :
  let run := @mutate (demo.env CmdNil) cases.noexec [demo.item] 0 "p" "a.go" tt
               demo.two_loops 1%positive 1%positive "tmp/a.go" [] [] demo.state0 in
  (exists evs, events run.2 = events demo.state0 ++ evs /\ no_child evs = true) /\
  executed_part (report run.2) = executed_part (report demo.state0).
Proof.
  apply (@no_exec_runs_and_classifies_nothing (demo.env CmdNil) cases.noexec [demo.item] 0
           "p" "a.go" tt demo.two_loops 1%positive 1%positive "tmp/a.go" [] []
           demo.state0).
  reflexivity.
Defined.

(** X6: [diff] cannot find the mutant's file. *)
Lemma failed_diff_witness :
  let run := @mutateExec cases.env_diff_trouble demo.opts "p" "a.go" "tmp/a.go.0" []
               demo.mutant0 demo.state0 in
  run.1 = Panic "Could not execute diff on mutation file" /\
  files run.2 = files demo.state0 /\ report run.2 = report demo.state0.
Proof.
  destruct (@failed_diff_stops_before_the_swap cases.env_diff_trouble demo.opts "p" "a.go"
              "tmp/a.go.0" demo.mutant0 demo.state0 (files demo.state0)
              "diff: tmp/a.go.0: No such file or directory" (ExitError 2))
    as ((msg & Hr & Hm) & Hf & _ & Hrep).
  - vm_compute. reflexivity.
  - vm_compute. discriminate.
  - vm_compute. discriminate.
  - cbv zeta. rewrite Hr, Hm. by split_and!.
Defined.

(** X7: after a crash, with the first rename refused: the mutant of the
    earlier run is replaced by the original of the earlier run, that is,
    what stood in [a.go] when the call began is lost. *)
Lemma stale_copy_witness :
  let E := refusing (demo.env CmdNil) (Rename "a.go" "a.go.tmp") in
  let run := @mutateExec E demo.opts "p" "a.go" "tmp/a.go.0" [] demo.mutant0
               cases.after_crash in
  run.1 = Panic "permission denied" /\
  files run.2 !! "a.go" = Some "package p // original" /\
  files run.2 !! "a.go.tmp" = None.
Proof.
  destruct (@stale_copy_replaces_the_original
              (refusing (demo.env CmdNil) (Rename "a.go" "a.go.tmp")) demo.opts "p" "a.go"
              "tmp/a.go.0" demo.mutant0 cases.after_crash "package p // original")
    as (Hr & Hf & Ht & _).
  - intros argv env fs. cbn [exec_Run demo.env refusing]. unfold demo.Run.
    by repeat case_match.
  - vm_compute. reflexivity.
  - right. vm_compute. reflexivity.
  - vm_compute. reflexivity.
  - vm_compute. reflexivity.
  - by split_and!.
Defined.

(** X8: the mutation proposed at the first loop of [demo.two_loops]. *)
Lemma thunks_witness :
  Reset demo.proposed demo.after_proposal = demo.after_proposal.
Proof.
  refine (proj1 (thunks_write_one_field 2%positive demo.two_loops demo.after_proposal
                   [demo.proposed] demo.proposed _ _)).
  - vm_compute. reflexivity.
  - left. reflexivity.
Defined.

(** X9: the operator on [cases.no_body]. *)
Lemma range_without_body_witness :
  exists h',
    loop.MutatorLoopRangeBreak 1%positive cases.no_body
      = (Panic "invalid memory address or nil pointer dereference", h') /\
    extends cases.no_body h'.
Proof.
  apply (range_without_body_panics 1%positive cases.no_body
           (mkRangeStmt 10 None None 0 DEFINE None None)); reflexivity.
Defined.

(** X10: the second blacklist file does not exist. *)
Lemma unreadable_blacklist_witness :
  exists e s',
    @mainCmd_from_blacklist (demo.env CmdNil) (demo.with_blacklist ["blacklist"; "missing"])
      demo.registry (fun _ => ret returnOk) demo.state_z = (Ret returnError, s') /\
    events s' = events demo.state_z ++
      [Stderr (("Cannot read blacklist file " +:+ demo.quote "missing" +:+ ": " +:+ e)
               +:+ LF)] /\
    mutationBlackList s' = {[ "zzzzzzzzzzzzzzzzzzzzzzzzzzzzzzzz" ]}.
Proof.
  destruct (@unreadable_blacklist_file_is_an_error (demo.env CmdNil)
              (demo.with_blacklist ["blacklist"; "missing"]) demo.registry
              (fun _ => ret returnOk) demo.state_z ["blacklist"] "missing" []
              ["zzzzzzzzzzzzzzzzzzzzzzzzzzzzzzzz"])
    as (e & s' & Hrun & Hev & _ & _ & Hbl).
  - reflexivity.
  - vm_compute. reflexivity.
  - vm_compute. reflexivity.
  - right. vm_compute. reflexivity.
  - exists e, s'. split; [done|]. split; [done|]. rewrite Hbl. vm_compute. reflexivity.
Defined.

(** X11: the two fingerprints of [cases.listed] are read back. *)
Lemma blacklist_read_back_witness :
  @mainCmd_from_blacklist (demo.env CmdNil) (demo.with_blacklist ["seen.txt"])
    demo.registry (fun _ => ret returnOk) cases.listed
  = (mutators <- @mainCmd_mutators (demo.env CmdNil) (demo.with_blacklist ["seen.txt"])
                   demo.registry ;; ret returnOk)%go
      (set_mutationBlackList
         (list_to_set ["d41d8cd98f00b204e9800998ecf8427e";
                       "224562c5cbffa8e3fe364b065ca6083c"] ∪ mutationBlackList cases.listed)
         cases.listed).
Proof.
  apply (@blacklist_of_checksum_lines_is_read_back (demo.env CmdNil)
           (demo.with_blacklist ["seen.txt"]) demo.registry (fun _ => ret returnOk)
           cases.listed "seen.txt"
           ["d41d8cd98f00b204e9800998ecf8427e"; "224562c5cbffa8e3fe364b065ca6083c"]).
  - reflexivity.
  - reflexivity.
  - vm_compute. reflexivity.
  - vm_compute. reflexivity.
Defined.

(** X12: one name and one pattern against the four of [demo.registry];
    the pattern [loop/r*] stands for the prefix [loop/], its last two
    bytes cut. *)
Lemma disable_arguments_witness :
  names_of (@mainCmd_mutators (demo.env CmdNil)
              (demo.disabling ["arithmetic/base"; "loop/r*"])
              demo.registry demo.state0).1
    = Ret ["arithmetic/assignment"; "arithmetic/bitwise"].
Proof.
  rewrite (proj1 (@disable_arguments_filter_the_registry (demo.env CmdNil)
                    (demo.disabling ["arithmetic/base"; "loop/r*"]) demo.registry
                    demo.state0 eq_refl)).
  vm_compute. reflexivity.
Defined.

(** X14: [cases.a_diff] through [PrintDiff], colours off. *)
Lemma PrintDiff_witness :
  stdout_text (trace_of (@console.PrintDiff cases.no_color cases.a_diff) demo.state0)
    = cases.a_diff +:+ LF.
Proof.
  refine (proj1 (@PrintDiff_prints_the_whole_diff cases.no_color cases.a_diff
                   demo.state0 _)).
  reflexivity.
Defined.

(** X15: an exit code that is none of 0, 1 and 2. *)
Lemma classes_as_shown_witness :
  @console.output cases.no_color demo.opts
    (trace_of (classify demo.opts "tmp/a.go.0" 7 demo.mutant0) demo.state0)
  = [Stdout ("UNKOWN exit code for tmp/a.go.0" +:+ LF);
     Stdout (console.frameLine +:+ LF)].
Proof.
  rewrite (@classes_as_shown cases.no_color demo.opts "tmp/a.go.0" 7 demo.mutant0
             demo.state0).
  - vm_compute. reflexivity.
  - reflexivity.
Defined.

(** X16: a silent run over [demo.two_loops]: nothing on standard output. *)
Lemma silent_run_witness :
  let run := @mutate (demo.env CmdNil) cases.silent [demo.item] 0 "p" "a.go" tt
               demo.two_loops 1%positive 1%positive "tmp/a.go" [] [] in
  exists errs,
    stdout_text (@console.output cases.no_color cases.silent (trace_of run demo.state0)) =
      String.concat "" (map (fun e => "INTERNAL ERROR " +:+ e +:+ LF) errs).
Proof.
  cbv zeta.
  destruct (@silent_run_shows_only_internal_errors (demo.env CmdNil) cases.no_color
              cases.silent [demo.item] 0 "p" "a.go" tt demo.two_loops 1%positive 1%positive
              "tmp/a.go" [] demo.state0 2
              (@mutate (demo.env CmdNil) cases.silent [demo.item] 0 "p" "a.go" tt
                 demo.two_loops 1%positive 1%positive "tmp/a.go" [] [] demo.state0).2)
    as (_ & _ & Hout).
  - reflexivity.
  - reflexivity.
  - reflexivity.
  - vm_compute. reflexivity.
  - exact Hout.
Defined.

End MoreRuns.

Section Arguments.
Import main cmd.
Context `{CmdEnv}.

Ltac no_run :=
  unfold bind, exitError_of, exitError, emit, modify, ret; cbn; intros ?; by simplify_eq.

Lemma wp_exitError msg (Q : outcome Z -> State -> Prop) s :
  Q (Ret returnError) (add_event (Stderr (msg +:+ LF)) s) -> wp (exitError msg) Q s.
Proof. done. Qed.

Lemma wp_exitError_of e (Q : outcome Z -> State -> Prop) s :
  Q (Ret returnError) (add_event (Stderr (fmt_Sprintf (e +:+ LF))) s) ->
  wp (exitError_of e) Q s.
Proof. done. Qed.

Lemma Println_each_run lines : forall s,
  Println_each lines s =
    (Ret tt, mkState (files s) (mutationBlackList s) (report s)
                     (events s ++ map (fun l => Stdout (l +:+ LF)) lines)).
Proof.
  induction lines as [|l rest IH]; intros s; cbn [Println_each map].
  - unfold ret. rewrite app_nil_r. by destruct s.
  - unfold bind, emit, modify. rewrite IH. cbn. by rewrite <- app_assoc.
Qed.

(** X18 (when [checkArguments] lets the run go on): if [checkArguments]
    answers that the run is not over, then the code it returns is 0, the
    flags library has parsed the arguments without error, there was at
    least one argument, neither help nor the list of mutators was asked
    for, no completion is under way, and in the options it leaves, debug
    implies verbose.  It has read at most the config file: no file is
    changed and nothing is written to standard error. *)
Theorem checkArguments_lets_the_run_go_on
    (args : list string) (opts : CmdOptions) (s : State)
    (code : Z) (opts' : CmdOptions) (s' : State) :
  checkArguments args opts s = (Ret (false, code, opts'), s') ->
  code = 0 /\
  (exists out parsed, flags_ParseArgs args opts = (out, Ret (parsed, None)) /\
     Remaining_Targets opts' = Remaining_Targets parsed /\
     General_Debug (base opts') = General_Debug (base parsed)) /\
  args <> [] /\
  General_Help opts' = false /\ Mutator_ListMutators opts' = false /\
  os_Getenv "GO_FLAGS_COMPLETION" = "" /\
  (General_Debug (base opts') = true -> General_Verbose (base opts') = true) /\
  files s' = files s /\ report s' = report s /\
  mutationBlackList s' = mutationBlackList s /\
  exists evs, events s' = events s ++ evs /\
              Forall (fun e => exists t, e = Stdout t) evs.
Proof.
  unfold checkArguments.
  destruct flags_AddGroup as [e|]; [no_run|].
  destruct (flags_ParseArgs args opts) as [out [[parsed err]|e|c]] eqn:Hparse.
  2,3: unfold bind, when; destruct (negb _); no_run.
  set (s1 := (when (negb (String.eqb out "")) (emit (Stdout out)) s).2).
  assert (H1 : when (negb (String.eqb out "")) (emit (Stdout out)) s = (Ret tt, s1) /\
               files s1 = files s /\ report s1 = report s /\
               mutationBlackList s1 = mutationBlackList s /\
               exists evs, events s1 = events s ++ evs /\
                           Forall (fun e => exists t, e = Stdout t) evs).
  { unfold s1, when. destruct (negb _); cbn.
    - split_and!; try done. exists [Stdout out]. split; [done|].
      apply Forall_singleton. by eexists.
    - split_and!; try done. exists []. by rewrite app_nil_r. }
  destruct H1 as (Hw & Hf1 & Hr1 & Hb1 & Hev1). clearbody s1.
  unfold bind at 1. rewrite Hw. unfold bind at 1.
  destruct (0 <? Z.of_nat (String.length (os_Getenv "GO_FLAGS_COMPLETION"))) eqn:Hcomp;
    cbn [negb andb].
  { rewrite andb_false_r.
    destruct (Mutator_ListMutators parsed);
      [unfold bind; rewrite Println_each_run; no_run|].
    destruct err as [e|]; no_run. }
  rewrite andb_true_r.
  destruct (General_Help parsed) eqn:Hhelp; cbn [orb]; [no_run|].
  destruct (Z.of_nat (Datatypes.length args) =? 0) eqn:Hargs; [no_run|].
  destruct (Mutator_ListMutators parsed) eqn:Hlist;
    [unfold bind; rewrite Println_each_run; no_run|].
  destruct err as [e|]; [no_run|].
  assert (Henv : os_Getenv "GO_FLAGS_COMPLETION" = "").
  { apply Z.ltb_ge in Hcomp. destruct (os_Getenv _); [done|cbn in Hcomp; lia]. }
  assert (Hne : args <> []).
  { intros ->. by cbn in Hargs. }
  set (o2 := if General_Debug (base parsed)
             then with_base parsed (with_Verbose (base parsed) true) else parsed).
  assert (Ho2 : General_Help o2 = false /\ Mutator_ListMutators o2 = false /\
                Remaining_Targets o2 = Remaining_Targets parsed /\
                General_Debug (base o2) = General_Debug (base parsed) /\
                (General_Debug (base o2) = true -> General_Verbose (base o2) = true)).
  { unfold o2. destruct (General_Debug (base parsed)) eqn:Hd; cbn; by rewrite ?Hd. }
  destruct Ho2 as (A1 & A2 & A3 & A4 & A5). clearbody o2.
  destruct (negb (String.eqb (General_Config o2) "")).
  - unfold bind at 1.
    unfold os_ReadFile, bind at 1, get at 1.
    destruct (os_refuses (ReadFile (General_Config o2))); [no_run|].
    destruct (files s1 !! General_Config o2) as [yamlFile|]; [|no_run].
    unfold ret at 1.
    destruct (yaml_Unmarshal yamlFile _) as [silent [e|]]; [no_run|].
    intros [= <- <- <-]. cbn.
    split_and!; try done. by exists out, parsed.
  - intros [= <- <- <-].
    split_and!; try done. by exists out, parsed.
Qed.

Lemma wp_get (Q : outcome State -> State -> Prop) s : Q (Ret s) s -> wp get Q s.
Proof. done. Qed.

Lemma wp_gets {A} (f : State -> A) (Q : outcome A -> State -> Prop) s :
  Q (Ret (f s)) s -> wp (gets f) Q s.
Proof. done. Qed.

Lemma wp_Println_each lines (Q : outcome unit -> State -> Prop) s :
  Q (Ret tt) (mkState (files s) (mutationBlackList s) (report s)
                      (events s ++ map (fun l => Stdout (l +:+ LF)) lines)) ->
  wp (Println_each lines) Q s.
Proof. intros HQ. unfold wp. by rewrite Println_each_run. Qed.

(** One of the four codes [returnOk] to [returnError]. *)
Lemma checkArguments_code args opts s :
  wp (checkArguments args opts)
     (fun r _ => forall e c o, r = Ret (e, c, o) -> 0 <= c <= 3) s.
Proof.
  unfold checkArguments.
  destruct flags_AddGroup as [e|].
  { apply wp_bind, wp_exitError_of, wp_ret. intros ? ? ? [= _ <- _]. done. }
  destruct (flags_ParseArgs args opts) as [out [[parsed err]|e|c]].
  2,3: apply wp_bind, wp_when; [intros _; apply wp_emit|intros _]; by apply wp_bind.
  apply wp_bind, wp_when; [intros _; apply wp_emit|intros _].
  all: apply wp_bind; unfold wp at 1; cbn [fst snd].
  all: destruct (_ && _);
    [apply wp_bind, wp_emit, wp_ret; intros ? ? ? [= _ <- _]; done|].
  all: destruct (Mutator_ListMutators parsed);
    [apply wp_bind, wp_Println_each, wp_ret; intros ? ? ? [= _ <- _]; done|].
  all: destruct err as [e|];
    [apply wp_bind, wp_exitError_of, wp_ret; intros ? ? ? [= _ <- _]; done|].
  all: destruct (0 <? _); [apply wp_ret; intros ? ? ? [= _ <- _]; done|].
  all: destruct (negb (String.eqb _ "")); [|apply wp_ret; intros ? ? ? [= _ <- _]; done].
  all: apply wp_bind, wp_ReadFile;
    [intros e _; apply wp_bind, wp_exitError, wp_ret; intros ? ? ? [= _ <- _]; done|].
  all: intros yamlFile _ _.
  all: destruct (yaml_Unmarshal _ _) as [silent [e|]];
    [apply wp_bind, wp_exitError, wp_ret; intros ? ? ? [= _ <- _]; done
    |apply wp_ret; intros ? ? ? [= _ <- _]; done].
Qed.

End Arguments.

Section MainCmd.
Import main cmd.
Context `{CmdEnv}.

Lemma mainCmd_blacklist_lines_code lines : forall s,
  wp (mainCmd_blacklist_lines lines)
     (fun r _ => forall c, r = Ret (Some c) -> c = returnError) s.
Proof.
  induction lines as [|l rest IH]; intros s; cbn [mainCmd_blacklist_lines].
  - by apply wp_ret.
  - destruct (String.eqb l ""); [apply IH|].
    destruct (negb _).
    + apply wp_bind, wp_exitError, wp_ret. by intros c [= <-].
    + apply wp_bind, wp_modify, IH.
Qed.

Lemma mainCmd_blacklist_code blacklist : forall s,
  wp (mainCmd_blacklist blacklist)
     (fun r _ => forall c, r = Ret (Some c) -> c = returnError) s.
Proof.
  induction blacklist as [|f rest IH]; intros s; cbn [mainCmd_blacklist].
  - by apply wp_ret.
  - apply wp_bind, wp_ReadFile.
    + intros e _. apply wp_bind, wp_exitError, wp_ret. by intros c [= <-].
    + intros c _ _. apply wp_bind.
      eapply wp_mono; [|apply mainCmd_blacklist_lines_code].
      by intros [[code|]|e|code] s1 Hc.
Qed.

Lemma mainCmd_from_blacklist_code opts registry rest s :
  (forall mutators s1, wp (rest mutators) (fun r _ => forall c, r = Ret c -> 0 <= c <= 3) s1) ->
  wp (mainCmd_from_blacklist opts registry rest)
     (fun r _ => forall c, r = Ret c -> 0 <= c <= 3) s.
Proof.
  intros Hrest. unfold mainCmd_from_blacklist. apply wp_bind.
  eapply wp_mono; [|apply mainCmd_blacklist_code].
  intros [[code|]|e|code] s1 Hc; try done.
  - apply wp_ret. intros c [= <-]. by rewrite (Hc _ eq_refl).
  - apply wp_bind, wp_of_run. intros [mutators|e|c] s2 _; try done. all: apply Hrest.
Qed.

Lemma mainCmd_printAST_code files : forall s,
  wp (mainCmd_printAST files) (fun r _ => forall c, r = Ret c -> 0 <= c <= 3) s.
Proof.
  induction files as [|file rest IH]; intros s; cbn [mainCmd_printAST].
  - apply wp_ret. by intros c [= <-].
  - apply wp_bind, wp_emit, wp_bind, wp_get.
    destruct (parser_ParseFile _ _) as [[tree src] [e|]].
    + apply wp_exitError. by intros c [= <-].
    + apply wp_bind, wp_emit, wp_bind, wp_emit, IH.
Qed.

Lemma mainCmd_file_code opts mutators tmpDir execs file s :
  wp (mainCmd_file opts mutators tmpDir execs file)
     (fun r _ => forall c, r = Ret (Some c) -> c = returnError) s.
Proof.
  unfold mainCmd_file.
  apply wp_bind, wp_emit, wp_bind, wp_get.
  destruct (parser_ParseAndTypeCheckFile _ _) as [p [e|]].
  { apply wp_bind, wp_exitError_of, wp_ret. by intros c [= <-]. }
  destruct (os_fails (MkdirAll _)) as [e|]; [by apply wp_panic|].
  apply wp_bind, wp_CopyFile; [by intros e _; apply wp_panic|].
  intros c _ _. apply wp_bind, wp_emit.
  destruct (negb _).
  - destruct (regexp_Compile _) as [e|].
    + apply wp_bind, wp_exitError, wp_ret. by intros c' [= <-].
    + apply wp_bind, wp_of_run. by intros [id|e|c'] s1 _.
  - apply wp_bind, wp_of_run. by intros [id|e|c'] s1 _.
Qed.

Lemma mainCmd_files_code opts mutators tmpDir execs files : forall s,
  wp (mainCmd_files opts mutators tmpDir execs files)
     (fun r _ => forall c, r = Ret (Some c) -> c = returnError) s.
Proof.
  induction files as [|file rest IH]; intros s; cbn [mainCmd_files].
  - by apply wp_ret.
  - apply wp_bind. eapply wp_mono; [|apply mainCmd_file_code].
    intros [[code|]|e|code] s1 Hc; try done. all: apply IH.
Qed.

Lemma mainCmd_finish_code opts tmpDir s :
  wp (mainCmd_finish opts tmpDir) (fun r _ => forall c, r = Ret c -> 0 <= c <= 3) s.
Proof.
  unfold mainCmd_finish. apply wp_bind.
  assert (Hnext : forall s1,
    wp (report <- gets report ;;
        let '(msi, total) := models_Calculate report in
        (if negb (Exec_NoExec (base opts)) then
           when (negb (Config_SilentMode (base opts)))
                (emit (Stdout ("The mutation score is " +:+ fmt_Sprintf_f msi
                         +:+ " (" +:+ Sprintf_d (KilledCount report) +:+ " passed, "
                         +:+ Sprintf_d (EscapedCount report) +:+ " failed, "
                         +:+ Sprintf_d (DuplicatedCount report) +:+ " duplicated, "
                         +:+ Sprintf_d (SkippedCount report) +:+ " skipped, total is "
                         +:+ Sprintf_d total +:+ ")" +:+ LF)))
         else
           emit (Stdout ("Cannot do a mutation testing summary since no exec command was executed."
                         +:+ LF))) ;;;
        let '(jsonContent, err) := json_Marshal report msi total in
        match err with
        | Some e => exitError_of e
        | None =>
            match os_fails (OpenFile models_ReportFileName) with
            | Some e => exitError_of e
            | None =>
                modify (fun s => set_files (<[models_ReportFileName := ""]> (main.files s)) s) ;;;
                with_defer
                  (match os_fails (Close models_ReportFileName) with
                   | Some e => emit (Stdout ("Error while report file closing: " +:+ e))
                   | None => ret tt
                   end)
                  (match os_fails (WriteString models_ReportFileName) with
                   | Some e => exitError_of e
                   | None =>
                       modify (fun s => set_files (<[models_ReportFileName := jsonContent]>
                                                     (main.files s)) s) ;;;
                       emit (Console "Verbose"
                               ("Save report into " +:+ strconv_Quote models_ReportFileName)) ;;;
                       ret returnOk
                   end)
            end
        end)%go (fun r _ => forall c, r = Ret c -> 0 <= c <= 3) s1).
  { intros s1. apply wp_bind, wp_gets.
    destruct (models_Calculate _) as [msi total].
    apply wp_bind.
    assert (Hafter : forall s2,
      wp (let '(jsonContent, err) := json_Marshal (report s1) msi total in
          match err with
          | Some e => exitError_of e
          | None =>
              match os_fails (OpenFile models_ReportFileName) with
              | Some e => exitError_of e
              | None =>
                  modify (fun s => set_files (<[models_ReportFileName := ""]> (main.files s)) s) ;;;
                  with_defer
                    (match os_fails (Close models_ReportFileName) with
                     | Some e => emit (Stdout ("Error while report file closing: " +:+ e))
                     | None => ret tt
                     end)
                    (match os_fails (WriteString models_ReportFileName) with
                     | Some e => exitError_of e
                     | None =>
                         modify (fun s => set_files (<[models_ReportFileName := jsonContent]>
                                                       (main.files s)) s) ;;;
                         emit (Console "Verbose"
                                 ("Save report into " +:+ strconv_Quote models_ReportFileName)) ;;;
                         ret returnOk
                     end)
              end
          end)%go (fun r _ => forall c, r = Ret c -> 0 <= c <= 3) s2).
    { intros s2. destruct (json_Marshal _ _ _) as [json [e|]].
      { apply wp_exitError_of. by intros c [= <-]. }
      destruct (os_fails (OpenFile _)) as [e|].
      { apply wp_exitError_of. by intros c [= <-]. }
      apply wp_bind, wp_modify.
      apply wp_with_defer; [intros s3; by destruct (os_fails (Close _))|].
      destruct (os_fails (WriteString _)) as [e|].
      - apply wp_exitError_of. by intros c [= <-].
      - apply wp_bind, wp_modify, wp_bind, wp_emit, wp_ret. by intros c [= <-]. }
    destruct (negb (Exec_NoExec _)).
    - apply wp_when; [intros _; apply wp_emit, Hafter|intros _; apply Hafter].
    - apply wp_emit, Hafter. }
  destruct (negb (General_DoNotRemoveTmpFolder opts)).
  - destruct (os_fails (RemoveAll tmpDir)) as [e|]; [by apply wp_panic|].
    apply wp_bind, wp_modify, wp_emit, Hnext.
  - apply wp_ret, Hnext.
Qed.

Lemma mainCmd_run_code opts files mutators s :
  wp (mainCmd_run opts files mutators) (fun r _ => forall c, r = Ret c -> 0 <= c <= 3) s.
Proof.
  unfold mainCmd_run. apply wp_bind, wp_get.
  destruct (os_fails MkdirTemp) as [e|]; [by apply wp_panic|].
  apply wp_bind, wp_emit, wp_bind, wp_modify, wp_bind.
  eapply wp_mono; [|apply mainCmd_files_code].
  intros [[code|]|e|code] s1 Hc; try done.
  - apply wp_ret. intros c [= <-]. by rewrite (Hc _ eq_refl).
  - apply mainCmd_finish_code.
Qed.

(** X19 (the codes [mainCmd] returns): whenever [mainCmd] returns, its
    result is one of the four codes [returnOk], [returnHelp],
    [returnBashCompletion] and [returnError], that is 0 to 3; so when
    [main] ends by its own [os.Exit], the exit status is one of these. *)
Theorem mainCmd_returns_one_of_four_codes (args : list string) (s : State) :
  (forall c s', mainCmd args s = (Ret c, s') ->
     c = returnOk \/ c = returnHelp \/ c = returnBashCompletion \/ c = returnError) /\
  (forall r s', cmd.main args s = (r, s') ->
     (forall v, r <> Ret v) /\
     (forall c s1, mainCmd args s = (Ret c, s1) -> r = Exit c /\ s' = s1)).
Proof.
  assert (Hcode : wp (mainCmd args) (fun r _ => forall c, r = Ret c -> 0 <= c <= 3) s).
  { unfold mainCmd. apply wp_bind, wp_modify, wp_bind.
    eapply wp_mono; [|apply checkArguments_code].
    intros [[[exit code] opts]|e|c] s1 Hc; try done.
    destruct exit.
    { apply wp_ret. intros c [= <-]. by eapply Hc. }
    apply wp_bind, wp_get.
    destruct (_ =? 0).
    { apply wp_exitError. by intros c [= <-]. }
    destruct (Files_ListFiles opts).
    { apply wp_bind, wp_Println_each, wp_ret. by intros c [= <-]. }
    destruct (Files_PrintAST opts); [apply mainCmd_printAST_code|].
    apply mainCmd_from_blacklist_code. intros mutators s2. apply mainCmd_run_code. }
  split.
  - intros c s' Hrun. unfold wp in Hcode. rewrite Hrun in Hcode.
    specialize (Hcode c eq_refl). unfold returnOk, returnHelp, returnBashCompletion,
      returnError. lia.
  - intros r s' Hmain. unfold cmd.main, bind in Hmain.
    destruct (mainCmd args s) as [[c|e|c] s1]; simplify_eq; split; try done.
    by intros c' s2 [= <- <-].
Qed.

End MainCmd.

Section Run.
Import main cmd.
Context `{CmdEnv}.

Lemma Split_aux_cons sep s : forall cur, exists a l, Split_aux sep s cur = a :: l.
Proof.
  induction s as [|c rest IH]; intros cur; cbn [Split_aux]; [by eexists _, _|].
  destruct (Ascii.eqb c sep); [by eexists _, _|apply IH].
Qed.

Lemma concat_Split_aux sep s : forall cur,
  String.concat (String sep "") (Split_aux sep s cur) = string_rev cur +:+ s.
Proof.
  induction s as [|c rest IH]; intros cur; cbn [Split_aux].
  - cbn. by rewrite app_nil_r_string.
  - destruct (Ascii.eqb_spec c sep) as [->|Hne].
    + destruct (Split_aux_cons sep rest "") as (a & l & E).
      specialize (IH ""). rewrite E in IH |- *.
      change (String.concat (String sep "") (string_rev cur :: a :: l))
        with (string_rev cur +:+ String sep "" +:+ String.concat (String sep "") (a :: l)).
      rewrite IH. reflexivity.
    + rewrite IH, string_rev_cons, string_app_assoc. reflexivity.
Qed.

(** X20 (the option exec and the mode): with an empty exec option the
    list [execs] is empty and [mutateExec] runs the built-in steps.  With
    any other, [execs] is the option cut at every blank: it is never
    empty, joined by blanks it gives back the option as written (two
    blanks in a row give an empty argument, nothing is trimmed or
    unquoted), and [mutateExec] starts exactly that command as the only
    child process: no diff and no go test of its own. *)
Theorem exec_option_selects_the_mode (opts : CmdOptions) :
  (Exec_Exec (base opts) = "" -> execs_of opts = []) /\
  (Exec_Exec (base opts) <> "" ->
   exists name args,
     execs_of opts = name :: args /\
     String.concat " " (name :: args) = Exec_Exec (base opts) /\
     forall (pkgPath file mutationFile : string) (mutant : Mutant) (s : State),
     exists env out,
       trace_of (mutateExec (base opts) pkgPath file mutationFile (execs_of opts) mutant) s
       = [Console "Debug" ("Execute " +:+ strconv_Quote (Exec_Exec (base opts))
                           +:+ " for mutation");
          Exec (name :: args) env (files s);
          Stdout out]).
Proof.
  unfold execs_of. split.
  - by intros ->.
  - intros Hne.
    assert (String.eqb (Exec_Exec (base opts)) "" = false) as ->
      by (by apply String.eqb_neq).
    cbn [negb]. unfold Split.
    destruct (Split_aux_cons " " (Exec_Exec (base opts)) "") as (name & args & E).
    exists name, args. split; [done|]. split.
    { rewrite <- E. apply (concat_Split_aux " "). }
    intros pkgPath file mutationFile mutant s. rewrite E.
    unfold mutateExec.
    match goal with |- context [exec_CombinedOutput _ ?l] => set (env := l) end.
    destruct (exec_Run (name :: args) env (files s)) as [[fs' out] e] eqn:Erun.
    exists env, out. apply trace_of_app. clearbody env.
    unfold bind, emit, modify, exec_CombinedOutput, get, ret. cbn.
    rewrite Erun. cbn.
    destruct e as [|st|msg]; cbn; rewrite <- ?app_assoc; by cbn.
Qed.

Lemma mainCmd_files_app opts mutators tmpDir execs pre rest :
  forall s s1,
    mainCmd_files opts mutators tmpDir execs pre s = (Ret None, s1) ->
    mainCmd_files opts mutators tmpDir execs (pre ++ rest) s =
      mainCmd_files opts mutators tmpDir execs rest s1.
Proof.
  induction pre as [|file pre IH]; intros s s1; cbn [app mainCmd_files].
  - by intros [= <-].
  - unfold bind.
    destruct (mainCmd_file opts mutators tmpDir execs file s) as [[[code|]|e|code] s2];
      try done.
    apply IH.
Qed.

(** X21 (a file that does not parse): when a file fails to parse or to
    type-check, [mainCmd] reports the error on standard error and returns
    the error code at once.  The files after it are not looked at, the
    temp folder is not removed, no summary is printed and no report file
    is written: the files on disk stay as the mutation of the earlier
    files left them. *)
Theorem parse_error_ends_the_run
    (opts : CmdOptions) (mutators : list mutatorItem)
    (pre : list string) (file : string) (post : list string)
    (s s1 : State) (p : Parsed) (e : error) :
  os_fails MkdirTemp = None ->
  let tmpDir := os_TempName (files s) in
  let s0 := set_report emptyReport
              (add_event (Console "Verbose"
                            ("Save mutations into " +:+ strconv_Quote tmpDir)) s) in
  mainCmd_files opts mutators tmpDir (execs_of opts) pre s0 = (Ret None, s1) ->
  parser_ParseAndTypeCheckFile file (files s1) = (p, Some e) ->
  mainCmd_run opts (pre ++ file :: post) mutators s =
    (Ret returnError,
     add_event (Stderr (fmt_Sprintf (e +:+ LF)))
       (add_event (Console "Verbose" ("Mutate " +:+ strconv_Quote file)) s1)).
Proof.
  intros Htmp tmpDir s0 Hpre Hparse. unfold mainCmd_run.
  unfold bind at 1, get at 1. rewrite Htmp.
  unfold bind at 1, emit at 1, modify at 1.
  unfold bind at 1, modify at 1.
  fold tmpDir. fold s0.
  unfold bind at 1. rewrite (mainCmd_files_app _ _ _ _ _ _ _ _ Hpre).
  cbn [mainCmd_files]. unfold bind at 1. unfold mainCmd_file.
  unfold bind at 1, emit at 1, modify at 1.
  unfold bind at 1, get at 1. cbn [files add_event]. rewrite Hparse.
  reflexivity.
Qed.

(** X22 (the end of a run): once the files are done, if the temp folder
    can be removed, the report marshalled and the report file opened and
    written, [mainCmd] returns [returnOk] whatever the report holds
    (escaped mutants do not change the result).  By then every file below
    the temp folder is gone (unless the option keeps it), the report file
    holds the JSON text, and no other file has changed.  When no-exec is
    set, the notice that there is no summary is printed even in silent
    mode. *)
Theorem finish_writes_the_report
    (opts : CmdOptions) (tmpDir : string) (s : State) (json : string) :
  let rep := report s in
  json_Marshal rep (models_Calculate rep).1 (models_Calculate rep).2 = (json, None) ->
  General_DoNotRemoveTmpFolder opts = true \/ os_fails (RemoveAll tmpDir) = None ->
  os_fails (OpenFile models_ReportFileName) = None ->
  os_fails (WriteString models_ReportFileName) = None ->
  exists s',
    mainCmd_finish opts tmpDir s = (Ret returnOk, s') /\
    files s' !! models_ReportFileName = Some json /\
    (forall name, name <> models_ReportFileName ->
       files s' !! name =
         if below tmpDir name && negb (General_DoNotRemoveTmpFolder opts)
         then None else files s !! name) /\
    report s' = report s /\
    (Exec_NoExec (base opts) = true ->
     In (Stdout ("Cannot do a mutation testing summary since no exec command was executed."
                 +:+ LF)) (trace_of (mainCmd_finish opts tmpDir) s)).
Proof.
  intros rep Hjson Hrm Hopen Hwrite.
  cut (exists s',
    mainCmd_finish opts tmpDir s = (Ret returnOk, s') /\
    files s' !! models_ReportFileName = Some json /\
    (forall name, name <> models_ReportFileName ->
       files s' !! name =
         if below tmpDir name && negb (General_DoNotRemoveTmpFolder opts)
         then None else files s !! name) /\
    report s' = report s /\
    exists evs', events s' = events s ++ evs' /\
      (Exec_NoExec (base opts) = true ->
       In (Stdout ("Cannot do a mutation testing summary since no exec command was executed."
                   +:+ LF)) evs')).
  { intros (s' & Hrun & A & B & C & evs' & D & E). exists s'.
    split_and!; try done. intros Hno.
    rewrite (trace_of_app _ _ evs') by (by rewrite Hrun). by apply E. }
  unfold mainCmd_finish.
  set (s1 := if negb (General_DoNotRemoveTmpFolder opts)
             then add_event (Console "Debug" ("Remove " +:+ strconv_Quote tmpDir))
                    (set_files (filter (fun kv => below tmpDir kv.1 = false) (files s)) s)
             else s).
  assert (H1 : (if negb (General_DoNotRemoveTmpFolder opts) then
                  match os_fails (RemoveAll tmpDir) with
                  | Some e => panic e
                  | None =>
                      (modify (fun s => set_files (filter (fun kv => below tmpDir kv.1 = false)
                                                          (main.files s)) s) ;;;
                       emit (Console "Debug" ("Remove " +:+ strconv_Quote tmpDir)))%go
                  end
                else ret tt) s = (Ret tt, s1)).
  { unfold s1. destruct (General_DoNotRemoveTmpFolder opts); cbn [negb]; [done|].
    destruct Hrm as [? | ->]; done. }
  assert (Hf1 : forall name, files s1 !! name =
                  if below tmpDir name && negb (General_DoNotRemoveTmpFolder opts)
                  then None else files s !! name).
  { intros name. unfold s1.
    destruct (General_DoNotRemoveTmpFolder opts); cbn [negb]; [by rewrite andb_false_r|].
    rewrite andb_true_r. cbn [files add_event set_files].
    destruct (below tmpDir name) eqn:Hb.
    - apply map_lookup_filter_None. right. intros x _. cbn. congruence.
    - destruct (files s !! name) as [x|] eqn:Hl.
      + by apply map_lookup_filter_Some.
      + apply map_lookup_filter_None. by left. }
  assert (Hr1 : report s1 = rep).
  { unfold s1. by destruct (negb _). }
  assert (He1 : exists pre, events s1 = events s ++ pre).
  { unfold s1. destruct (negb _); [by eexists [_]|exists []; by rewrite app_nil_r]. }
  clearbody s1. destruct He1 as (pre & He1).
  unfold bind at 1. rewrite H1.
  unfold bind at 1, gets at 1. rewrite Hr1.
  destruct (models_Calculate rep) as [msi total]. cbn [fst snd] in Hjson.
  set (summary := if negb (Exec_NoExec (base opts)) then _ else _).
  assert (Hsum : exists evs, summary s1 = (Ret tt, mkState (files s1) (mutationBlackList s1)
                                                  (report s1) (events s1 ++ evs)) /\
            (Exec_NoExec (base opts) = true ->
             In (Stdout ("Cannot do a mutation testing summary since no exec command was executed."
                         +:+ LF)) evs)).
  { unfold summary. destruct (Exec_NoExec (base opts)); cbn [negb].
    - eexists [_]. split; [reflexivity|]. intros _. by left.
    - destruct (Config_SilentMode (base opts)); cbn [negb when].
      + exists []. split; [|done]. unfold ret. rewrite app_nil_r. by destruct s1.
      + eexists [_]. split; [reflexivity|done]. }
  destruct Hsum as (evs & Hsum & Hnotice). clearbody summary.
  unfold bind at 1. rewrite Hsum. rewrite Hjson, Hopen, Hwrite.
  unfold bind, modify, emit, with_defer, ret. cbn.
  destruct (os_fails (Close models_ReportFileName)) as [ec|]; cbn.
  all: eexists; split; [reflexivity|]; cbn [files report events add_event set_files].
  all: split; [by apply lookup_insert_eq|].
  all: split; [intros name Hne; by rewrite !lookup_insert_ne, Hf1 by done|].
  all: split; [done|].
  all: rewrite He1, <- !app_assoc; eexists; split; [reflexivity|].
  all: intros Hno; apply in_or_app; right; apply in_or_app; left; by apply Hnotice.
Qed.


(** X23 (nothing to mutate, and the option list-files): once
    [checkArguments] has let the run go on, [mainCmd] asks for the files
    of the targets.  If there are none it reports that on standard error
    and returns the error code.  If there are some and list-files is set,
    it prints them, one to the line, and returns [returnOk]: the blacklist
    files are not read, no temp folder is made and nothing is mutated,
    whatever the other options say. *)
Theorem list_files_only_lists
    (args : list string) (s : State) (opts : CmdOptions) (s1 : State) :
  checkArguments args zero_Options (set_mutationBlackList ∅ s) = (Ret (false, 0, opts), s1) ->
  let files := importing_FilesOfArgs (Remaining_Targets opts) opts (main.files s1) in
  (files = [] ->
   mainCmd args s =
     (Ret returnError,
      add_event (Stderr ("Could not find any suitable Go source files" +:+ LF)) s1)) /\
  (files <> [] -> Files_ListFiles opts = true ->
   mainCmd args s =
     (Ret returnOk,
      mkState (main.files s1) (mutationBlackList s1) (report s1)
              (events s1 ++ map (fun f => Stdout (f +:+ LF)) files))).
Proof.
  intros Hcheck files.
  assert (Hrun : mainCmd args s =
    (if Z.of_nat (List.length files) =? 0 then
       exitError "Could not find any suitable Go source files"
     else if Files_ListFiles opts then (Println_each files ;;; ret returnOk)%go
     else if Files_PrintAST opts then mainCmd_printAST files
     else mainCmd_from_blacklist (base opts) mutator_registry (mainCmd_run opts files)) s1).
  { unfold mainCmd. unfold bind at 1, modify at 1. unfold bind at 1. by rewrite Hcheck. }
  rewrite Hrun. split.
  - by intros ->.
  - intros Hne Hlist. rewrite Hlist. destruct files as [|f fs]; [done|].
    cbn [List.length].
    assert ((Z.of_nat (S (Datatypes.length fs)) =? 0) = false) as -> by (apply Z.eqb_neq; lia).
    unfold bind. by rewrite Println_each_run.
Qed.

End Run.

Section ShellRuns.
Import main cmd.

(** X18: [go-mutesting --debug a.go]: the run goes on, verbose is set. *)
Lemma debug_sets_verbose_witness :
  let o' := mkCmdOptions (mkOptions true true [] [] "" false 10 false false)
                         false "" false false false false "" ["a.go"] in
  @checkArguments _ shell.env ["--debug"; "a.go"] zero_Options demo.state0
    = (Ret (false, 0, o'), demo.state0) /\
  General_Verbose (base o') = true.
Proof.
  cbv zeta. split; [reflexivity|].
  refine (proj1 (proj2 (proj2 (proj2 (proj2 (proj2 (proj2
            (@checkArguments_lets_the_run_go_on _ shell.env ["--debug"; "a.go"]
               zero_Options demo.state0 0
               (mkCmdOptions (mkOptions true true [] [] "" false 10 false false)
                             false "" false false false false "" ["a.go"])
               demo.state0 _))))))) _).
  - reflexivity.
  - reflexivity.
Defined.

(** X21: [bad.go] does not parse; the run ends there. *)
Lemma parse_error_witness :
  exists s',
    @mainCmd_run _ shell.env (shell.defaults ["bad.go"; "a.go"]) ["bad.go"; "a.go"] []
                 shell.with_bad_file = (Ret returnError, s') /\
    files s' = files shell.with_bad_file.
Proof.
  eexists. split.
  - eapply (@parse_error_ends_the_run _ shell.env (shell.defaults ["bad.go"; "a.go"]) []
             [] "bad.go" ["a.go"] shell.with_bad_file _
             (@mkParsed (demo.env CmdNil) 1%positive demo.two_loops tt "p" [])
             "bad.go:1:1: expected 'package'").
    + reflexivity.
    + reflexivity.
    + reflexivity.
  - reflexivity.
Defined.

(** X22: the end of a run with no-exec, in silent mode. *)
Lemma finish_witness :
  exists s',
    @mainCmd_finish _ shell.env shell.noexec "/tmp/go-mutesting-1" shell.after_run
      = (Ret returnOk, s') /\
    files s' !! "report.json" = Some "{total: 0}" /\
    files s' !! "/tmp/go-mutesting-1/a.go.0" = None /\
    files s' !! "a.go" = Some "package p // original".
Proof.
  destruct (@finish_writes_the_report _ shell.env shell.noexec "/tmp/go-mutesting-1"
              shell.after_run "{total: 0}")
    as (s' & Hrun & Hrep & Hfiles & _).
  - vm_compute. reflexivity.
  - right. reflexivity.
  - reflexivity.
  - reflexivity.
  - exists s'. split; [done|]. split; [done|]. split.
    + rewrite Hfiles by done. reflexivity.
    + rewrite Hfiles by done. vm_compute. reflexivity.
Defined.


(** X23: [go-mutesting --list-files a.go]. *)
Lemma list_files_witness :
  @mainCmd _ shell.env ["--list-files"; "a.go"] demo.state0 =
    (Ret returnOk,
     mkState (files demo.state0) ∅ emptyReport [Stdout ("a.go" +:+ LF)]).
Proof.
  refine (proj2 (@list_files_only_lists _ shell.env ["--list-files"; "a.go"] demo.state0
                   (mkCmdOptions (mkOptions false false [] [] "" false 10 false false)
                                 false "" false false true false "" ["a.go"])
                   demo.state0 _) _ _).
  - reflexivity.
  - vm_compute. discriminate.
  - reflexivity.
Defined.

End ShellRuns.
